(** * The violation detection and risk-scoring engine of the proctoring server

    A shallow embedding of the decision logic of [app/server.mjs] (module
    [ServerMjs]) and of the earlier server file of the same repository
    (module [Part000]): the signature catalogs, the process classifier, the
    network threat scanner, the behavioural and biometric analyzers and the
    violation aggregator, followed by the properties stated about them.

    Conventions of the embedding.
    - JavaScript strings are [string]s of 8-bit characters; [toLowerCase]
      folds the letters A-Z and [trim] strips the ASCII white space.
    - Counts and scores are integers ([Z]).  A metric sent by the client
      is a counter, or a value whose conversion to a number throws; other
      JSON values are outside the model.  Confidence literals are rationals
      ([Q]); sums of confidences are exact here where the source rounds in
      binary floating point, and no statement below depends on a computed
      confidence.
    - A call that may throw takes its outcome as an argument of type
      [outcome]: the process listing and the [netstat] call are inputs.
    - [logToFile] wraps its whole body in [try]/[catch] and returns nothing;
      its calls, the time stamps, the host facts of [getSystemInfo], the
      [evidence] text of a violation and the fields [cpu], [memory] and
      [startTime], which are copied through and never inspected, are left
      out.  So are [aiDetected] and the aggregate confidence figures, which
      compare or add computed floating-point confidences.
    - The session maps [activeSessions] and [sessionViolations], which no
      report reads, are kept out of [ServerMjs]; module [ServerSessions]
      embeds them with the endpoints that read or write them.  The history
      arrays that both maps point to live in an explicit heap, so that a
      push through one map is seen through the other.
    - The [details] text of a violation is kept as its template and the
      values interpolated into it. *)

From Stdlib Require Import List String Ascii Bool ZArith QArith Lia.
Import ListNotations.

Open Scope string_scope.
Open Scope Z_scope.

(** ** Host-language primitives *)

Module JS.

Definition isUpper (c : ascii) : bool :=
  let n := N_of_ascii c in (65 <=? n)%N && (n <=? 90)%N.

Definition lowerChar (c : ascii) : ascii :=
  if isUpper c then ascii_of_N (N_of_ascii c + 32) else c.

(** [String.prototype.toLowerCase] *)
Fixpoint toLowerCase (s : string) : string :=
  match s with
  | EmptyString => EmptyString
  | String c r => String (lowerChar c) (toLowerCase r)
  end.

(** [String.prototype.includes] *)
Fixpoint includes (s sub : string) : bool :=
  prefix sub s ||
  match s with
  | EmptyString => false
  | String _ r => includes r sub
  end.

(** Truthiness of a string value: every string but the empty one. *)
Definition truthy (s : string) : bool := negb (s =? "")%string.

(** Truthiness of a possibly undefined string property. *)
Definition truthyOpt (o : option string) : bool :=
  match o with
  | Some s => truthy s
  | None => false
  end.

(** [n || 0] on a number. *)
Definition orZero (n : Z) : Z := if n =? 0 then 0 else n.

(** [a || b] on a possibly undefined string with a string default. *)
Definition orElse (o : option string) (d : string) : string :=
  match o with
  | Some s => if truthy s then s else d
  | None => d
  end.

Definition isSpace (c : ascii) : bool :=
  let n := N_of_ascii c in ((9 <=? n)%N && (n <=? 13)%N) || (n =? 32)%N.

Fixpoint trimStart (s : string) : string :=
  match s with
  | EmptyString => EmptyString
  | String c r => if isSpace c then trimStart r else s
  end.

Fixpoint trimEnd (s : string) : string :=
  match s with
  | EmptyString => EmptyString
  | String c r =>
      let r' := trimEnd r in
      if isSpace c && (r' =? "")%string then EmptyString else String c r'
  end.

(** [String.prototype.trim] *)
Definition trim (s : string) : string := trimEnd (trimStart s).

Definition newline : ascii := ascii_of_N 10.

(** [s.split('\n')] *)
Fixpoint splitLines (s : string) : list string :=
  match s with
  | EmptyString => [EmptyString]
  | String c r =>
      if (c =? newline)%char then EmptyString :: splitLines r
      else match splitLines r with
           | h :: t => String c h :: t
           | [] => [String c EmptyString]
           end
  end.

Definition isDigit (c : ascii) : bool :=
  let n := N_of_ascii c in (48 <=? n)%N && (n <=? 57)%N.

(** The class [\w] of a regular expression. *)
Definition isWord (c : ascii) : bool :=
  let n := N_of_ascii c in
  isDigit c || ((65 <=? n)%N && (n <=? 90)%N)
  || ((97 <=? n)%N && (n <=? 122)%N) || (n =? 95)%N.

(** The rests of [s] after [[0-9]{1,3}]: one rest per number of digits
    the backtracking matcher may take. *)
Definition digits1to3 (s : string) : list string :=
  match s with
  | String c1 r1 =>
      if isDigit c1 then
        r1 :: match r1 with
              | String c2 r2 =>
                  if isDigit c2 then
                    r2 :: match r2 with
                          | String c3 r3 => if isDigit c3 then [r3] else []
                          | EmptyString => []
                          end
                  else []
              | EmptyString => []
              end
      else []
  | EmptyString => []
  end.

(** The rest of [s] after a literal dot. *)
Definition dot (s : string) : list string :=
  match s with
  | String c r => if (c =? ".")%char then [r] else []
  | EmptyString => []
  end.

(** The rests of [s] after [[0-9]{1,3}\.]. *)
Definition octetDot (s : string) : list string :=
  flat_map dot (digits1to3 s).

(** [\b] after a digit: the end of the text or a non-word character. *)
Definition wordEnd (s : string) : bool :=
  match s with
  | EmptyString => true
  | String c _ => negb (isWord c)
  end.

(** [(?:[0-9]{1,3}\.){3}[0-9]{1,3}\b] matches at the head of [s]. *)
Definition quadAt (s : string) : bool :=
  existsb wordEnd
    (flat_map digits1to3
       (flat_map octetDot (flat_map octetDot (octetDot s)))).

(** Search for a match start; [prevWord] tells whether the character
    before the current position is a word character, so that [\b] holds
    before a digit exactly when it is not. *)
Fixpoint quadFrom (prevWord : bool) (s : string) : bool :=
  (negb prevWord && quadAt s) ||
  match s with
  | EmptyString => false
  | String c r => quadFrom (isWord c) r
  end.

(** [s.match(/\b(?:[0-9]{1,3}\.){3}[0-9]{1,3}\b/g)] is not [null]. *)
Definition matchesIPv4 (s : string) : bool := quadFrom false s.

End JS.

(** The outcome of a call that may throw. *)
Inductive outcome (A : Type) : Type :=
| Returned (a : A)
| Thrown (message : string).
Arguments Returned {A} a.
Arguments Thrown {A} message.

(** ** Data shared by both server files *)

(** The severity strings, with the sentinel [CLEAN] of an empty report. *)
Inductive Severity : Type := CLEAN | LOW | MEDIUM | HIGH | CRITICAL.

Definition Severity_eqb (a b : Severity) : bool :=
  match a, b with
  | CLEAN, CLEAN | LOW, LOW | MEDIUM, MEDIUM | HIGH, HIGH
  | CRITICAL, CRITICAL => true
  | _, _ => false
  end.

(** The order CLEAN < LOW < MEDIUM < HIGH < CRITICAL. *)
Definition rank (s : Severity) : nat :=
  match s with
  | CLEAN => 0
  | LOW => 1
  | MEDIUM => 2
  | HIGH => 3
  | CRITICAL => 4
  end%nat.

Definition sevMax (a b : Severity) : Severity :=
  if (rank a <=? rank b)%nat then b else a.

Inductive ViolationType : Type :=
| UNAUTHORIZED_APPLICATION
| SUSPICIOUS_ACTIVITY
| SUSPICIOUS_NETWORK_ACTIVITY
| SUSPICIOUS_BROWSER_ACTIVITY
| EXCESSIVE_TAB_SWITCHING
| EXCESSIVE_RIGHT_CLICKS
| EXTENDED_IDLE_TIME
| UNUSUAL_KEYSTROKE_PATTERN
| FACE_NOT_DETECTED
| LOW_ATTENTION_SCORE
| CRITICAL_ATTENTION_SCORE.

Definition ViolationType_eqb (a b : ViolationType) : bool :=
  match a, b with
  | UNAUTHORIZED_APPLICATION, UNAUTHORIZED_APPLICATION
  | SUSPICIOUS_ACTIVITY, SUSPICIOUS_ACTIVITY
  | SUSPICIOUS_NETWORK_ACTIVITY, SUSPICIOUS_NETWORK_ACTIVITY
  | SUSPICIOUS_BROWSER_ACTIVITY, SUSPICIOUS_BROWSER_ACTIVITY
  | EXCESSIVE_TAB_SWITCHING, EXCESSIVE_TAB_SWITCHING
  | EXCESSIVE_RIGHT_CLICKS, EXCESSIVE_RIGHT_CLICKS
  | EXTENDED_IDLE_TIME, EXTENDED_IDLE_TIME
  | UNUSUAL_KEYSTROKE_PATTERN, UNUSUAL_KEYSTROKE_PATTERN
  | FACE_NOT_DETECTED, FACE_NOT_DETECTED
  | LOW_ATTENTION_SCORE, LOW_ATTENTION_SCORE
  | CRITICAL_ATTENTION_SCORE, CRITICAL_ATTENTION_SCORE => true
  | _, _ => false
  end.

(** The [details] text of a violation is a template string; it is kept as
    the template together with the values interpolated into it. *)
Inductive Details : Type :=
| AppDetails (name : string) (pid : Z) (description : string)
| ReasonDetails (reason : string)
| DomainDetails (category domain : string)
| InstancesDetails (browser : string) (count : Z)
| TabSwitchesDetails (tabSwitches : Z)
| RightClicksDetails (rightClicks : Z)
| IdleDetails (seconds : Z)
| TypingRateDetails (keystrokeRate : Q)
| FaceNotVisible
| AttentionDetails (attentionScore : Z)
| CriticalAttentionDetails (attentionScore : Z).

(** One sampled process, as [ps-list] reports it; [cmd] may be missing. *)
Record Process : Type := mkProcess {
  pid : Z;
  name : string;
  cmd : option string;
  ppid : Z
}.

(** The per-severity tallies of a report. *)
Record Summary : Type := mkSummary {
  totalViolations : Z;
  criticalViolations : Z;
  highViolations : Z;
  mediumViolations : Z;
  lowViolations : Z
}.

Definition emptySummary : Summary := mkSummary 0 0 0 0 0.

(** [summary.totalViolations++] followed by
    [summary[`${severity.toLowerCase()}Violations`]++].  No finding carries
    the string CLEAN; for it the second update would touch none of the
    five counters. *)
Definition tally (sev : Severity) (s : Summary) : Summary :=
  let s := mkSummary (totalViolations s + 1) (criticalViolations s)
             (highViolations s) (mediumViolations s) (lowViolations s) in
  match sev with
  | CRITICAL => mkSummary (totalViolations s) (criticalViolations s + 1)
                  (highViolations s) (mediumViolations s) (lowViolations s)
  | HIGH => mkSummary (totalViolations s) (criticalViolations s)
              (highViolations s + 1) (mediumViolations s) (lowViolations s)
  | MEDIUM => mkSummary (totalViolations s) (criticalViolations s)
                (highViolations s) (mediumViolations s + 1) (lowViolations s)
  | LOW => mkSummary (totalViolations s) (criticalViolations s)
             (highViolations s) (mediumViolations s) (lowViolations s + 1)
  | CLEAN => s
  end.

(** [(m[key] || 0) + 1] on an object used as a counter table; the keys keep
    their insertion order, which [Object.entries] later follows (the keys
    are lower-cased browser process names, none an array index). *)
Fixpoint bumpCount (key : string) (m : list (string * Z)) : list (string * Z) :=
  match m with
  | [] => [(key, 0 + 1)]
  | (k, v) :: r =>
      if (k =? key)%string then (k, v + 1) :: r
      else (k, v) :: bumpCount key r
  end.

(** ** app/server.mjs *)

Module ServerMjs.

Inductive Category : Type :=
| development | ai_cheating | cheating | communication | remote_access
| recording | virtualization | browser | emulation | monitoring | system.

Record App : Type := mkApp {
  app_name : string;
  app_description : string;
  app_severity : Severity;
  app_category : Category
}.

Record Pattern : Type := mkPattern {
  pattern : string;
  pattern_severity : Severity;
  pattern_description : string
}.

Record Domain : Type := mkDomain {
  domain : string;
  domain_category : string;
  domain_severity : Severity
}.

(** [isDev] is [process.env.NODE_ENV === 'development']. *)
Definition unauthorizedApps (isDev : bool) : list App :=
  [
    (* Development tools *)
    mkApp "python.exe" "Python interpreter" HIGH development;
    mkApp "python3.exe" "Python 3 interpreter" HIGH development;
    mkApp "python" "Python (Linux/Mac)" HIGH development;
    mkApp "python3" "Python 3 (Linux/Mac)" HIGH development;
    mkApp "node.exe" "Node.js runtime" (if isDev then LOW else HIGH) development;
    mkApp "node" "Node.js (Linux/Mac)" (if isDev then LOW else HIGH) development;
    mkApp "npm.exe" "Node Package Manager" MEDIUM development;
    mkApp "npm" "NPM (Linux/Mac)" MEDIUM development;
    mkApp "pip.exe" "Python Package Installer" MEDIUM development;
    mkApp "pip" "Python Package Installer" MEDIUM development;
    (* AI/ML Cheating tools *)
    mkApp "chatgpt.exe" "ChatGPT Desktop App" CRITICAL ai_cheating;
    mkApp "claude.exe" "Claude Desktop App" CRITICAL ai_cheating;
    mkApp "copilot.exe" "GitHub Copilot" CRITICAL ai_cheating;
    mkApp "bard.exe" "Google Bard" CRITICAL ai_cheating;
    (* Cheating applications *)
    mkApp "electron.exe" "Electron application (possible cheating app)" CRITICAL cheating;
    mkApp "electron" "Electron (Linux/Mac)" CRITICAL cheating;
    mkApp "examsoft.exe" "ExamSoft (unauthorized)" CRITICAL cheating;
    mkApp "proctorio.exe" "Proctorio (unauthorized)" CRITICAL cheating;
    (* Code editors and IDEs *)
    mkApp "code.exe" "Visual Studio Code" HIGH development;
    mkApp "code" "VS Code (Linux/Mac)" HIGH development;
    mkApp "notepad++.exe" "Notepad++" MEDIUM development;
    mkApp "sublime_text.exe" "Sublime Text" MEDIUM development;
    mkApp "atom.exe" "Atom Editor" MEDIUM development;
    mkApp "webstorm.exe" "WebStorm IDE" HIGH development;
    mkApp "pycharm.exe" "PyCharm IDE" HIGH development;
    mkApp "intellij.exe" "IntelliJ IDEA" HIGH development;
    mkApp "eclipse.exe" "Eclipse IDE" HIGH development;
    (* Terminals and command prompts *)
    mkApp "cmd.exe" "Command Prompt" (if isDev then LOW else MEDIUM) system;
    mkApp "powershell.exe" "PowerShell" (if isDev then LOW else MEDIUM) system;
    mkApp "bash" "Bash Shell" (if isDev then LOW else MEDIUM) system;
    mkApp "zsh" "Zsh Shell" (if isDev then LOW else MEDIUM) system;
    mkApp "terminal" "Terminal" (if isDev then LOW else MEDIUM) system;
    mkApp "iterm2" "iTerm2" (if isDev then LOW else MEDIUM) system;
    (* Remote access tools *)
    mkApp "teamviewer.exe" "TeamViewer" CRITICAL remote_access;
    mkApp "anydesk.exe" "AnyDesk" CRITICAL remote_access;
    mkApp "chrome_remote_desktop" "Chrome Remote Desktop" CRITICAL remote_access;
    mkApp "vnc" "VNC Viewer" CRITICAL remote_access;
    mkApp "rdp" "Remote Desktop Protocol" CRITICAL remote_access;
    (* Communication tools *)
    mkApp "discord.exe" "Discord" HIGH communication;
    mkApp "slack.exe" "Slack" HIGH communication;
    mkApp "skype.exe" "Skype" HIGH communication;
    mkApp "telegram.exe" "Telegram" HIGH communication;
    mkApp "whatsapp.exe" "WhatsApp" HIGH communication;
    mkApp "zoom.exe" "Zoom (unauthorized)" HIGH communication;
    mkApp "teams.exe" "Microsoft Teams (unauthorized)" HIGH communication;
    (* Screen recording/sharing *)
    mkApp "obs64.exe" "OBS Studio" HIGH recording;
    mkApp "obs32.exe" "OBS Studio (32-bit)" HIGH recording;
    mkApp "bandicam.exe" "Bandicam" HIGH recording;
    mkApp "camtasia.exe" "Camtasia" HIGH recording;
    mkApp "fraps.exe" "Fraps" HIGH recording;
    (* Virtual machines *)
    mkApp "vmware.exe" "VMware" CRITICAL virtualization;
    mkApp "virtualbox.exe" "VirtualBox" CRITICAL virtualization;
    mkApp "vmplayer.exe" "VMware Player" CRITICAL virtualization;
    mkApp "qemu.exe" "QEMU" CRITICAL virtualization;
    (* Browsers (suspicious if multiple instances) *)
    mkApp "chrome.exe" "Google Chrome" LOW browser;
    mkApp "firefox.exe" "Mozilla Firefox" LOW browser;
    mkApp "msedge.exe" "Microsoft Edge" LOW browser;
    mkApp "msedgewebview2.exe" "Microsoft Edge WebView2" LOW browser;
    mkApp "safari" "Safari" LOW browser;
    mkApp "opera.exe" "Opera Browser" LOW browser;
    (* Mobile emulators *)
    mkApp "bluestacks.exe" "BlueStacks Android Emulator" HIGH emulation;
    mkApp "noxplayer.exe" "Nox Player" HIGH emulation;
    mkApp "ldplayer.exe" "LDPlayer" HIGH emulation;
    (* System monitoring tools *)
    mkApp "procmon.exe" "Process Monitor" MEDIUM monitoring;
    mkApp "procexp.exe" "Process Explorer" MEDIUM monitoring;
    mkApp "wireshark.exe" "Wireshark" HIGH monitoring;
    mkApp "fiddler.exe" "Fiddler" HIGH monitoring
  ].

Definition suspiciousPatterns : list Pattern :=
  [
    (* Cheating-related patterns *)
    mkPattern "main.js" CRITICAL "Potential cheating application main file";
    mkPattern "cheating" CRITICAL "Cheating-related keyword";
    mkPattern "cheat" CRITICAL "Cheat-related keyword";
    mkPattern "hack" HIGH "Hack-related keyword";
    mkPattern "exploit" HIGH "Exploit-related keyword";
    (* Screen capture and automation *)
    mkPattern "screenshot" HIGH "Screenshot functionality";
    mkPattern "screen-capture" HIGH "Screen capture functionality";
    mkPattern "keylogger" CRITICAL "Keylogger functionality";
    mkPattern "automation" HIGH "Automation tools";
    mkPattern "selenium" HIGH "Selenium automation";
    mkPattern "puppeteer" HIGH "Puppeteer automation";
    mkPattern "playwright" HIGH "Playwright automation";
    mkPattern "cypress" HIGH "Cypress testing framework";
    (* Remote access and networking *)
    mkPattern "remote" HIGH "Remote access functionality";
    mkPattern "proxy" MEDIUM "Proxy functionality";
    mkPattern "tunnel" HIGH "Tunneling functionality";
    mkPattern "ngrok" HIGH "Ngrok tunneling service";
    mkPattern "ssh" MEDIUM "SSH connection";
    mkPattern "telnet" MEDIUM "Telnet connection";
    (* Code execution patterns *)
    mkPattern "python -c" HIGH "Python inline code execution";
    mkPattern "node -e" HIGH "Node.js inline code execution";
    mkPattern "eval(" HIGH "Code evaluation function";
    mkPattern "exec(" HIGH "Code execution function";
    mkPattern "system(" HIGH "System command execution";
    mkPattern "shell_exec" HIGH "Shell command execution";
    (* AI and ML patterns *)
    mkPattern "openai" CRITICAL "OpenAI API usage";
    mkPattern "chatgpt" CRITICAL "ChatGPT usage";
    mkPattern "claude" CRITICAL "Claude AI usage";
    mkPattern "bard" CRITICAL "Google Bard usage";
    mkPattern "copilot" CRITICAL "GitHub Copilot usage";
    mkPattern "tensorflow" HIGH "TensorFlow ML framework";
    mkPattern "pytorch" HIGH "PyTorch ML framework";
    (* Development and debugging *)
    mkPattern "debugger" MEDIUM "Debugger usage";
    mkPattern "breakpoint" MEDIUM "Breakpoint usage";
    mkPattern "inspect" MEDIUM "Code inspection";
    mkPattern "devtools" HIGH "Developer tools"
  ].

Definition suspiciousDomains : list Domain :=
  [
    (* AI Services *)
    mkDomain "chatgpt.com" "ai" CRITICAL;
    mkDomain "openai.com" "ai" CRITICAL;
    mkDomain "claude.ai" "ai" CRITICAL;
    mkDomain "anthropic.com" "ai" CRITICAL;
    mkDomain "bard.google.com" "ai" CRITICAL;
    mkDomain "copilot.microsoft.com" "ai" CRITICAL;
    mkDomain "character.ai" "ai" CRITICAL;
    mkDomain "huggingface.co" "ai" HIGH;
    (* Development platforms *)
    mkDomain "stackoverflow.com" "development" HIGH;
    mkDomain "github.com" "development" HIGH;
    mkDomain "gitlab.com" "development" HIGH;
    mkDomain "bitbucket.org" "development" HIGH;
    mkDomain "repl.it" "development" HIGH;
    mkDomain "codepen.io" "development" HIGH;
    mkDomain "jsfiddle.net" "development" HIGH;
    mkDomain "codesandbox.io" "development" HIGH;
    mkDomain "glitch.com" "development" HIGH;
    (* Educational cheating sites *)
    mkDomain "chegg.com" "cheating" CRITICAL;
    mkDomain "coursehero.com" "cheating" CRITICAL;
    mkDomain "studyblue.com" "cheating" HIGH;
    mkDomain "quizlet.com" "cheating" HIGH;
    mkDomain "brainly.com" "cheating" HIGH;
    (* Communication platforms *)
    mkDomain "discord.com" "communication" HIGH;
    mkDomain "slack.com" "communication" HIGH;
    mkDomain "telegram.org" "communication" HIGH;
    mkDomain "whatsapp.com" "communication" HIGH;
    mkDomain "zoom.us" "communication" MEDIUM;
    (* Remote access services *)
    mkDomain "teamviewer.com" "remote_access" CRITICAL;
    mkDomain "anydesk.com" "remote_access" CRITICAL;
    mkDomain "chrome.google.com/webstore" "remote_access" HIGH
  ].
(** *** checkNetworkConnections *)

Record ConnectionStats : Type := mkStats {
  total : Z;
  external : Z;
  suspiciousCount : Z
}.

Record NetworkThreats : Type := mkNetworkThreats {
  suspiciousConnections : list Domain;
  connectionStats : ConnectionStats;
  error : option string
}.

(** The callback of [connections.some] for one catalog entry. *)
Definition connectionNames (d : Domain) (conn : string) : bool :=
  if JS.matchesIPv4 conn
  then JS.includes (JS.toLowerCase conn) (JS.toLowerCase (domain d))
  else false.

(** The loop over the catalog: an entry that some connection line names
    is pushed and counted. *)
Fixpoint scanDomains (connections : list string) (domains : list Domain)
    (found : list Domain) (suspicious : Z) : list Domain * Z :=
  match domains with
  | [] => (found, suspicious)
  | d :: rest =>
      if existsb (connectionNames d) connections
      then scanDomains connections rest
             (found ++ [mkDomain (domain d) (domain_category d)
                          (domain_severity d)])
             (suspicious + 1)
      else scanDomains connections rest found suspicious
  end.

Definition isExternal (conn : string) : bool :=
  negb (JS.includes conn "127.0.0.1") && negb (JS.includes conn "::1")
  && negb (JS.includes conn "localhost").

(** The body of the [try] block once the connection lines are known. *)
Definition scanConnections (connections : list string) : NetworkThreats :=
  let '(found, suspicious) := scanDomains connections suspiciousDomains [] 0 in
  mkNetworkThreats found
    (mkStats (Z.of_nat (List.length connections))
             (Z.of_nat (List.length (filter isExternal connections)))
             suspicious)
    None.

(** [netstat] is the outcome of running the connection-listing command;
    its output is cut into the non-blank lines. *)
Definition checkNetworkConnections (netstat : outcome string) : NetworkThreats :=
  match netstat with
  | Returned stdout =>
      scanConnections
        (filter (fun line => JS.truthy (JS.trim line)) (JS.splitLines stdout))
  | Thrown message =>
      mkNetworkThreats [] (mkStats 0 0 0) (Some message)
  end.

(** *** analyzeBehaviorMetrics and analyzeBiometricData *)

Record Anomaly : Type := mkAnomaly {
  anomaly_type : ViolationType;
  anomaly_severity : Severity;
  anomaly_details : Details;
  anomaly_confidence : Q
}.

Record BehaviorData : Type := mkBehaviorData {
  tabSwitches : Z;
  rightClicks : Z;
  idleTime : Z;
  keystrokes : Z
}.

Record BehaviorAnalysis : Type := mkBehaviorAnalysis {
  behavior_riskScore : Z;
  behavior_anomalies : list Anomaly;
  behavior_patterns : list string;
  behavior_recommendations : list string
}.

(** [Math.round] of a quotient of integers. *)
Definition roundDiv (n d : Z) : Z := (2 * n + d) / (2 * d).

Definition Qgtb (a b : Q) : bool :=
  match Qcompare a b with
  | Gt => true
  | _ => false
  end.

Definition analyzeBehaviorMetrics (behaviorData : option BehaviorData)
    : BehaviorAnalysis :=
  let analysis := mkBehaviorAnalysis 0 [] [] [] in
  match behaviorData with
  | None => analysis
  | Some b =>
      (* tab switching *)
      let analysis :=
        if tabSwitches b >? 5 then
          mkBehaviorAnalysis
            (behavior_riskScore analysis + tabSwitches b * 2)
            (behavior_anomalies analysis ++
               [mkAnomaly EXCESSIVE_TAB_SWITCHING
                  (if tabSwitches b >? 10 then HIGH else MEDIUM)
                  (TabSwitchesDetails (tabSwitches b)) (9 # 10)])
            (behavior_patterns analysis) (behavior_recommendations analysis)
        else analysis in
      (* right clicks *)
      let analysis :=
        if rightClicks b >? 3 then
          mkBehaviorAnalysis
            (behavior_riskScore analysis + rightClicks b * 3)
            (behavior_anomalies analysis ++
               [mkAnomaly EXCESSIVE_RIGHT_CLICKS MEDIUM
                  (RightClicksDetails (rightClicks b)) (8 # 10)])
            (behavior_patterns analysis) (behavior_recommendations analysis)
        else analysis in
      (* idle time *)
      let analysis :=
        if idleTime b >? 60000 then
          mkBehaviorAnalysis
            (behavior_riskScore analysis + 10)
            (behavior_anomalies analysis ++
               [mkAnomaly EXTENDED_IDLE_TIME MEDIUM
                  (IdleDetails (roundDiv (idleTime b) 1000)) (7 # 10)])
            (behavior_patterns analysis) (behavior_recommendations analysis)
        else analysis in
      (* keystroke patterns *)
      let keystrokeRate := (inject_Z (keystrokes b) / 5)%Q in
      let analysis :=
        if Qgtb keystrokeRate 100 then
          mkBehaviorAnalysis
            (behavior_riskScore analysis + 15)
            (behavior_anomalies analysis ++
               [mkAnomaly UNUSUAL_KEYSTROKE_PATTERN HIGH
                  (TypingRateDetails keystrokeRate) (85 # 100)])
            (behavior_patterns analysis) (behavior_recommendations analysis)
        else analysis in
      (* recommendations *)
      let analysis :=
        if behavior_riskScore analysis >? 50 then
          mkBehaviorAnalysis (behavior_riskScore analysis)
            (behavior_anomalies analysis) (behavior_patterns analysis)
            (behavior_recommendations analysis ++
               ["Increase monitoring frequency";
                "Request additional verification"])
        else analysis in
      if tabSwitches b >? 3 then
        mkBehaviorAnalysis (behavior_riskScore analysis)
          (behavior_anomalies analysis) (behavior_patterns analysis)
          (behavior_recommendations analysis ++
             ["Warn candidate about tab switching"])
      else analysis
  end.

Record BiometricData : Type := mkBiometricData {
  faceDetected : bool;
  attentionScore : Z
}.

Inductive AttentionLevel : Type :=
| ATTENTION_NORMAL | ATTENTION_LOW | ATTENTION_CRITICAL.

Record BiometricAnalysis : Type := mkBiometricAnalysis {
  biometric_riskScore : Z;
  biometric_anomalies : list Anomaly;
  attentionLevel : AttentionLevel
}.

Definition analyzeBiometricData (biometricData : option BiometricData)
    : BiometricAnalysis :=
  let analysis := mkBiometricAnalysis 0 [] ATTENTION_NORMAL in
  match biometricData with
  | None => analysis
  | Some b =>
      (* face detection *)
      let analysis :=
        if negb (faceDetected b) then
          mkBiometricAnalysis
            (biometric_riskScore analysis + 30)
            (biometric_anomalies analysis ++
               [mkAnomaly FACE_NOT_DETECTED HIGH FaceNotVisible (95 # 100)])
            (attentionLevel analysis)
        else analysis in
      (* attention score *)
      if attentionScore b <? 70 then
        mkBiometricAnalysis
          (biometric_riskScore analysis + 20)
          (biometric_anomalies analysis ++
             [mkAnomaly LOW_ATTENTION_SCORE MEDIUM
                (AttentionDetails (attentionScore b)) (8 # 10)])
          ATTENTION_LOW
      else if attentionScore b <? 50 then
        mkBiometricAnalysis
          (biometric_riskScore analysis + 40)
          (biometric_anomalies analysis ++
             [mkAnomaly CRITICAL_ATTENTION_SCORE HIGH
                (CriticalAttentionDetails (attentionScore b)) (9 # 10)])
          ATTENTION_CRITICAL
      else analysis
  end.

(** *** The payloads of a monitoring request *)

(** A metric as the request body holds it: a counter, or a value whose
    conversion to a number throws a TypeError, which is an object whose
    [valueOf] and [toString] are not callable. *)
Inductive Metric : Type :=
| Counter (n : Z)
| Unconvertible.

(** The conversion that a comparison applies to a metric. *)
Definition toNumber (m : Metric) : outcome Z :=
  match m with
  | Counter n => Returned n
  | Unconvertible => Thrown "Cannot convert object to primitive value"
  end.

Record BehaviorPayload : Type := mkBehaviorPayload {
  sent_tabSwitches : Metric;
  sent_rightClicks : Metric;
  sent_idleTime : Metric;
  sent_keystrokes : Metric
}.

(** [faceDetected] is only tested for truthiness, which never throws. *)
Record BiometricPayload : Type := mkBiometricPayload {
  sent_faceDetected : bool;
  sent_attentionScore : Metric
}.

(** [analyzeBehaviorMetrics] compares each of the four metrics whatever the
    others are, the tab switches first and the keystrokes last.  The first
    conversion that throws ends the call, and the analysis built so far is
    lost with it. *)
Definition readBehavior (payload : BehaviorPayload) : outcome BehaviorData :=
  match toNumber (sent_tabSwitches payload) with
  | Thrown message => Thrown message
  | Returned tabs =>
      match toNumber (sent_rightClicks payload) with
      | Thrown message => Thrown message
      | Returned clicks =>
          match toNumber (sent_idleTime payload) with
          | Thrown message => Thrown message
          | Returned idle =>
              match toNumber (sent_keystrokes payload) with
              | Thrown message => Thrown message
              | Returned keys =>
                  Returned (mkBehaviorData tabs clicks idle keys)
              end
          end
      end
  end.

(** [analyzeBiometricData] compares the attention score after the test of
    [faceDetected]. *)
Definition readBiometric (payload : BiometricPayload) : outcome BiometricData :=
  match toNumber (sent_attentionScore payload) with
  | Thrown message => Thrown message
  | Returned score =>
      Returned (mkBiometricData (sent_faceDetected payload) score)
  end.

(** *** analyzeProcesses *)

Record UnauthorizedEntry : Type := mkUnauthorized {
  unauthorized_name : string;
  unauthorized_pid : Z;
  unauthorized_description : string;
  unauthorized_cmd : string;
  unauthorized_severity : Severity;
  unauthorized_category : Category;
  unauthorized_ppid : Z;
  unauthorized_confidence : Q
}.

Record SuspiciousEntry : Type := mkSuspicious {
  suspicious_name : string;
  suspicious_pid : Z;
  suspicious_cmd : string;
  suspicious_reason : string;
  suspicious_severity : Severity;
  suspicious_confidence : Q
}.

Record BrowserInstance : Type := mkBrowserInstance {
  browser_name : string;
  browser_count : Z;
  threat_level : Severity;
  suspiciousMultipleTabs : bool;
  possibleCheating : bool
}.

(** The counter object [processPatterns]. *)
Record ProcessPatterns : Type := mkPatterns {
  count_development : Z;
  count_communication : Z;
  count_cheating : Z;
  count_suspicious : Z
}.

(** [if (category in processPatterns) processPatterns[category]++] *)
Definition bumpCategory (c : Category) (pp : ProcessPatterns) : ProcessPatterns :=
  match c with
  | development =>
      mkPatterns (count_development pp + 1) (count_communication pp)
        (count_cheating pp) (count_suspicious pp)
  | communication =>
      mkPatterns (count_development pp) (count_communication pp + 1)
        (count_cheating pp) (count_suspicious pp)
  | cheating =>
      mkPatterns (count_development pp) (count_communication pp)
        (count_cheating pp + 1) (count_suspicious pp)
  | _ => pp
  end.

Definition bumpSuspicious (pp : ProcessPatterns) : ProcessPatterns :=
  mkPatterns (count_development pp) (count_communication pp)
    (count_cheating pp) (count_suspicious pp + 1).

(** What the loop over the processes accumulates. *)
Record Scan : Type := mkScan {
  scan_unauthorized : list UnauthorizedEntry;
  scan_suspicious : list SuspiciousEntry;
  browserCounts : list (string * Z);
  processPatterns : ProcessPatterns
}.

Definition emptyScan : Scan := mkScan [] [] [] (mkPatterns 0 0 0 0).

(** [proc.cmd && proc.cmd.includes(marker)] *)
Definition cmdIncludes (proc : Process) (marker : string) : bool :=
  match cmd proc with
  | Some c => JS.truthy c && JS.includes c marker
  | None => false
  end.

(** The guard that skips the server's own process. *)
Definition isServerProcess (isDev : bool) (proc : Process) : bool :=
  isDev && JS.truthy (name proc) && JS.truthyOpt (cmd proc)
  && (((JS.toLowerCase (name proc) =? "node.exe")%string
       || (JS.toLowerCase (name proc) =? "node")%string)
      && cmdIncludes proc "server.mjs").

Definition findApp (isDev : bool) (proc : Process) : option App :=
  find (fun app =>
          JS.truthy (name proc)
          && (JS.toLowerCase (name proc) =? JS.toLowerCase (app_name app))%string)
       (unauthorizedApps isDev).

Definition findPattern (c : string) : option Pattern :=
  find (fun p => JS.includes (JS.toLowerCase c) (JS.toLowerCase (pattern p)))
       suspiciousPatterns.

(** [Math.min] on confidences. *)
Definition minQ (a b : Q) : Q := if Qle_bool a b then a else b.

Definition isBrowserName (proc : Process) : bool :=
  JS.truthy (name proc)
  && (JS.includes (JS.toLowerCase (name proc)) "chrome"
      || JS.includes (JS.toLowerCase (name proc)) "firefox"
      || JS.includes (JS.toLowerCase (name proc)) "safari"
      || JS.includes (JS.toLowerCase (name proc)) "msedge"
      || JS.includes (JS.toLowerCase (name proc)) "msedgewebview2").

(** The entry pushed for a process that the catalog entry [app] names. *)
Definition unauthorizedEntry (proc : Process) (app : App) : UnauthorizedEntry :=
  let description := app_description app in
  let threat_level := app_severity app in
  let confidence := (8 # 10)%Q in
  (* the electron markers *)
  let '(description, threat_level, confidence) :=
    if JS.truthy (name proc)
       && JS.includes (JS.toLowerCase (name proc)) "electron"
    then
      if cmdIncludes proc "main.js" then
        ("CRITICAL: AI-detected cheating application (main.js pattern)",
         CRITICAL, (95 # 100)%Q)
      else if cmdIncludes proc ".asar" then
        ("AI-detected: Electron app with packed resources (suspicious)",
         HIGH, (85 # 100)%Q)
      else (description, threat_level, confidence)
    else (description, threat_level, confidence) in
  (* the command line patterns *)
  let '(description, threat_level, confidence) :=
    match cmd proc with
    | Some c =>
        if JS.truthy c then
          match findPattern c with
          | Some suspiciousPattern =>
              (description ++ " [AI-DETECTED: "
                 ++ pattern_description suspiciousPattern ++ "]",
               pattern_severity suspiciousPattern,
               minQ (98 # 100) (confidence + (1 # 10)))
          | None => (description, threat_level, confidence)
          end
        else (description, threat_level, confidence)
    | None => (description, threat_level, confidence)
    end in
  mkUnauthorized
    (if JS.truthy (name proc) then name proc else "unknown")
    (JS.orZero (pid proc))
    description
    (JS.orElse (cmd proc) "No command-line details available")
    threat_level
    (app_category app)
    (JS.orZero (ppid proc))
    confidence.

(** The callback of [processes.forEach]; its first test returns early. *)
Definition scanProcess (isDev : bool) (acc : Scan) (proc : Process) : Scan :=
  if isServerProcess isDev proc then acc
  else
    let unauthorizedApp := findApp isDev proc in
    (* unauthorized application *)
    let acc :=
      match unauthorizedApp with
      | Some app =>
          mkScan (scan_unauthorized acc ++ [unauthorizedEntry proc app])
            (scan_suspicious acc) (browserCounts acc)
            (bumpCategory (app_category app) (processPatterns acc))
      | None => acc
      end in
    (* browser instances *)
    let acc :=
      if isBrowserName proc then
        mkScan (scan_unauthorized acc) (scan_suspicious acc)
          (bumpCount (JS.toLowerCase (name proc)) (browserCounts acc))
          (processPatterns acc)
      else acc in
    (* suspicious command line *)
    match cmd proc with
    | Some c =>
        if JS.truthy c then
          match findPattern c, unauthorizedApp with
          | Some suspiciousPattern, None =>
              mkScan (scan_unauthorized acc)
                (scan_suspicious acc ++
                   [mkSuspicious
                      (if JS.truthy (name proc) then name proc else "unknown")
                      (JS.orZero (pid proc)) c
                      (pattern_description suspiciousPattern)
                      (pattern_severity suspiciousPattern) (8 # 10)])
                (browserCounts acc)
                (bumpSuspicious (processPatterns acc))
          | _, _ => acc
          end
        else acc
    | None => acc
    end.

Definition browserThreshold (isDev : bool) : Z := if isDev then 20 else 8.

(** The callback of the loop over [Object.entries(browserCounts)]. *)
Definition browserEntry (isDev : bool) (instances : list BrowserInstance)
    (entry : string * Z) : list BrowserInstance :=
  let '(browserName, count) := entry in
  if count >? browserThreshold isDev then
    let severity :=
      if count >? browserThreshold isDev + 10 then HIGH else MEDIUM in
    instances ++
      [mkBrowserInstance browserName count severity
         (count >? browserThreshold isDev * 2)
         (count >? browserThreshold isDev * 3)]
  else instances.

Record Results : Type := mkResults {
  unauthorized : list UnauthorizedEntry;
  suspicious : list SuspiciousEntry;
  browserInstances : list BrowserInstance;
  networkThreats : NetworkThreats;
  processCount : Z;
  riskScore : Z;
  patterns : list (string * Z)
}.

(** The body of [analyzeProcesses] once the process list is known. *)
Definition analyze (isDev : bool) (processes : list Process)
    (netstat : outcome string) : Results :=
  let networkThreats := checkNetworkConnections netstat in
  let scan := fold_left (scanProcess isDev) processes emptyScan in
  let browserInstances :=
    fold_left (browserEntry isDev) (browserCounts scan) [] in
  let pp := processPatterns scan in
  mkResults (scan_unauthorized scan) (scan_suspicious scan)
    browserInstances networkThreats
    (Z.of_nat (List.length processes))
    (count_cheating pp * 40 + count_development pp * 15
     + count_communication pp * 10 + count_suspicious pp * 25
     + Z.of_nat (List.length (suspiciousConnections networkThreats)) * 20)
    (filter (fun entry => snd entry >? 0)
       [("development", count_development pp);
        ("communication", count_communication pp);
        ("cheating", count_cheating pp);
        ("suspicious", count_suspicious pp)]).

(** A failure of the process listing is logged and thrown again. *)
Definition analyzeProcesses (isDev : bool) (psList : outcome (list Process))
    (netstat : outcome string) : outcome Results :=
  match psList with
  | Returned processes => Returned (analyze isDev processes netstat)
  | Thrown message => Thrown message
  end.

(** *** generateViolationReport *)

Definition categoryName (c : Category) : string :=
  match c with
  | development => "development"
  | ai_cheating => "ai_cheating"
  | cheating => "cheating"
  | communication => "communication"
  | remote_access => "remote_access"
  | recording => "recording"
  | virtualization => "virtualization"
  | browser => "browser"
  | emulation => "emulation"
  | monitoring => "monitoring"
  | system => "system"
  end.

Record Violation : Type := mkViolation {
  violation_type : ViolationType;
  violation_severity : Severity;
  violation_details : Details;
  violation_confidence : Q;
  violation_category : option string
}.

Record Report : Type := mkReport {
  severity : Severity;
  violations : list Violation;
  summary : Summary;
  overallRiskScore : Z;
  behaviorAnalysis : option BehaviorAnalysis;
  biometricAnalysis : option BiometricAnalysis;
  recommendations : list string
}.

(** [list.includes(severity)] on an array of severity strings. *)
Definition oneOf (l : list Severity) (s : Severity) : bool :=
  existsb (Severity_eqb s) l.

(** Pushing one violation: the list, the tallies and the new severity. *)
Definition push (r : Report) (v : Violation) (newSeverity : Severity) : Report :=
  mkReport newSeverity (violations r ++ [v])
    (tally (violation_severity v) (summary r))
    (overallRiskScore r) (behaviorAnalysis r) (biometricAnalysis r)
    (recommendations r).

Definition unauthorizedViolation (app : UnauthorizedEntry) : Violation :=
  mkViolation UNAUTHORIZED_APPLICATION (unauthorized_severity app)
    (AppDetails (unauthorized_name app) (unauthorized_pid app)
       (unauthorized_description app))
    (unauthorized_confidence app)
    (Some (categoryName (unauthorized_category app))).

(** The callback of [results.unauthorized.forEach]. *)
Definition addUnauthorized (report : Report) (app : UnauthorizedEntry) : Report :=
  push report (unauthorizedViolation app)
    (if Severity_eqb (unauthorized_severity app) CRITICAL
        && negb (Severity_eqb (severity report) CRITICAL)
     then CRITICAL
     else if Severity_eqb (unauthorized_severity app) HIGH
             && negb (oneOf [CRITICAL] (severity report))
     then HIGH
     else if Severity_eqb (unauthorized_severity app) MEDIUM
             && negb (oneOf [CRITICAL; HIGH] (severity report))
     then MEDIUM
     else severity report).

Definition suspiciousViolation (activity : SuspiciousEntry) : Violation :=
  mkViolation SUSPICIOUS_ACTIVITY (suspicious_severity activity)
    (ReasonDetails (suspicious_reason activity))
    (suspicious_confidence activity) None.

(** The callback of [results.suspicious.forEach]. *)
Definition addSuspicious (report : Report) (activity : SuspiciousEntry) : Report :=
  push report (suspiciousViolation activity)
    (if Severity_eqb (suspicious_severity activity) HIGH
        && negb (oneOf [CRITICAL] (severity report))
     then HIGH
     else if negb (oneOf [CRITICAL; HIGH] (severity report))
     then MEDIUM
     else severity report).

Definition threatViolation (threat : Domain) : Violation :=
  mkViolation SUSPICIOUS_NETWORK_ACTIVITY (domain_severity threat)
    (DomainDetails (domain_category threat) (domain threat))
    (85 # 100) (Some (domain_category threat)).

(** The callback of [results.networkThreats.suspiciousConnections.forEach]. *)
Definition addThreat (report : Report) (threat : Domain) : Report :=
  push report (threatViolation threat)
    (if Severity_eqb (domain_severity threat) CRITICAL
        && negb (Severity_eqb (severity report) CRITICAL)
     then CRITICAL
     else if Severity_eqb (domain_severity threat) HIGH
             && negb (oneOf [CRITICAL] (severity report))
     then HIGH
     else severity report).

Definition browserViolation (instance : BrowserInstance) : Violation :=
  mkViolation SUSPICIOUS_BROWSER_ACTIVITY (threat_level instance)
    (InstancesDetails (browser_name instance) (browser_count instance))
    (7 # 10) None.

(** The callback of [results.browserInstances.forEach]. *)
Definition addBrowser (report : Report) (instance : BrowserInstance) : Report :=
  push report (browserViolation instance)
    (if Severity_eqb (threat_level instance) HIGH
        && negb (oneOf [CRITICAL] (severity report))
     then HIGH
     else if negb (oneOf [CRITICAL; HIGH] (severity report))
     then MEDIUM
     else severity report).

Definition anomalyViolation (category : string) (anomaly : Anomaly) : Violation :=
  mkViolation (anomaly_type anomaly) (anomaly_severity anomaly)
    (anomaly_details anomaly) (anomaly_confidence anomaly) (Some category).

(** The callback of both [anomalies.forEach] loops: the violation is
    pushed and tallied, the report severity is not touched. *)
Definition addAnomaly (category : string) (report : Report) (anomaly : Anomaly)
    : Report :=
  push report (anomalyViolation category anomaly) (severity report).

Definition riskOfBehavior (a : option BehaviorAnalysis) : Z :=
  match a with
  | Some analysis => JS.orZero (behavior_riskScore analysis)
  | None => 0
  end.

Definition riskOfBiometric (a : option BiometricAnalysis) : Z :=
  match a with
  | Some analysis => JS.orZero (biometric_riskScore analysis)
  | None => 0
  end.

(** The try block of [generateViolationReport] either reaches its end, or
    an analyzer throws in it and the catch block logs the message; either
    way the report is returned as it then is. *)
Inductive Attempt : Type :=
| Completed (report : Report)
| Caught (report : Report) (message : string).

Definition reportOf (attempt : Attempt) : Report :=
  match attempt with
  | Completed report => report
  | Caught report _ => report
  end.

(** The report object and the try block, up to the session tracking that
    ends the block. *)
Definition tryBlock (results : Results)
    (behaviorData : option BehaviorPayload)
    (biometricData : option BiometricPayload) : Attempt :=
  let report := mkReport CLEAN [] emptySummary 0 None None [] in
  let report := fold_left addUnauthorized (unauthorized results) report in
  let report := fold_left addSuspicious (suspicious results) report in
  let report :=
    fold_left addThreat (suspiciousConnections (networkThreats results))
      report in
  let report := fold_left addBrowser (browserInstances results) report in
  (* behavioural analysis *)
  match
    match behaviorData with
    | Some payload =>
        match readBehavior payload with
        | Returned b =>
            let analysis := analyzeBehaviorMetrics (Some b) in
            Returned
              (fold_left (addAnomaly "behavior") (behavior_anomalies analysis)
                 (mkReport (severity report) (violations report)
                    (summary report) (overallRiskScore report) (Some analysis)
                    (biometricAnalysis report) (recommendations report)))
        | Thrown message => Thrown message
        end
    | None => Returned report
    end
  with
  | Thrown message => Caught report message
  | Returned report =>
      (* biometric analysis *)
      match
        match biometricData with
        | Some payload =>
            match readBiometric payload with
            | Returned b =>
                let analysis := analyzeBiometricData (Some b) in
                Returned
                  (fold_left (addAnomaly "biometric")
                     (biometric_anomalies analysis)
                     (mkReport (severity report) (violations report)
                        (summary report) (overallRiskScore report)
                        (behaviorAnalysis report) (Some analysis)
                        (recommendations report)))
            | Thrown message => Thrown message
            end
        | None => Returned report
        end
      with
      | Thrown message => Caught report message
      | Returned report =>
          (* overall risk score *)
          let score :=
            JS.orZero (riskScore results)
            + riskOfBehavior (behaviorAnalysis report)
            + riskOfBiometric (biometricAnalysis report) in
          (* recommendations *)
          let recs :=
            if score >? 100 then
              ["IMMEDIATE INTERVENTION REQUIRED";
               "Consider terminating interview session"]
            else if score >? 50 then
              ["Increase monitoring frequency";
               "Enable additional security measures"]
            else [] in
          let recs :=
            if criticalViolations (summary report) >? 0 then
              (recs
               ++ ["Critical violations detected - manual review required"])%list
            else recs in
          Completed
            (mkReport (severity report) (violations report) (summary report)
               score (behaviorAnalysis report) (biometricAnalysis report)
               (recommendations report ++ recs))
      end
  end.

(** The report that [generateViolationReport] returns. *)
Definition generateViolationReport (results : Results)
    (behaviorData : option BehaviorPayload)
    (biometricData : option BiometricPayload) : Report :=
  reportOf (tryBlock results behaviorData biometricData).

(** *** The two request handlers *)

Inductive Response : Type :=
| Json (status : string) (reportSeverity : Severity) (report : Report)
| ClientError (status message : string)
| ServerError (status message error : string).

Definition statusOf (report : Report) : string :=
  if Severity_eqb (severity report) CLEAN then "clear"
  else "violations_detected".

(** [GET /api/check-processes] *)
Definition checkProcesses (isDev : bool) (psList : outcome (list Process))
    (netstat : outcome string) : Response :=
  match analyzeProcesses isDev psList netstat with
  | Returned analysisResults =>
      let violationReport :=
        generateViolationReport analysisResults None None in
      Json (statusOf violationReport) (severity violationReport)
        violationReport
  | Thrown message =>
      ServerError "error" "Failed to check running processes" message
  end.

(** [POST /api/monitor-processes]; [sessionId] is the request header. *)
Definition monitorProcesses (isDev : bool) (sessionId : option string)
    (behaviorMetrics : option BehaviorPayload)
    (biometricData : option BiometricPayload)
    (psList : outcome (list Process)) (netstat : outcome string) : Response :=
  if negb (JS.truthyOpt sessionId) then
    ClientError "error" "Session ID required for monitoring"
  else
    match analyzeProcesses isDev psList netstat with
    | Returned analysisResults =>
        let violationReport :=
          generateViolationReport analysisResults behaviorMetrics
            biometricData in
        Json (statusOf violationReport) (severity violationReport)
          violationReport
    | Thrown message =>
        ServerError "error" "Failed to monitor running processes" message
    end.

End ServerMjs.

(** ** The earlier server file *)

Module Part000.

Record App : Type := mkApp {
  app_name : string;
  app_description : string;
  app_severity : Severity
}.

Definition unauthorizedApps : list App :=
  [
    (* Development tools *)
    mkApp "python.exe" "Python interpreter" HIGH;
    mkApp "python3.exe" "Python 3 interpreter" HIGH;
    mkApp "python" "Python (Linux/Mac)" HIGH;
    mkApp "python3" "Python 3 (Linux/Mac)" HIGH;
    mkApp "node.exe" "Node.js runtime" HIGH;
    mkApp "node" "Node.js (Linux/Mac)" HIGH;
    mkApp "npm.exe" "Node Package Manager" MEDIUM;
    mkApp "npm" "NPM (Linux/Mac)" MEDIUM;
    mkApp "pip.exe" "Python Package Installer" MEDIUM;
    mkApp "pip" "Python Package Installer" MEDIUM;
    (* Cheating applications *)
    mkApp "electron.exe" "Electron application (possible cheating app)" CRITICAL;
    mkApp "electron" "Electron (Linux/Mac)" CRITICAL;
    (* Code editors and IDEs *)
    mkApp "code.exe" "Visual Studio Code" HIGH;
    mkApp "code" "VS Code (Linux/Mac)" HIGH;
    mkApp "notepad++.exe" "Notepad++" MEDIUM;
    mkApp "sublime_text.exe" "Sublime Text" MEDIUM;
    mkApp "atom.exe" "Atom Editor" MEDIUM;
    mkApp "webstorm.exe" "WebStorm IDE" HIGH;
    mkApp "pycharm.exe" "PyCharm IDE" HIGH;
    mkApp "intellij.exe" "IntelliJ IDEA" HIGH;
    mkApp "eclipse.exe" "Eclipse IDE" HIGH;
    (* Terminals and command prompts *)
    mkApp "cmd.exe" "Command Prompt" MEDIUM;
    mkApp "powershell.exe" "PowerShell" MEDIUM;
    mkApp "bash" "Bash Shell" MEDIUM;
    mkApp "zsh" "Zsh Shell" MEDIUM;
    mkApp "terminal" "Terminal" MEDIUM;
    mkApp "iterm2" "iTerm2" MEDIUM;
    (* Remote access tools *)
    mkApp "teamviewer.exe" "TeamViewer" CRITICAL;
    mkApp "anydesk.exe" "AnyDesk" CRITICAL;
    mkApp "chrome_remote_desktop" "Chrome Remote Desktop" CRITICAL;
    mkApp "vnc" "VNC Viewer" CRITICAL;
    (* Communication tools *)
    mkApp "discord.exe" "Discord" HIGH;
    mkApp "slack.exe" "Slack" HIGH;
    mkApp "skype.exe" "Skype" HIGH;
    mkApp "telegram.exe" "Telegram" HIGH;
    mkApp "whatsapp.exe" "WhatsApp" HIGH;
    (* Screen recording/sharing *)
    mkApp "obs64.exe" "OBS Studio" HIGH;
    mkApp "obs32.exe" "OBS Studio (32-bit)" HIGH;
    mkApp "bandicam.exe" "Bandicam" HIGH;
    mkApp "camtasia.exe" "Camtasia" HIGH;
    (* Virtual machines *)
    mkApp "vmware.exe" "VMware" CRITICAL;
    mkApp "virtualbox.exe" "VirtualBox" CRITICAL;
    mkApp "vmplayer.exe" "VMware Player" CRITICAL;
    (* Browsers (suspicious if multiple instances) *)
    mkApp "chrome.exe" "Google Chrome" LOW;
    mkApp "firefox.exe" "Mozilla Firefox" LOW;
    mkApp "msedge.exe" "Microsoft Edge" LOW;
    mkApp "safari" "Safari" LOW
  ].

Definition suspiciousPatterns : list string :=
  [
    "main.js";
    "cheating";
    "screenshot";
    "keylogger";
    "automation";
    "selenium";
    "puppeteer";
    "playwright";
    "cypress";
    "remote";
    "proxy";
    "tunnel";
    "ngrok";
    "localhost:";
    "python -c";
    "node -e";
    "eval(";
    "exec(";
    "system(";
    "shell_exec"
  ].

Definition suspiciousDomains : list string :=
  [
    "chatgpt.com";
    "openai.com";
    "claude.ai";
    "bard.google.com";
    "copilot.microsoft.com";
    "stackoverflow.com";
    "github.com";
    "gitlab.com";
    "bitbucket.org";
    "repl.it";
    "codepen.io";
    "jsfiddle.net";
    "codesandbox.io";
    "chegg.com";
    "coursehero.com"
  ].

(** *** checkNetworkConnections *)

(** The loop over the catalog: a domain that some line contains is pushed. *)
Fixpoint scanDomains (connections : list string) (domains : list string)
    (found : list string) : list string :=
  match domains with
  | [] => found
  | d :: rest =>
      if existsb (fun conn => JS.includes conn d) connections
      then scanDomains connections rest (found ++ [d])
      else scanDomains connections rest found
  end.

Definition checkNetworkConnections (netstat : outcome string) : list string :=
  match netstat with
  | Returned stdout =>
      let connections :=
        filter (fun line => JS.truthy (JS.trim line)
                            && JS.includes line "ESTABLISHED")
               (JS.splitLines stdout) in
      scanDomains connections suspiciousDomains []
  | Thrown message => []
  end.

(** *** analyzeProcesses *)

Record UnauthorizedEntry : Type := mkUnauthorized {
  unauthorized_name : string;
  unauthorized_pid : Z;
  unauthorized_description : string;
  unauthorized_cmd : string;
  unauthorized_severity : Severity;
  unauthorized_ppid : Z
}.

Record SuspiciousEntry : Type := mkSuspicious {
  suspicious_name : string;
  suspicious_pid : Z;
  suspicious_cmd : string;
  suspicious_reason : string
}.

Record BrowserInstance : Type := mkBrowserInstance {
  browser_name : string;
  browser_count : Z;
  threat_level : Severity
}.

Record Scan : Type := mkScan {
  scan_unauthorized : list UnauthorizedEntry;
  scan_suspicious : list SuspiciousEntry;
  browserCounts : list (string * Z)
}.

Definition emptyScan : Scan := mkScan [] [] [].

(** [proc.cmd && proc.cmd.includes(marker)] *)
Definition cmdIncludes (proc : Process) (marker : string) : bool :=
  match cmd proc with
  | Some c => JS.truthy c && JS.includes c marker
  | None => false
  end.

Definition findApp (proc : Process) : option App :=
  find (fun app =>
          JS.truthy (name proc)
          && (JS.toLowerCase (name proc) =? JS.toLowerCase (app_name app))%string)
       unauthorizedApps.

(** [proc.cmd ? suspiciousPatterns.some(...) : false] *)
Definition hasSuspiciousPattern (proc : Process) : bool :=
  match cmd proc with
  | Some c =>
      if JS.truthy c then
        existsb (fun p => JS.includes (JS.toLowerCase c) (JS.toLowerCase p))
                suspiciousPatterns
      else false
  | None => false
  end.

Definition isBrowserName (proc : Process) : bool :=
  JS.truthy (name proc)
  && (JS.includes (JS.toLowerCase (name proc)) "chrome"
      || JS.includes (JS.toLowerCase (name proc)) "firefox"
      || JS.includes (JS.toLowerCase (name proc)) "safari"
      || JS.includes (JS.toLowerCase (name proc)) "edge").

Definition unauthorizedEntry (proc : Process) (app : App) : UnauthorizedEntry :=
  let description := app_description app in
  let threat_level := app_severity app in
  (* the electron markers *)
  let '(description, threat_level) :=
    if JS.truthy (name proc)
       && JS.includes (JS.toLowerCase (name proc)) "electron"
    then
      if cmdIncludes proc "main.js" then
        ("CRITICAL: Cheating application detected (main.js)", CRITICAL)
      else if cmdIncludes proc ".asar" then
        ("Electron app with packed resources (suspicious)", HIGH)
      else (description, threat_level)
    else (description, threat_level) in
  (* the command line patterns *)
  let '(description, threat_level) :=
    if hasSuspiciousPattern proc then
      (description ++ " [SUSPICIOUS COMMAND LINE DETECTED]", CRITICAL)
    else (description, threat_level) in
  mkUnauthorized
    (if JS.truthy (name proc) then name proc else "unknown")
    (JS.orZero (pid proc))
    description
    (JS.orElse (cmd proc) "N/A")
    threat_level
    (JS.orZero (ppid proc)).

(** The callback of [processes.forEach]. *)
Definition scanProcess (acc : Scan) (proc : Process) : Scan :=
  (* unauthorized application *)
  let acc :=
    match findApp proc with
    | Some app =>
        mkScan (scan_unauthorized acc ++ [unauthorizedEntry proc app])
          (scan_suspicious acc) (browserCounts acc)
    | None => acc
    end in
  (* browser instances *)
  let acc :=
    if isBrowserName proc then
      mkScan (scan_unauthorized acc) (scan_suspicious acc)
        (bumpCount (JS.toLowerCase (name proc)) (browserCounts acc))
    else acc in
  (* suspicious command line *)
  match cmd proc with
  | Some c =>
      if JS.truthy c && hasSuspiciousPattern proc then
        mkScan (scan_unauthorized acc)
          (scan_suspicious acc ++
             [mkSuspicious
                (if JS.truthy (name proc) then name proc else "unknown")
                (JS.orZero (pid proc)) c
                "Suspicious command line pattern detected"])
          (browserCounts acc)
      else acc
  | None => acc
  end.

(** The callback of the loop over [Object.entries(browserCounts)]. *)
Definition browserEntry (instances : list BrowserInstance)
    (entry : string * Z) : list BrowserInstance :=
  let '(browserName, count) := entry in
  if count >? 3 then
    instances ++
      [mkBrowserInstance browserName count
         (if count >? 5 then HIGH else MEDIUM)]
  else instances.

Record Results : Type := mkResults {
  unauthorized : list UnauthorizedEntry;
  suspicious : list SuspiciousEntry;
  browserInstances : list BrowserInstance;
  networkThreats : list string;
  processCount : Z
}.

Definition analyze (processes : list Process) (netstat : outcome string)
    : Results :=
  let scan := fold_left scanProcess processes emptyScan in
  mkResults (scan_unauthorized scan) (scan_suspicious scan)
    (fold_left browserEntry (browserCounts scan) [])
    (checkNetworkConnections netstat)
    (Z.of_nat (List.length processes)).

Definition analyzeProcesses (psList : outcome (list Process))
    (netstat : outcome string) : outcome Results :=
  match psList with
  | Returned processes => Returned (analyze processes netstat)
  | Thrown message => Thrown message
  end.

(** *** generateViolationReport *)

Record Violation : Type := mkViolation {
  violation_type : ViolationType;
  violation_severity : Severity;
  violation_details : Details
}.

Record Report : Type := mkReport {
  severity : Severity;
  violations : list Violation;
  summary : Summary
}.

Definition push (r : Report) (v : Violation) (newSeverity : Severity) : Report :=
  mkReport newSeverity (violations r ++ [v])
    (tally (violation_severity v) (summary r)).

Definition unauthorizedViolation (app : UnauthorizedEntry) : Violation :=
  mkViolation UNAUTHORIZED_APPLICATION (unauthorized_severity app)
    (AppDetails (unauthorized_name app) (unauthorized_pid app)
       (unauthorized_description app)).

Definition addUnauthorized (report : Report) (app : UnauthorizedEntry) : Report :=
  push report (unauthorizedViolation app)
    (if Severity_eqb (unauthorized_severity app) CRITICAL
        && negb (Severity_eqb (severity report) CRITICAL)
     then CRITICAL
     else if Severity_eqb (unauthorized_severity app) HIGH
             && Severity_eqb (severity report) CLEAN
     then HIGH
     else severity report).

Definition suspiciousViolation (activity : SuspiciousEntry) : Violation :=
  mkViolation SUSPICIOUS_ACTIVITY MEDIUM
    (ReasonDetails (suspicious_reason activity)).

Definition addSuspicious (report : Report) (activity : SuspiciousEntry) : Report :=
  push report (suspiciousViolation activity) (severity report).

(** The details name the domain alone; this file has no domain
    categories. *)
Definition threatViolation (d : string) : Violation :=
  mkViolation SUSPICIOUS_NETWORK_ACTIVITY HIGH (DomainDetails "" d).

Definition addThreat (report : Report) (d : string) : Report :=
  push report (threatViolation d)
    (if Severity_eqb (severity report) CLEAN then HIGH else severity report).

Definition browserViolation (instance : BrowserInstance) : Violation :=
  mkViolation SUSPICIOUS_BROWSER_ACTIVITY (threat_level instance)
    (InstancesDetails (browser_name instance) (browser_count instance)).

Definition addBrowser (report : Report) (instance : BrowserInstance) : Report :=
  push report (browserViolation instance) (severity report).

Definition generateViolationReport (results : Results) : Report :=
  let report := mkReport CLEAN [] emptySummary in
  let report := fold_left addUnauthorized (unauthorized results) report in
  let report := fold_left addSuspicious (suspicious results) report in
  let report := fold_left addThreat (networkThreats results) report in
  fold_left addBrowser (browserInstances results) report.

End Part000.

(** ** app/server.mjs: the session maps and the remaining endpoints *)

(** A JavaScript [Map] with string keys: the entries in insertion order;
    [set] on a key that is present keeps its place. *)
Module JSMap.

Definition t (V : Type) : Type := list (string * V).

Fixpoint get {V : Type} (m : t V) (key : string) : option V :=
  match m with
  | [] => None
  | (k, v) :: r => if (k =? key)%string then Some v else get r key
  end.

Definition has {V : Type} (m : t V) (key : string) : bool :=
  match get m key with
  | Some _ => true
  | None => false
  end.

Fixpoint set {V : Type} (m : t V) (key : string) (v : V) : t V :=
  match m with
  | [] => [(key, v)]
  | (k, v') :: r =>
      if (k =? key)%string then (k, v) :: r else (k, v') :: set r key v
  end.

Definition values {V : Type} (m : t V) : list V := map snd m.

Definition size {V : Type} (m : t V) : Z := Z.of_nat (List.length m).

End JSMap.

Module ServerSessions.
Import ServerMjs.

(** One entry of a session's violation history (its time stamp left out). *)
Record HistoryRecord : Type := mkHistoryRecord {
  record_severity : Severity;
  violationCount : Z;
  record_riskScore : Z
}.

(** The history arrays are objects that both maps point to: they live in a
    heap and are named by their address. *)
Definition Heap : Type := list (list HistoryRecord).

Definition deref (heap : Heap) (ref : nat) : list HistoryRecord :=
  nth ref heap [].

(** A new array object. *)
Definition alloc (heap : Heap) (a : list HistoryRecord) : nat * Heap :=
  (List.length heap, (heap ++ [a])%list).

(** [array.push(x)] on the array at [ref]. *)
Fixpoint pushAt (heap : Heap) (ref : nat) (x : HistoryRecord) : Heap :=
  match heap, ref with
  | [], _ => []
  | a :: r, O => (a ++ [x])%list :: r
  | a :: r, S n => a :: pushAt r n x
  end.

(** What [/api/connection-details] hands out; the server URL comes from the
    environment and the participant token encodes the current time, both
    are left out. *)
Record ConnectionDetails : Type := mkConnectionDetails {
  participantName : string;
  roomName : string
}.

(** A session object (its time stamps left out); [securityScore] and
    [connectionDetails] are absent until a request sets them. *)
Record Session : Type := mkSession {
  violationHistory : nat;
  securityScore : option Z;
  connectionDetails : option ConnectionDetails
}.

(** The two global maps and the arrays they share. *)
Record State : Type := mkState {
  heap : Heap;
  activeSessions : JSMap.t Session;
  sessionViolations : JSMap.t nat
}.

Definition initialState : State := mkState [] [] [].

(** [sessionViolations.get(sessionId) || []]: the registered array, or a
    new empty one. *)
Definition historyOrNew (st : State) (sessionId : string) : nat * State :=
  match JSMap.get (sessionViolations st) sessionId with
  | Some ref => (ref, st)
  | None =>
      let '(ref, heap') := alloc (heap st) [] in
      (ref, mkState heap' (activeSessions st) (sessionViolations st))
  end.

(** The session tracking that ends the try block of
    [generateViolationReport]; the handlers below run it when the block was
    not left by an exception. *)
Definition trackSession (st : State) (sessionId : option string)
    (report : Report) : State :=
  if JS.truthyOpt sessionId then
    let id := JS.orElse sessionId "" in
    let st :=
      if negb (JSMap.has (sessionViolations st) id) then
        let '(ref, heap') := alloc (heap st) [] in
        mkState heap' (activeSessions st)
          (JSMap.set (sessionViolations st) id ref)
      else st in
    match JSMap.get (sessionViolations st) id with
    | Some ref =>
        mkState
          (pushAt (heap st) ref
             (mkHistoryRecord (severity report)
                (totalViolations (summary report)) (overallRiskScore report)))
          (activeSessions st) (sessionViolations st)
    | None => st
    end
  else st.

(** The answers of the endpoints. *)
Record SessionView : Type := mkSessionView {
  view_securityScore : option Z;
  view_connectionDetails : option ConnectionDetails;
  view_violationHistory : list HistoryRecord
}.

Record Analytics : Type := mkAnalytics {
  analytics_activeSessions : Z;
  analytics_totalViolations : Z;
  analytics_criticalViolations : Z;
  analytics_highViolations : Z;
  analytics_mediumViolations : Z;
  analytics_lowViolations : Z
}.

Inductive Answer : Type :=
| Checked (status : string) (reportSeverity : Severity) (report : Report)
    (sessionId : string)
| Monitored (status : string) (reportSeverity : Severity) (report : Report)
    (sessionId : string) (sessionStats : option SessionView)
| SessionInfo (session : SessionView)
| AnalyticsInfo (analytics : Analytics)
| Connection (details : ConnectionDetails)
| Failure (code : Z) (message : string).

(** A session as a response shows it: its history array read through. *)
Definition viewOf (st : State) (s : Session) : SessionView :=
  mkSessionView (securityScore s) (connectionDetails s)
    (deref (heap st) (violationHistory s)).

(** [GET /api/check-processes]; [header] is the x-session-id header and
    [uuid] the value of [crypto.randomUUID()]. *)
Definition checkProcesses (isDev : bool) (st : State) (header : option string)
    (uuid : string) (psList : outcome (list Process))
    (netstat : outcome string) : Answer * State :=
  let sessionId := JS.orElse header uuid in
  match analyzeProcesses isDev psList netstat with
  | Returned analysisResults =>
      let attempt := tryBlock analysisResults None None in
      let violationReport := reportOf attempt in
      let st :=
        match attempt with
        | Completed _ => trackSession st (Some sessionId) violationReport
        | Caught _ _ => st
        end in
      let '(ref, st) := historyOrNew st sessionId in
      let st :=
        mkState (heap st)
          (JSMap.set (activeSessions st) sessionId (mkSession ref None None))
          (sessionViolations st) in
      (Checked (statusOf violationReport) (severity violationReport)
         violationReport sessionId, st)
  | Thrown message => (Failure 500 "Failed to check running processes", st)
  end.

(** [POST /api/monitor-processes]; [score] is [securityScore] of the body. *)
Definition monitorProcesses (isDev : bool) (st : State)
    (header : option string) (behaviorMetrics : option BehaviorPayload)
    (biometricData : option BiometricPayload) (score : option Z)
    (psList : outcome (list Process)) (netstat : outcome string)
    : Answer * State :=
  if negb (JS.truthyOpt header) then
    (Failure 400 "Session ID required for monitoring", st)
  else
    let sessionId := JS.orElse header "" in
    match analyzeProcesses isDev psList netstat with
    | Returned analysisResults =>
        let attempt := tryBlock analysisResults behaviorMetrics biometricData in
        let violationReport := reportOf attempt in
        let st :=
          match attempt with
          | Completed _ => trackSession st (Some sessionId) violationReport
          | Caught _ _ => st
          end in
        let st :=
          match JSMap.get (activeSessions st) sessionId with
          | Some session =>
              let '(ref, st) := historyOrNew st sessionId in
              mkState (heap st)
                (JSMap.set (activeSessions st) sessionId
                   (mkSession ref score (connectionDetails session)))
                (sessionViolations st)
          | None => st
          end in
        (Monitored (statusOf violationReport) (severity violationReport)
           violationReport sessionId
           (option_map (viewOf st) (JSMap.get (activeSessions st) sessionId)),
         st)
    | Thrown message => (Failure 500 "Failed to monitor running processes", st)
    end.

(** [GET /api/session/:sessionId] *)
Definition getSession (st : State) (sessionId : string) : Answer :=
  match JSMap.get (activeSessions st) sessionId with
  | None => Failure 404 "Session not found"
  | Some session =>
      let violations :=
        match JSMap.get (sessionViolations st) sessionId with
        | Some ref => deref (heap st) ref
        | None => []
        end in
      SessionInfo
        (mkSessionView (securityScore session) (connectionDetails session)
           violations)
  end.

(** The severity counters of [/api/analytics] over one history record. *)
Definition countRecord (a : Analytics) (r : HistoryRecord) : Analytics :=
  match record_severity r with
  | CRITICAL =>
      mkAnalytics (analytics_activeSessions a) (analytics_totalViolations a)
        (analytics_criticalViolations a + 1) (analytics_highViolations a)
        (analytics_mediumViolations a) (analytics_lowViolations a)
  | HIGH =>
      mkAnalytics (analytics_activeSessions a) (analytics_totalViolations a)
        (analytics_criticalViolations a) (analytics_highViolations a + 1)
        (analytics_mediumViolations a) (analytics_lowViolations a)
  | MEDIUM =>
      mkAnalytics (analytics_activeSessions a) (analytics_totalViolations a)
        (analytics_criticalViolations a) (analytics_highViolations a)
        (analytics_mediumViolations a + 1) (analytics_lowViolations a)
  | LOW =>
      mkAnalytics (analytics_activeSessions a) (analytics_totalViolations a)
        (analytics_criticalViolations a) (analytics_highViolations a)
        (analytics_mediumViolations a) (analytics_lowViolations a + 1)
  | CLEAN => a
  end.

(** [GET /api/analytics]; [averageSecurityScore], a floating-point
    quotient, is left out. *)
Definition getAnalytics (st : State) : Answer :=
  let histories :=
    map (deref (heap st)) (JSMap.values (sessionViolations st)) in
  let analytics :=
    mkAnalytics (JSMap.size (activeSessions st))
      (fold_left (fun acc violations => acc + Z.of_nat (List.length violations))
         histories 0)
      0 0 0 0 in
  AnalyticsInfo
    (fold_left (fun a violations => fold_left countRecord violations a)
       histories analytics).

(** [GET /api/connection-details] *)
Definition getConnectionDetails (st : State) (header : option string)
    : Answer * State :=
  let sessionId := JS.orElse header "" in
  if negb (JS.truthyOpt header) || negb (JSMap.has (activeSessions st) sessionId)
  then (Failure 401 "Invalid or expired session", st)
  else
    let details :=
      mkConnectionDetails ("candidate-" ++ substring 0 8 sessionId)
        ("interview-" ++ sessionId) in
    match JSMap.get (activeSessions st) sessionId with
    | Some session =>
        (Connection details,
         mkState (heap st)
           (JSMap.set (activeSessions st) sessionId
              (mkSession (violationHistory session) (securityScore session)
                 (Some details)))
           (sessionViolations st))
    | None => (Failure 401 "Invalid or expired session", st)
    end.

(** The requests that touch the session maps, and the server as a machine
    that takes them one at a time. *)
Inductive Request : Type :=
| CheckProcesses (header : option string) (uuid : string)
    (psList : outcome (list Process)) (netstat : outcome string)
| MonitorProcesses (header : option string)
    (behaviorMetrics : option BehaviorPayload)
    (biometricData : option BiometricPayload) (score : option Z)
    (psList : outcome (list Process)) (netstat : outcome string)
| GetSession (sessionId : string)
| GetAnalytics
| GetConnectionDetails (header : option string).

Definition handle (isDev : bool) (st : State) (req : Request)
    : Answer * State :=
  match req with
  | CheckProcesses header uuid psList netstat =>
      checkProcesses isDev st header uuid psList netstat
  | MonitorProcesses header behaviorMetrics biometricData score psList netstat =>
      monitorProcesses isDev st header behaviorMetrics biometricData score
        psList netstat
  | GetSession sessionId => (getSession st sessionId, st)
  | GetAnalytics => (getAnalytics st, st)
  | GetConnectionDetails header => getConnectionDetails st header
  end.

(** The state after a sequence of requests. *)
Definition run (isDev : bool) (requests : list Request) (st : State) : State :=
  fold_left (fun st req => snd (handle isDev st req)) requests st.

(** *** POST /api/terminate-processes *)

Record Termination : Type := mkTermination {
  terminated : list Z;
  failed : list (Z * string)
}.

(** One turn of the loop over the process ids; [kill] is the outcome of the
    kill command for [pid]. *)
Definition terminateOne (results : Termination)
    (request : Z * outcome string) : Termination :=
  let '(pid, kill) := request in
  match kill with
  | Returned _ =>
      mkTermination (terminated results ++ [pid]) (failed results)
  | Thrown message =>
      mkTermination (terminated results) (failed results ++ [(pid, message)])
  end.

Inductive TerminationAnswer : Type :=
| TerminationDone (results : Termination) (terminatedCount failedCount : Z)
| TerminationRefused (code : Z) (message : string).

(** [processIds] is [None] when the body holds no array of that name; each
    process id comes with the outcome of its kill command.  The message of
    the answer is kept as the two counts it prints. *)
Definition terminateProcesses (processIds : option (list (Z * outcome string)))
    : TerminationAnswer :=
  match processIds with
  | None => TerminationRefused 400 "Process IDs array is required"
  | Some requests =>
      let results := fold_left terminateOne requests (mkTermination [] []) in
      TerminationDone results
        (Z.of_nat (List.length (terminated results)))
        (Z.of_nat (List.length (failed results)))
  end.

(** *** GET /api/process-details/:pid *)

Record ProcessAnalysis : Type := mkProcessAnalysis {
  riskLevel : Severity;
  analysis_category : string;
  analysis_recommendations : list string
}.

(** The analysis of the process found. *)
Definition analyzeOne (isDev : bool) (process : Process) : ProcessAnalysis :=
  let analysis := mkProcessAnalysis LOW "unknown" [] in
  let analysis :=
    match findApp isDev process with
    | Some unauthorizedApp =>
        mkProcessAnalysis (app_severity unauthorizedApp)
          (categoryName (app_category unauthorizedApp))
          (analysis_recommendations analysis
             ++ ["Consider terminating this process"])
    | None => analysis
    end in
  match cmd process with
  | Some c =>
      if JS.truthy c then
        match findPattern c with
        | Some suspiciousPattern =>
            mkProcessAnalysis (pattern_severity suspiciousPattern)
              (analysis_category analysis)
              (analysis_recommendations analysis
                 ++ [pattern_description suspiciousPattern])
        | None => analysis
        end
      else analysis
  | None => analysis
  end.

Inductive DetailsAnswer : Type :=
| ProcessDetails (process : Process) (analysis : ProcessAnalysis)
| DetailsFailure (code : Z) (message : string).

(** [requested] is the value of [parseInt(req.params.pid)], [None] for
    NaN. *)
Definition processDetails (isDev : bool) (requested : option Z)
    (psList : outcome (list Process)) : DetailsAnswer :=
  match psList with
  | Thrown message => DetailsFailure 500 "Failed to get process details"
  | Returned processes =>
      let found :=
        match requested with
        | Some n => find (fun p => pid p =? n) processes
        | None => None
        end in
      match found with
      | None => DetailsFailure 404 "Process not found"
      | Some process => ProcessDetails process (analyzeOne isDev process)
      end
  end.

(** *** GET /api/audit-logs *)

(** [array.slice(start)]; [None] is a start that is not a number. *)
Definition sliceFrom {A : Type} (start : option Z) (l : list A) : list A :=
  let relativeStart :=
    match start with
    | Some z => z
    | None => 0
    end in
  let len := Z.of_nat (List.length l) in
  let k :=
    if relativeStart <? 0 then Z.max (len + relativeStart) 0
    else Z.min relativeStart len in
  skipn (Z.to_nat k) l.

Inductive LogsAnswer : Type :=
| Logs (logs : list string) (totalLogs : option Z)
| LogsFailure (code : Z) (message : string).

(** [logFile] is [None] when the file does not exist, and otherwise the
    outcome of reading it; [limit] is the value of [parseInt(limit)],
    [Some 100] when the query names no limit and [None] for NaN. *)
Definition getAuditLogs (logFile : option (outcome string))
    (type sessionId : option string) (limit : option Z) : LogsAnswer :=
  match logFile with
  | None => Logs [] None
  | Some (Thrown message) => LogsFailure 500 "Failed to read audit logs"
  | Some (Returned content) =>
      let logs :=
        sliceFrom (option_map Z.opp limit)
          (filter (fun line => JS.truthy (JS.trim line))
                  (JS.splitLines content)) in
      let logs :=
        match sessionId with
        | Some id =>
            if JS.truthy id then filter (fun log => JS.includes log id) logs
            else logs
        | None => logs
        end in
      let logs :=
        match type with
        | Some t =>
            if JS.truthy t then
              filter (fun log =>
                        JS.includes (JS.toLowerCase log) (JS.toLowerCase t))
                     logs
            else logs
        | None => logs
        end in
      Logs logs (Some (Z.of_nat (List.length logs)))
  end.

End ServerSessions.

(** * The vocabulary of the statements *)

Definition Category_eq_dec (a b : ServerMjs.Category) : {a = b} + {a <> b}.
Proof. decide equality. Defined.

Section Vocabulary.

(** [sub] occurs in [s]. *)
Definition Substring (sub s : string) : Prop :=
  exists pre post, s = pre ++ sub ++ post.

(** The search found an element. *)
Definition isSome {A : Type} (o : option A) : bool :=
  match o with
  | Some _ => true
  | None => false
  end.

(** No two strings of the list are equal. *)
Fixpoint distinct (l : list string) : bool :=
  match l with
  | [] => true
  | s :: r => negb (existsb (String.eqb s) r) && distinct r
  end.

(** The greatest of a list of severities, [CLEAN] for none. *)
Definition maxSeverity (l : list Severity) : Severity :=
  fold_right sevMax CLEAN l.

(** One to three decimal digits. *)
Definition isOctet (o : string) : bool :=
  match o with
  | String a EmptyString => JS.isDigit a
  | String a (String b EmptyString) => JS.isDigit a && JS.isDigit b
  | String a (String b (String c EmptyString)) =>
      JS.isDigit a && JS.isDigit b && JS.isDigit c
  | _ => false
  end.

(** The last character of a text is a word character. *)
Fixpoint lastIsWord (s : string) : bool :=
  match s with
  | EmptyString => false
  | String c EmptyString => JS.isWord c
  | String _ r => lastIsWord r
  end.

(** The text holds four octets joined by dots, not preceded and not
    followed by a word character. *)
Definition HasDottedQuad (s : string) : Prop :=
  exists pre a b c d post,
    s = pre ++ a ++ "." ++ b ++ "." ++ c ++ "." ++ d ++ post
    /\ isOctet a = true /\ isOctet b = true /\ isOctet c = true
    /\ isOctet d = true
    /\ lastIsWord pre = false /\ JS.wordEnd post = true.

(** No word character stands before the match: [prevWord] decides for a
    match at the head, the last character of [pre] otherwise. *)
Definition wordStart (prevWord : bool) (pre : string) : bool :=
  match pre with
  | EmptyString => negb prevWord
  | _ => negb (lastIsWord pre)
  end.

End Vocabulary.

Section ServerVocabulary.
Import ServerMjs.

(** The anomalies of one type. *)
Definition anomaliesOfType (t : ViolationType) (l : list Anomaly) : list Anomaly :=
  filter (fun a => ViolationType_eqb (anomaly_type a) t) l.

(** The metrics with the tab switches taken out. *)
Definition withoutTabSwitches (b : BehaviorData) : BehaviorData :=
  mkBehaviorData 0 (rightClicks b) (idleTime b) (keystrokes b).

(** The types the two analyzers give their anomalies. *)
Definition isAnomalyType (t : ViolationType) : bool :=
  match t with
  | UNAUTHORIZED_APPLICATION | SUSPICIOUS_ACTIVITY
  | SUSPICIOUS_NETWORK_ACTIVITY | SUSPICIOUS_BROWSER_ACTIVITY => false
  | _ => true
  end.

(** The number of unauthorized entries of one catalog category. *)
Definition countCategory (c : Category) (l : list UnauthorizedEntry) : Z :=
  Z.of_nat
    (List.length
       (filter (fun u => if Category_eq_dec (unauthorized_category u) c
                         then true else false) l)).

(** The counters of [processPatterns] agree with the lists built next to
    them. *)
Definition counted (acc : Scan) : Prop :=
  count_development (processPatterns acc)
  = countCategory development (scan_unauthorized acc)
  /\ count_communication (processPatterns acc)
     = countCategory communication (scan_unauthorized acc)
  /\ count_cheating (processPatterns acc)
     = countCategory cheating (scan_unauthorized acc)
  /\ count_suspicious (processPatterns acc)
     = Z.of_nat (List.length (scan_suspicious acc)).

(** The categories that [processPatterns] has no counter for. *)
Definition uncounted (c : Category) : bool :=
  match c with
  | ai_cheating | remote_access | recording | virtualization | browser
  | emulation | monitoring | system => true
  | development | communication | cheating => false
  end.

(** The process is named by a catalog entry of an uncounted category. *)
Definition hitsUncounted (isDev : bool) (proc : Process) : bool :=
  match findApp isDev proc with
  | Some app => uncounted (app_category app)
  | None => false
  end.

(** The risk score of the process analysis without its network term. *)
Definition categoryWeighted (results : Results) : Z :=
  riskScore results
  - Z.of_nat (List.length (suspiciousConnections (networkThreats results))) * 20.

(** What one process does to the counters. *)
Definition stepPatterns (isDev : bool) (pp : ProcessPatterns) (proc : Process)
    : ProcessPatterns :=
  if isServerProcess isDev proc then pp
  else match findApp isDev proc with
       | Some app => bumpCategory (app_category app) pp
       | None =>
           match cmd proc with
           | Some c =>
               if JS.truthy c then
                 match findPattern c with
                 | Some _ => bumpSuspicious pp
                 | None => pp
                 end
               else pp
           | None => pp
           end
       end.

(** The violations of one type in a report. *)
Definition findingsOfType (t : ViolationType) (report : Report) : list Violation :=
  filter (fun v => ViolationType_eqb (violation_type v) t) (violations report).

(** The name of the process equals, letter case aside, the name of some
    catalog entry. *)
Definition namedInCatalog (isDev : bool) (proc : Process) : bool :=
  existsb (fun app =>
             (JS.toLowerCase (name proc) =? JS.toLowerCase (app_name app))%string)
          (unauthorizedApps isDev).

(** The allow-list of the development configuration: the server's own
    executable name together with its script name on the command line. *)
Definition allowListed (isDev : bool) (proc : Process) : bool :=
  isDev
  && ((JS.toLowerCase (name proc) =? "node.exe")%string
      || (JS.toLowerCase (name proc) =? "node")%string)
  && match cmd proc with
     | Some c => JS.includes c "server.mjs"
     | None => false
     end.

(** The name and the PID of an unauthorized entry and of a process. *)
Definition entryKey (u : UnauthorizedEntry) : string * Z :=
  (unauthorized_name u, unauthorized_pid u).

Definition processKey (proc : Process) : string * Z := (name proc, pid proc).

(** The process is named in the catalog and not on the allow-list. *)
Definition flagged (isDev : bool) (proc : Process) : bool :=
  namedInCatalog isDev proc && negb (allowListed isDev proc).

(** The process a finding is about: the name and the PID that its details
    carry. *)
Definition subject (v : Violation) : string * Z :=
  match violation_details v with
  | AppDetails n p _ => (n, p)
  | _ => (EmptyString, 0)
  end.

(** The test and the entry of the loop over the browser counts. *)
Definition overThreshold (isDev : bool) (entry : string * Z) : bool :=
  snd entry >? browserThreshold isDev.

Definition instanceOf (isDev : bool) (entry : string * Z) : BrowserInstance :=
  mkBrowserInstance (fst entry) (snd entry)
    (if snd entry >? browserThreshold isDev + 10 then HIGH else MEDIUM)
    (snd entry >? browserThreshold isDev * 2)
    (snd entry >? browserThreshold isDev * 3).

(** Some connection line names the catalog entry. *)
Definition named (connections : list string) (d : Domain) : bool :=
  existsb (connectionNames d) connections.

(** A snapshot that no catalog entry and no pattern names. *)
Definition idleDesktop : list Process :=
  [mkProcess 1 "explorer.exe" None 0;
   mkProcess 2 "svchost.exe" (Some "svchost.exe -k netsvcs") 0].

(** Four processes of one browser. *)
Definition fourChromes : list Process :=
  [mkProcess 101 "chrome.exe" None 1; mkProcess 102 "chrome.exe" None 1;
   mkProcess 103 "chrome.exe" None 1; mkProcess 104 "chrome.exe" None 1].

(** A text editor opened on a file whose name holds a CRITICAL pattern. *)
Definition keyloggerNotes : list Process :=
  [mkProcess 4242 "notepad.exe" (Some "notepad.exe keylogger-notes.txt") 1].

(** One browser process. *)
Definition oneChrome : list Process :=
  [mkProcess 101 "chrome.exe" None 1].

(** One process of a MEDIUM catalog entry. *)
Definition oneNpm : list Process :=
  [mkProcess 7 "npm" None 1].

(** The connection listing fails, as it does when no connection is
    established: the filter finds no line and the command exits with 1. *)
Definition noConnections : outcome string :=
  Thrown "Command failed: netstat -an | grep ESTABLISHED".

(** An electron application started on its main script. *)
Definition electronMain : list Process :=
  [mkProcess 4242 "electron.exe" (Some "electron.exe main.js") 1].

End ServerVocabulary.

Section Part000Vocabulary.
Import Part000.

(** The name of the process equals, letter case aside, the name of some
    entry of the earlier catalog. *)
Definition part000_namedInCatalog (proc : Process) : bool :=
  existsb (fun app =>
             (JS.toLowerCase (name proc) =? JS.toLowerCase (app_name app))%string)
          unauthorizedApps.

(** The same keys and subjects for the records of the earlier file. *)
Definition part000_entryKey (u : UnauthorizedEntry) : string * Z :=
  (unauthorized_name u, unauthorized_pid u).

Definition part000_subject (v : Violation) : string * Z :=
  match violation_details v with
  | AppDetails n p _ => (n, p)
  | _ => (EmptyString, 0)
  end.

Definition part000_findingsOfType (t : ViolationType) (report : Report)
    : list Violation :=
  filter (fun v => ViolationType_eqb (violation_type v) t) (violations report).

End Part000Vocabulary.

Section ReportVocabulary.
Import ServerMjs.

(** What each loop of the aggregator lets a finding add to the report
    severity: the unauthorized loop ignores LOW, the suspicious and the
    browser loop know HIGH and take all else for MEDIUM, the network loop
    ignores what is below HIGH. *)
Definition effectiveUnauthorized (s : Severity) : Severity :=
  match s with
  | CRITICAL => CRITICAL
  | HIGH => HIGH
  | MEDIUM => MEDIUM
  | _ => CLEAN
  end.

Definition effectiveSuspicious (s : Severity) : Severity :=
  match s with
  | HIGH => HIGH
  | _ => MEDIUM
  end.

Definition effectiveThreat (s : Severity) : Severity :=
  match s with
  | CRITICAL => CRITICAL
  | HIGH => HIGH
  | _ => CLEAN
  end.

Definition effectiveBrowser (s : Severity) : Severity :=
  match s with
  | HIGH => HIGH
  | _ => MEDIUM
  end.

(** The severities that count towards the severity of a report. *)
Definition effectiveSeverities (results : Results) : list Severity :=
  (map (fun u => effectiveUnauthorized (unauthorized_severity u))
       (unauthorized results)
   ++ map (fun a => effectiveSuspicious (suspicious_severity a))
        (suspicious results)
   ++ map (fun t => effectiveThreat (domain_severity t))
        (suspiciousConnections (networkThreats results))
   ++ map (fun b => effectiveBrowser (threat_level b))
        (browserInstances results))%list.

(** The number of violations of one severity. *)
Definition countSeverity (s : Severity) (l : list Violation) : Z :=
  Z.of_nat
    (List.length (filter (fun v => Severity_eqb (violation_severity v) s) l)).

(** The tallies of a list of violations, pushed one by one. *)
Definition tallyAll (l : list Violation) (s : Summary) : Summary :=
  fold_left (fun s v => tally (violation_severity v) s) l s.

(** The counters of the behaviour payload as the analyzer reads them: none
    without a payload, and none when reading it throws. *)
Definition seenBehavior (behaviorData : option BehaviorPayload)
    : option BehaviorData :=
  match behaviorData with
  | Some payload =>
      match readBehavior payload with
      | Returned b => Some b
      | Thrown _ => None
      end
  | None => None
  end.

(** The behavioural analyzer throws on the payload. *)
Definition behaviorThrows (behaviorData : option BehaviorPayload) : bool :=
  match behaviorData with
  | Some payload =>
      match readBehavior payload with
      | Returned _ => false
      | Thrown _ => true
      end
  | None => false
  end.

(** The biometric analyzer throws on the payload. *)
Definition biometricThrows (biometricData : option BiometricPayload) : bool :=
  match biometricData with
  | Some payload =>
      match readBiometric payload with
      | Returned _ => false
      | Thrown _ => true
      end
  | None => false
  end.

(** The biometric readings as the analyzer reads them: none, too, when the
    behavioural analyzer threw before the biometric one was called. *)
Definition seenBiometric (behaviorData : option BehaviorPayload)
    (biometricData : option BiometricPayload) : option BiometricData :=
  if behaviorThrows behaviorData then None
  else
    match biometricData with
    | Some payload =>
        match readBiometric payload with
        | Returned b => Some b
        | Thrown _ => None
        end
    | None => None
    end.

(** No analyzer throws on its payload. *)
Definition completes (behaviorData : option BehaviorPayload)
    (biometricData : option BiometricPayload) : bool :=
  negb (behaviorThrows behaviorData) && negb (biometricThrows biometricData).

(** The payloads that hold the given counters. *)
Definition sentBehavior (b : BehaviorData) : BehaviorPayload :=
  mkBehaviorPayload (Counter (tabSwitches b)) (Counter (rightClicks b))
    (Counter (idleTime b)) (Counter (keystrokes b)).

Definition sentBiometric (b : BiometricData) : BiometricPayload :=
  mkBiometricPayload (faceDetected b) (Counter (attentionScore b)).

(** Behaviour metrics whose tab switches are an object that no conversion
    turns into a number. *)
Definition unreadableTabs : BehaviorPayload :=
  mkBehaviorPayload Unconvertible (Counter 0) (Counter 0) (Counter 0).

(** The process-analysis part of the overall risk score: the weighted
    category counts and 20 per network threat. *)
Definition weightedFindings (results : Results) : Z :=
  countCategory cheating (unauthorized results) * 40
  + countCategory development (unauthorized results) * 15
  + countCategory communication (unauthorized results) * 10
  + Z.of_nat (List.length (suspicious results)) * 25
  + Z.of_nat (List.length (suspiciousConnections (networkThreats results))) * 20.

(** The report that a try block builds when it reaches its end, from the
    counters that the analyzers read. *)
Definition completedReport (results : Results)
    (behaviorData : option BehaviorData)
    (biometricData : option BiometricData) : Report :=
  let report := mkReport CLEAN [] emptySummary 0 None None [] in
  let report := fold_left addUnauthorized (unauthorized results) report in
  let report := fold_left addSuspicious (suspicious results) report in
  let report :=
    fold_left addThreat (suspiciousConnections (networkThreats results))
      report in
  let report := fold_left addBrowser (browserInstances results) report in
  (* behavioural analysis *)
  let report :=
    match behaviorData with
    | Some _ =>
        let analysis := analyzeBehaviorMetrics behaviorData in
        fold_left (addAnomaly "behavior") (behavior_anomalies analysis)
          (mkReport (severity report) (violations report) (summary report)
             (overallRiskScore report) (Some analysis)
             (biometricAnalysis report) (recommendations report))
    | None => report
    end in
  (* biometric analysis *)
  let report :=
    match biometricData with
    | Some _ =>
        let analysis := analyzeBiometricData biometricData in
        fold_left (addAnomaly "biometric") (biometric_anomalies analysis)
          (mkReport (severity report) (violations report) (summary report)
             (overallRiskScore report) (behaviorAnalysis report)
             (Some analysis) (recommendations report))
    | None => report
    end in
  (* overall risk score *)
  let score :=
    JS.orZero (riskScore results)
    + riskOfBehavior (behaviorAnalysis report)
    + riskOfBiometric (biometricAnalysis report) in
  (* recommendations *)
  let recs :=
    if score >? 100 then
      ["IMMEDIATE INTERVENTION REQUIRED";
       "Consider terminating interview session"]
    else if score >? 50 then
      ["Increase monitoring frequency";
       "Enable additional security measures"]
    else [] in
  let recs :=
    if criticalViolations (summary report) >? 0 then
      (recs ++ ["Critical violations detected - manual review required"])%list
    else recs in
  mkReport (severity report) (violations report) (summary report) score
    (behaviorAnalysis report) (biometricAnalysis report)
    (recommendations report ++ recs).

End ReportVocabulary.

Section HandlerVocabulary.
Import ServerMjs.

(** The status and the severity that a response carries; an error response
    carries its status alone. *)
Definition responseStatus (r : Response) : string * option Severity :=
  match r with
  | Json status sev _ => (status, Some sev)
  | ClientError status _ => (status, None)
  | ServerError status _ _ => (status, None)
  end.

(** The severity is none of MEDIUM, HIGH and CRITICAL. *)
Definition belowMedium (s : Severity) : bool :=
  match s with
  | CLEAN | LOW => true
  | _ => false
  end.

(** The severity is none of HIGH and CRITICAL. *)
Definition belowHigh (s : Severity) : bool :=
  match s with
  | CLEAN | LOW | MEDIUM => true
  | _ => false
  end.

End HandlerVocabulary.

Section ScanVocabulary.
Import ServerMjs.

(** The name under which a process is reported. *)
Definition displayName (proc : Process) : string :=
  if JS.truthy (name proc) then name proc else "unknown".

(** The command line of the process contains, letter case aside, one of
    the suspicious patterns. *)
Definition patternInCmd (proc : Process) : bool :=
  match cmd proc with
  | Some c =>
      existsb (fun p => JS.includes (JS.toLowerCase c) (JS.toLowerCase (pattern p)))
              suspiciousPatterns
  | None => false
  end.

(** The process is reported as a suspicious activity: it is not on the
    allow-list, no catalog entry names it, and its command line contains a
    pattern. *)
Definition suspiciousFlagged (isDev : bool) (proc : Process) : bool :=
  negb (allowListed isDev proc) && negb (namedInCatalog isDev proc)
  && patternInCmd proc.

Definition suspiciousKey (a : SuspiciousEntry) : string * Z :=
  (suspicious_name a, suspicious_pid a).

(** The entry repeats a pattern of the catalog that its command line
    contains. *)
Definition repeatsPattern (a : SuspiciousEntry) : Prop :=
  exists p,
    In p suspiciousPatterns
    /\ suspicious_reason a = pattern_description p
    /\ suspicious_severity a = pattern_severity p
    /\ Substring (JS.toLowerCase (pattern p))
         (JS.toLowerCase (suspicious_cmd a)).

(** The lower-cased name of the process contains the name of one of the
    four browsers. *)
Definition browserLike (proc : Process) : bool :=
  JS.includes (JS.toLowerCase (name proc)) "chrome"
  || JS.includes (JS.toLowerCase (name proc)) "firefox"
  || JS.includes (JS.toLowerCase (name proc)) "safari"
  || JS.includes (JS.toLowerCase (name proc)) "msedge".

(** The count that a counter table holds for a key, 0 for none. *)
Fixpoint countOf (key : string) (m : list (string * Z)) : Z :=
  match m with
  | [] => 0
  | (k, v) :: r => if (k =? key)%string then v else countOf key r
  end.

End ScanVocabulary.

Section Part000ScanVocabulary.
Import Part000.

Definition part000_suspiciousKey (a : SuspiciousEntry) : string * Z :=
  (suspicious_name a, suspicious_pid a).

(** The command line is reported by the earlier file: it contains, letter
    case aside, one of its patterns. *)
Definition part000_patternInCmd (proc : Process) : bool :=
  match cmd proc with
  | Some c =>
      existsb (fun p => JS.includes (JS.toLowerCase c) (JS.toLowerCase p))
              suspiciousPatterns
  | None => false
  end.

End Part000ScanVocabulary.

(** The severities that a report of the earlier file can take. *)
Definition part000_level (s : Severity) : bool :=
  match s with
  | CLEAN | HIGH | CRITICAL => true
  | LOW | MEDIUM => false
  end.

Section SessionVocabulary.
Import ServerMjs ServerSessions.

(** The violation history of a session id: the array registered for it,
    empty when there is none. *)
Definition history (st : State) (sessionId : string) : list HistoryRecord :=
  match JSMap.get (sessionViolations st) sessionId with
  | Some ref => deref (heap st) ref
  | None => []
  end.

(** The entry that a report leaves in a history. *)
Definition recordOf (report : Report) : HistoryRecord :=
  mkHistoryRecord (severity report) (totalViolations (summary report))
    (overallRiskScore report).

(** The session and the entry that a request adds to the histories: a
    check or a monitoring request whose process listing succeeds adds the
    entry of its report under its session id, if that is not empty and no
    analyzer throws on a payload of the request. *)
Definition recorded (isDev : bool) (req : Request)
    : option (string * HistoryRecord) :=
  match req with
  | CheckProcesses header uuid (Returned processes) netstat =>
      if JS.truthy (JS.orElse header uuid) then
        Some (JS.orElse header uuid,
              recordOf
                (generateViolationReport (analyze isDev processes netstat)
                   None None))
      else None
  | MonitorProcesses header behaviorMetrics biometricData _
      (Returned processes) netstat =>
      if JS.truthyOpt header && completes behaviorMetrics biometricData then
        Some (JS.orElse header "",
              recordOf
                (generateViolationReport (analyze isDev processes netstat)
                   behaviorMetrics biometricData))
      else None
  | _ => None
  end.

(** What a request adds to the history of [sessionId]. *)
Definition addedTo (isDev : bool) (req : Request) (sessionId : string)
    : list HistoryRecord :=
  match recorded isDev req with
  | Some (id, r) => if (id =? sessionId)%string then [r] else []
  | None => []
  end.

(** The state is consistent: the registered arrays are distinct objects of
    the heap, and the history of every session object with a non-empty id
    is the array registered under that id. *)
Definition consistent (st : State) : Prop :=
  NoDup (JSMap.values (sessionViolations st))
  /\ Forall (fun ref => (ref < List.length (heap st))%nat)
            (JSMap.values (sessionViolations st))
  /\ (forall id session,
        JS.truthy id = true ->
        JSMap.get (activeSessions st) id = Some session ->
        JSMap.get (sessionViolations st) id = Some (violationHistory session)).

(** The session ids and entries that a sequence of requests records, in
    the order of the requests. *)
Definition records (isDev : bool) (requests : list Request)
    : list (string * HistoryRecord) :=
  flat_map (fun req =>
              match recorded isDev req with
              | Some entry => [entry]
              | None => []
              end) requests.

(** The request opens the session [sessionId]: it is a check whose process
    listing succeeds, under that session id. *)
Definition opens (sessionId : string) (req : Request) : bool :=
  match req with
  | CheckProcesses header uuid (Returned _) _ =>
      (JS.orElse header uuid =? sessionId)%string
  | _ => false
  end.

(** The number of entries of a history with a given severity. *)
Definition severityCount (s : Severity) (l : list HistoryRecord) : Z :=
  Z.of_nat
    (List.length (filter (fun r => Severity_eqb (record_severity r) s) l)).

(** A measure of histories summed over the registered arrays. *)
Definition sumOver (f : list HistoryRecord -> Z) (h : Heap) (refs : list nat)
    : Z :=
  fold_right Z.add 0 (map (fun ref => f (deref h ref)) refs).

Definition summed (f : list HistoryRecord -> Z) (st : State) : Z :=
  sumOver f (heap st) (JSMap.values (sessionViolations st)).

(** [f] counts entries, each with the weight [g]. *)
Definition additive (f : list HistoryRecord -> Z) (g : HistoryRecord -> Z)
    : Prop :=
  f [] = 0 /\ forall l y, f (l ++ [y])%list = f l + g y.

(** The weight of the entry that a request records. *)
Definition weight (g : HistoryRecord -> Z) (isDev : bool) (req : Request) : Z :=
  match recorded isDev req with
  | Some (_, r) => g r
  | None => 0
  end.

(** The analytics of an answer, zero for any other answer. *)
Definition analyticsOf (a : Answer) : Analytics :=
  match a with
  | AnalyticsInfo analytics => analytics
  | _ => mkAnalytics 0 0 0 0 0 0
  end.

(** The pids of a termination request whose kill command returned, and
    those whose kill command threw, with the message. *)
Definition killed (requests : list (Z * outcome string)) : list Z :=
  flat_map (fun request =>
              match snd request with
              | Returned _ => [fst request]
              | Thrown _ => []
              end) requests.

Definition survived (requests : list (Z * outcome string))
    : list (Z * string) :=
  flat_map (fun request =>
              match snd request with
              | Returned _ => []
              | Thrown message => [(fst request, message)]
              end) requests.

(** The last [n] elements of a list. *)
Definition lastn {A : Type} (n : nat) (l : list A) : list A :=
  skipn (List.length l - n) l.

(** The non-blank lines of a log file. *)
Definition logLines (content : string) : list string :=
  filter (fun line => JS.truthy (JS.trim line)) (JS.splitLines content).

(** A log line passes the two optional filters of the audit-log query. *)
Definition logMatches (type sessionId : option string) (log : string) : bool :=
  match sessionId with
  | Some id => if JS.truthy id then JS.includes log id else true
  | None => true
  end
  && match type with
     | Some t =>
         if JS.truthy t
         then JS.includes (JS.toLowerCase log) (JS.toLowerCase t)
         else true
     | None => true
     end.

End SessionVocabulary.

(** Case analysis on every test a definition branches on. *)
Ltac split_tests :=
  repeat match goal with
         | |- context [if ?c then _ else _] =>
             destruct c; cbn -[Z.add Z.mul Z.gtb Z.ltb]
         end.

(** * Properties *)

(** ** Strings *)

Lemma prefix_iff (sub s : string) :
  prefix sub s = true <-> exists post, s = sub ++ post.
Proof.
  revert s; induction sub as [|c sub IH]; intros s.
  - split; [intros _; exists s; reflexivity | intros _; destruct s; reflexivity].
  - destruct s as [|c' s']; simpl.
    + split; [discriminate | intros [post H]; discriminate].
    + destruct (ascii_dec c c') as [->|Hne].
      * rewrite IH; split; intros [post H]; exists post.
        -- now rewrite H.
        -- now injection H.
      * split; [discriminate | intros [post H]; injection H; congruence].
Qed.

Lemma includes_iff (s sub : string) :
  JS.includes s sub = true <-> Substring sub s.
Proof.
  unfold Substring; induction s as [|c s IH]; cbn [JS.includes].
  - rewrite orb_false_r, prefix_iff; split.
    + intros [post H]; exists "", post; exact H.
    + intros [[|c pre] [post H]]; [exists post; exact H | discriminate].
  - rewrite orb_true_iff, prefix_iff, IH; split.
    + intros [[post H] | [pre [post H]]].
      * exists "", post; exact H.
      * exists (String c pre), post; simpl; now rewrite H.
    + intros [[|c' pre] [post H]].
      * left; exists post; exact H.
      * right; exists pre, post; simpl in H; now injection H.
Qed.

Lemma distinct_NoDup (l : list string) : distinct l = true -> NoDup l.
Proof.
  induction l as [|s r IH]; simpl; intros H; [constructor|].
  apply andb_true_iff in H as [Hs Hr].
  constructor; [|apply IH, Hr].
  intros Hin; apply negb_true_iff in Hs.
  assert (Hex : existsb (String.eqb s) r = true)
    by (apply existsb_exists; exists s; split; [exact Hin | apply String.eqb_refl]).
  congruence.
Qed.

Lemma orZero_id (n : Z) : JS.orZero n = n.
Proof. unfold JS.orZero; destruct (Z.eqb_spec n 0); congruence. Qed.

(** ** Severities *)

Lemma ViolationType_eqb_eq (a b : ViolationType) :
  ViolationType_eqb a b = true <-> a = b.
Proof. destruct a, b; simpl; split; congruence. Qed.

(** ** The behavioural and biometric analyzers *)

Section Analyzers.
Import ServerMjs.

(** C8: both analyzers answer an absent input, and answer it with a zero
    risk score and no anomaly.  (The embedded functions are total: every
    input, absent or present, has a result.) *)
Theorem analyzers_absent_input :
  behavior_riskScore (analyzeBehaviorMetrics None) = 0
  /\ behavior_anomalies (analyzeBehaviorMetrics None) = []
  /\ biometric_riskScore (analyzeBiometricData None) = 0
  /\ biometric_anomalies (analyzeBiometricData None) = [].
Proof. repeat split. Qed.

(** C9: more than five tab switches give exactly one
    EXCESSIVE_TAB_SWITCHING anomaly, of confidence 0.9, HIGH above ten
    switches and MEDIUM otherwise, and add twice the number of switches to
    the risk score; twelve switches alone give HIGH and a score of 24. *)
Theorem excessive_tab_switching (b : BehaviorData) :
  5 < tabSwitches b ->
  let analysis := analyzeBehaviorMetrics (Some b) in
  anomaliesOfType EXCESSIVE_TAB_SWITCHING (behavior_anomalies analysis)
  = [mkAnomaly EXCESSIVE_TAB_SWITCHING
       (if 10 <? tabSwitches b then HIGH else MEDIUM)
       (TabSwitchesDetails (tabSwitches b)) (9 # 10)]
  /\ behavior_riskScore analysis
     = behavior_riskScore (analyzeBehaviorMetrics (Some (withoutTabSwitches b)))
       + tabSwitches b * 2
  /\ (b = mkBehaviorData 12 0 0 0 ->
      behavior_anomalies analysis
      = [mkAnomaly EXCESSIVE_TAB_SWITCHING HIGH (TabSwitchesDetails 12) (9 # 10)]
      /\ behavior_riskScore analysis = 24).
Proof.
  intros H analysis; subst analysis.
  apply Z.gtb_lt in H.
  split; [|split].
  - unfold analyzeBehaviorMetrics, anomaliesOfType; rewrite H.
    rewrite (Z.gtb_ltb (tabSwitches b) 10).
    cbn -[Z.add Z.mul Z.gtb Z.ltb]; split_tests; reflexivity.
  - unfold analyzeBehaviorMetrics, withoutTabSwitches; rewrite H.
    cbn -[Z.add Z.mul Z.gtb Z.ltb]; split_tests; lia.
  - intros ->; split; reflexivity.
Qed.

Lemma excessive_tab_switching_witness :
  5 < tabSwitches (mkBehaviorData 12 0 0 0)
  /\ behavior_riskScore (analyzeBehaviorMetrics (Some (mkBehaviorData 12 0 0 0)))
     = 24.
Proof.
  split; [reflexivity|].
  apply (excessive_tab_switching (mkBehaviorData 12 0 0 0)); reflexivity.
Defined.

(** C2 (what the code does instead): the test [attentionScore < 70] comes
    first, so an attention score below 50 is answered by the
    LOW_ATTENTION_SCORE rule: severity MEDIUM, confidence 0.8, 20 points.
    No input reaches the CRITICAL_ATTENTION_SCORE branch.  A missing face
    with attention 40 scores 30 + 20 = 50. *)
Theorem critical_attention_shadowed (b : BiometricData) :
  attentionScore b < 50 ->
  let analysis := analyzeBiometricData (Some b) in
  biometric_anomalies analysis
  = ((if faceDetected b then []
      else [mkAnomaly FACE_NOT_DETECTED HIGH FaceNotVisible (95 # 100)])
     ++ [mkAnomaly LOW_ATTENTION_SCORE MEDIUM
           (AttentionDetails (attentionScore b)) (8 # 10)])%list
  /\ biometric_riskScore analysis = (if faceDetected b then 0 else 30) + 20
  /\ anomaliesOfType CRITICAL_ATTENTION_SCORE (biometric_anomalies analysis) = [].
Proof.
  intros H analysis; subst analysis.
  assert (H70 : (attentionScore b <? 70) = true) by (apply Z.ltb_lt; lia).
  unfold analyzeBiometricData, anomaliesOfType; rewrite H70.
  destruct (faceDetected b); cbn; repeat split.
Qed.

Lemma critical_attention_shadowed_witness :
  attentionScore (mkBiometricData false 40) < 50
  /\ map anomaly_type
       (biometric_anomalies (analyzeBiometricData (Some (mkBiometricData false 40))))
     = [FACE_NOT_DETECTED; LOW_ATTENTION_SCORE]
  /\ biometric_riskScore (analyzeBiometricData (Some (mkBiometricData false 40)))
     = 50.
Proof.
  split; [reflexivity|].
  destruct (critical_attention_shadowed (mkBiometricData false 40))
    as (Ha & Hr & _); [reflexivity|].
  split; [rewrite Ha | rewrite Hr]; reflexivity.
Defined.

Lemma behavior_anomaly_types (behaviorData : option BehaviorData) :
  Forall (fun a => isAnomalyType (anomaly_type a) = true)
    (behavior_anomalies (analyzeBehaviorMetrics behaviorData)).
Proof.
  destruct behaviorData as [b|]; [|constructor].
  unfold analyzeBehaviorMetrics; cbn -[Z.add Z.mul Z.gtb Z.ltb].
  split_tests; repeat constructor.
Qed.

Lemma biometric_anomaly_types (biometricData : option BiometricData) :
  Forall (fun a => isAnomalyType (anomaly_type a) = true)
    (biometric_anomalies (analyzeBiometricData biometricData)).
Proof.
  destruct biometricData as [b|]; [|constructor].
  unfold analyzeBiometricData; cbn -[Z.add Z.mul Z.gtb Z.ltb].
  split_tests; repeat constructor.
Qed.

(** The dead branch, for every input: no analysis ever carries a
    CRITICAL_ATTENTION_SCORE anomaly. *)
Lemma critical_attention_never_emitted (bio : option BiometricData) :
  anomaliesOfType CRITICAL_ATTENTION_SCORE
    (biometric_anomalies (analyzeBiometricData bio)) = [].
Proof.
  destruct bio as [b|]; [|reflexivity].
  unfold analyzeBiometricData, anomaliesOfType.
  destruct (attentionScore b <? 70) eqn:H70.
  - destruct (faceDetected b); reflexivity.
  - assert (H50 : (attentionScore b <? 50) = false)
      by (apply Z.ltb_ge; apply Z.ltb_ge in H70; lia).
    rewrite H50; destruct (faceDetected b); reflexivity.
Qed.

End Analyzers.

(** ** The report of [app/server.mjs] *)

Section Loops.
Context {R X F : Type} (proj : R -> F) (add : R -> X -> R).

(** A field that no step touches survives the loop. *)
Lemma fold_left_preserves :
  (forall r x, proj (add r x) = proj r) ->
  forall l r, proj (fold_left add l r) = proj r.
Proof.
  intros Hadd l; induction l as [|x l IH]; intros r; simpl.
  - reflexivity.
  - now rewrite IH, Hadd.
Qed.
End Loops.

Section Appending.
Context {R X V : Type} (proj : R -> list V) (add : R -> X -> R) (mk : X -> V).

(** A loop whose steps push [mk x] onto a list field maps [mk]. *)
Lemma fold_left_appends :
  (forall r x, proj (add r x) = proj r ++ [mk x])%list ->
  forall l r, proj (fold_left add l r) = (proj r ++ map mk l)%list.
Proof.
  intros Hadd l; induction l as [|x l IH]; intros r; simpl.
  - now rewrite app_nil_r.
  - now rewrite IH, Hadd, <- app_assoc.
Qed.
End Appending.

Section CompletedReport.
Import ServerMjs.

Variables (results : Results) (behaviorData : option BehaviorData)
          (biometricData : option BiometricData).

(** The violations of a completed report, in the order the aggregator
    pushes them. *)
Lemma completed_violations :
  violations (completedReport results behaviorData biometricData)
  = (map unauthorizedViolation (unauthorized results)
     ++ map suspiciousViolation (suspicious results)
     ++ map threatViolation (suspiciousConnections (networkThreats results))
     ++ map browserViolation (browserInstances results)
     ++ map (anomalyViolation "behavior")
          (behavior_anomalies (analyzeBehaviorMetrics behaviorData))
     ++ map (anomalyViolation "biometric")
          (biometric_anomalies (analyzeBiometricData biometricData)))%list.
Proof.
  unfold completedReport; cbn [violations].
  assert (Hbio : forall r,
    violations
      match biometricData with
      | Some _ =>
          fold_left (addAnomaly "biometric")
            (biometric_anomalies (analyzeBiometricData biometricData))
            (mkReport (severity r) (violations r) (summary r)
               (overallRiskScore r) (behaviorAnalysis r)
               (Some (analyzeBiometricData biometricData))
               (recommendations r))
      | None => r
      end
    = (violations r ++ map (anomalyViolation "biometric")
         (biometric_anomalies (analyzeBiometricData biometricData)))%list).
  { intros r; destruct biometricData as [b|].
    - now rewrite (fold_left_appends violations (addAnomaly "biometric")
                     (anomalyViolation "biometric")).
    - cbn; now rewrite app_nil_r. }
  assert (Hbeh : forall r,
    violations
      match behaviorData with
      | Some _ =>
          fold_left (addAnomaly "behavior")
            (behavior_anomalies (analyzeBehaviorMetrics behaviorData))
            (mkReport (severity r) (violations r) (summary r)
               (overallRiskScore r) (Some (analyzeBehaviorMetrics behaviorData))
               (biometricAnalysis r) (recommendations r))
      | None => r
      end
    = (violations r ++ map (anomalyViolation "behavior")
         (behavior_anomalies (analyzeBehaviorMetrics behaviorData)))%list).
  { intros r; destruct behaviorData as [b|].
    - now rewrite (fold_left_appends violations (addAnomaly "behavior")
                     (anomalyViolation "behavior")).
    - cbn; now rewrite app_nil_r. }
  rewrite Hbio, Hbeh.
  rewrite (fold_left_appends violations addBrowser browserViolation) by reflexivity.
  rewrite (fold_left_appends violations addThreat threatViolation) by reflexivity.
  rewrite (fold_left_appends violations addSuspicious suspiciousViolation)
    by reflexivity.
  rewrite (fold_left_appends violations addUnauthorized unauthorizedViolation)
    by reflexivity.
  cbn [violations app]; now rewrite <- !app_assoc.
Qed.

(** The overall risk score of a completed report is the sum of the three
    risk scores. *)
Lemma completed_overallRiskScore :
  overallRiskScore (completedReport results behaviorData biometricData)
  = riskScore results
    + behavior_riskScore (analyzeBehaviorMetrics behaviorData)
    + biometric_riskScore (analyzeBiometricData biometricData).
Proof.
  unfold completedReport; cbn [overallRiskScore].
  set (r4 := fold_left addBrowser _ _).
  assert (H4 : behaviorAnalysis r4 = None /\ biometricAnalysis r4 = None).
  { subst r4; split.
    - now rewrite !(fold_left_preserves behaviorAnalysis).
    - now rewrite !(fold_left_preserves biometricAnalysis). }
  destruct H4 as [H4a H4b].
  set (r5 := match behaviorData with Some _ => _ | None => r4 end).
  assert (H5 : riskOfBehavior (behaviorAnalysis r5)
               = behavior_riskScore (analyzeBehaviorMetrics behaviorData)
               /\ biometricAnalysis r5 = None).
  { subst r5; destruct behaviorData as [b|].
    - rewrite (fold_left_preserves behaviorAnalysis) by reflexivity.
      rewrite (fold_left_preserves biometricAnalysis) by reflexivity.
      cbn [behaviorAnalysis biometricAnalysis riskOfBehavior].
      now rewrite orZero_id.
    - now rewrite H4a. }
  destruct H5 as [H5a H5b].
  set (r6 := match biometricData with Some _ => _ | None => r5 end).
  assert (H6 : riskOfBehavior (behaviorAnalysis r6)
               = behavior_riskScore (analyzeBehaviorMetrics behaviorData)
               /\ riskOfBiometric (biometricAnalysis r6)
                  = biometric_riskScore (analyzeBiometricData biometricData)).
  { subst r6; destruct biometricData as [b|].
    - rewrite (fold_left_preserves behaviorAnalysis) by reflexivity.
      rewrite (fold_left_preserves biometricAnalysis) by reflexivity.
      cbn [behaviorAnalysis biometricAnalysis riskOfBiometric].
      now rewrite orZero_id.
    - now rewrite H5b. }
  destruct H6 as [-> ->]; now rewrite orZero_id.
Qed.

End CompletedReport.

Section ServerReport.
Import ServerMjs.

Variables (results : Results) (behaviorData : option BehaviorPayload)
          (biometricData : option BiometricPayload).

Lemma report_eta (r : Report) :
  r = mkReport (severity r) (violations r) (summary r) (overallRiskScore r)
        (behaviorAnalysis r) (biometricAnalysis r) (recommendations r).
Proof. now destruct r. Qed.

(** The loops over the findings and over the anomalies leave the score and
    the recommendations as they are. *)
Lemma push_overallRiskScore (r : Report) (v : Violation) (s : Severity) :
  overallRiskScore (push r v s) = overallRiskScore r.
Proof. reflexivity. Qed.

(** The report returned is the completed report of the payloads read; when
    an analyzer throws, its score is still 0 and it has no recommendation. *)
Lemma report_attempt :
  generateViolationReport results behaviorData biometricData
  = let c :=
      completedReport results (seenBehavior behaviorData)
        (seenBiometric behaviorData biometricData) in
    if completes behaviorData biometricData then c
    else mkReport (severity c) (violations c) (summary c) 0
           (behaviorAnalysis c) (biometricAnalysis c) [].
Proof.
  unfold generateViolationReport, tryBlock, completedReport, completes,
    seenBehavior, seenBiometric, behaviorThrows, biometricThrows.
  set (r4 := fold_left addBrowser _ _).
  assert (H4 : overallRiskScore r4 = 0 /\ recommendations r4 = []).
  { subst r4; split.
    - now rewrite !(fold_left_preserves overallRiskScore).
    - now rewrite !(fold_left_preserves recommendations). }
  destruct H4 as [H4s H4r].
  assert (Hcaught : forall r, overallRiskScore r = 0 -> recommendations r = [] ->
            r = mkReport (severity r) (violations r) (summary r) 0
                  (behaviorAnalysis r) (biometricAnalysis r) []).
  { intros r Hs Hr; rewrite (report_eta r) at 1; now rewrite Hs, Hr. }
  destruct behaviorData as [pb|]; [destruct (readBehavior pb) as [b|mb]|];
    cbn [negb andb reportOf].
  - set (r5 := fold_left (addAnomaly "behavior") _ _).
    assert (H5 : overallRiskScore r5 = 0 /\ recommendations r5 = []).
    { subst r5; split.
      - now rewrite (fold_left_preserves overallRiskScore).
      - now rewrite (fold_left_preserves recommendations). }
    destruct biometricData as [pbio|];
      [destruct (readBiometric pbio) as [bio|mbio]|];
      cbn [negb andb reportOf severity violations summary behaviorAnalysis
           biometricAnalysis];
      [reflexivity | | reflexivity].
    apply Hcaught; apply H5.
  - cbn [severity violations summary behaviorAnalysis biometricAnalysis].
    now apply Hcaught.
  - destruct biometricData as [pbio|];
      [destruct (readBiometric pbio) as [bio|mbio]|];
      cbn [negb andb reportOf severity violations summary behaviorAnalysis
           biometricAnalysis];
      [reflexivity | | reflexivity].
    now apply Hcaught.
Qed.

(** The try block reaches its end exactly when no analyzer throws. *)
Lemma tryBlock_cases :
  tryBlock results behaviorData biometricData
  = if completes behaviorData biometricData
    then Completed (generateViolationReport results behaviorData biometricData)
    else Caught (generateViolationReport results behaviorData biometricData)
           "Cannot convert object to primitive value".
Proof.
  unfold generateViolationReport, completes, behaviorThrows, biometricThrows.
  unfold tryBlock.
  assert (Hb : forall p m, readBehavior p = Thrown m
               -> m = "Cannot convert object to primitive value").
  { intros p m; unfold readBehavior, toNumber.
    repeat match goal with
           | |- context [match ?x with Counter _ => _ | Unconvertible => _ end] =>
               destruct x
           end; congruence. }
  assert (Hbio : forall p m, readBiometric p = Thrown m
                 -> m = "Cannot convert object to primitive value").
  { intros p m; unfold readBiometric, toNumber.
    destruct (sent_attentionScore p); congruence. }
  destruct behaviorData as [pb|];
    [destruct (readBehavior pb) as [b|mb] eqn:Eb|];
    cbn [negb andb reportOf].
  - destruct biometricData as [pbio|];
      [destruct (readBiometric pbio) as [bio|mbio] eqn:Ebio|];
      cbn [negb reportOf]; try reflexivity.
    now rewrite (Hbio _ _ Ebio).
  - now rewrite (Hb _ _ Eb).
  - destruct biometricData as [pbio|];
      [destruct (readBiometric pbio) as [bio|mbio] eqn:Ebio|];
      cbn [negb reportOf]; try reflexivity.
    now rewrite (Hbio _ _ Ebio).
Qed.

(** The violations of a report, in the order the aggregator pushes them. *)
Lemma report_violations :
  violations (generateViolationReport results behaviorData biometricData)
  = (map unauthorizedViolation (unauthorized results)
     ++ map suspiciousViolation (suspicious results)
     ++ map threatViolation (suspiciousConnections (networkThreats results))
     ++ map browserViolation (browserInstances results)
     ++ map (anomalyViolation "behavior")
          (behavior_anomalies
             (analyzeBehaviorMetrics (seenBehavior behaviorData)))
     ++ map (anomalyViolation "biometric")
          (biometric_anomalies
             (analyzeBiometricData
                (seenBiometric behaviorData biometricData))))%list.
Proof.
  rewrite report_attempt; cbv zeta.
  destruct (completes behaviorData biometricData); cbn [violations];
    apply completed_violations.
Qed.

(** The overall risk score is the sum of the three risk scores when the try
    block reaches its end, and 0 when an analyzer throws. *)
Lemma report_overallRiskScore :
  overallRiskScore (generateViolationReport results behaviorData biometricData)
  = if completes behaviorData biometricData
    then riskScore results
         + behavior_riskScore
             (analyzeBehaviorMetrics (seenBehavior behaviorData))
         + biometric_riskScore
             (analyzeBiometricData (seenBiometric behaviorData biometricData))
    else 0.
Proof.
  rewrite report_attempt; cbv zeta.
  destruct (completes behaviorData biometricData); cbn [overallRiskScore];
    [apply completed_overallRiskScore | reflexivity].
Qed.

(** Payloads of counters are read as they are, and no analyzer throws on
    them. *)
Lemma seenBehavior_sent (counters : option BehaviorData) :
  seenBehavior (option_map sentBehavior counters) = counters.
Proof. destruct counters as [[t r i k]|]; reflexivity. Qed.

Lemma seenBiometric_sent (counters : option BehaviorData)
    (readings : option BiometricData) :
  seenBiometric (option_map sentBehavior counters)
    (option_map sentBiometric readings) = readings.
Proof.
  destruct counters as [[t r i k]|], readings as [[f a]|]; reflexivity.
Qed.

Lemma completes_sent (counters : option BehaviorData)
    (readings : option BiometricData) :
  completes (option_map sentBehavior counters)
    (option_map sentBiometric readings) = true.
Proof.
  destruct counters as [[t r i k]|], readings as [[f a]|]; reflexivity.
Qed.

End ServerReport.

(** ** The process loop of [app/server.mjs] *)

Section ServerScan.
Import ServerMjs.

Lemma countCategory_app (c : Category) (l l' : list UnauthorizedEntry) :
  countCategory c (l ++ l') = countCategory c l + countCategory c l'.
Proof.
  unfold countCategory; rewrite filter_app, length_app; lia.
Qed.

Lemma unauthorizedEntry_category (proc : Process) (app : App) :
  unauthorized_category (unauthorizedEntry proc app) = app_category app.
Proof.
  unfold unauthorizedEntry.
  repeat match goal with
         | |- context [if ?c then _ else _] => destruct c
         | |- context [match ?c with Some _ => _ | None => _ end] => destruct c
         end; reflexivity.
Qed.

Lemma unauthorizedEntry_key (proc : Process) (app : App) :
  JS.truthy (name proc) = true ->
  unauthorized_name (unauthorizedEntry proc app) = name proc
  /\ unauthorized_pid (unauthorizedEntry proc app) = pid proc.
Proof.
  intros Hname; unfold unauthorizedEntry; rewrite Hname.
  repeat match goal with
         | |- context [if ?c then _ else _] => destruct c
         | |- context [match ?c with Some _ => _ | None => _ end] => destruct c
         end; cbn; rewrite orZero_id; split; reflexivity.
Qed.

Lemma countCategory_single (c : Category) (proc : Process) (app : App) :
  countCategory c [unauthorizedEntry proc app]
  = if Category_eq_dec (app_category app) c then 1 else 0.
Proof.
  unfold countCategory; cbn [filter].
  rewrite unauthorizedEntry_category.
  destruct (Category_eq_dec (app_category app) c); reflexivity.
Qed.

Lemma scanProcess_counted (isDev : bool) (acc : Scan) (proc : Process) :
  counted acc -> counted (scanProcess isDev acc proc).
Proof.
  unfold counted, scanProcess; intros (Hd & Hc & Hch & Hs).
  destruct (isServerProcess isDev proc); [now repeat split|].
  destruct (findApp isDev proc) as [app|].
  - assert (Hafter :
      forall counts,
        let acc' :=
          mkScan (scan_unauthorized acc ++ [unauthorizedEntry proc app])
            (scan_suspicious acc) counts
            (bumpCategory (app_category app) (processPatterns acc)) in
        count_development (processPatterns acc')
        = countCategory development (scan_unauthorized acc')
        /\ count_communication (processPatterns acc')
           = countCategory communication (scan_unauthorized acc')
        /\ count_cheating (processPatterns acc')
           = countCategory cheating (scan_unauthorized acc')
        /\ count_suspicious (processPatterns acc')
           = Z.of_nat (List.length (scan_suspicious acc'))).
    { intros counts; cbn [processPatterns scan_unauthorized scan_suspicious].
      rewrite !countCategory_app, !countCategory_single.
      destruct (app_category app); cbn; repeat split; lia. }
    destruct (isBrowserName proc);
      destruct (cmd proc) as [c|]; try destruct (JS.truthy c);
      try destruct (findPattern c); apply Hafter.
  - destruct (isBrowserName proc);
      destruct (cmd proc) as [c|]; try destruct (JS.truthy c);
      try destruct (findPattern c);
      cbn [processPatterns scan_unauthorized scan_suspicious bumpSuspicious
           count_development count_communication count_cheating
           count_suspicious];
      rewrite ?length_app; cbn [List.length]; repeat split; lia.
Qed.

Lemma scan_counted (isDev : bool) (processes : list Process) (acc : Scan) :
  counted acc -> counted (fold_left (scanProcess isDev) processes acc).
Proof.
  revert acc; induction processes as [|proc processes IH]; intros acc H.
  - exact H.
  - apply IH, scanProcess_counted, H.
Qed.

Lemma emptyScan_counted : counted emptyScan.
Proof. repeat split. Qed.

(** The risk score of the process analysis, by what it counts. *)
Lemma analyze_riskScore (isDev : bool) (processes : list Process)
    (netstat : outcome string) :
  let results := analyze isDev processes netstat in
  riskScore results
  = countCategory cheating (unauthorized results) * 40
    + countCategory development (unauthorized results) * 15
    + countCategory communication (unauthorized results) * 10
    + Z.of_nat (List.length (suspicious results)) * 25
    + Z.of_nat (List.length (suspiciousConnections (networkThreats results))) * 20.
Proof.
  destruct (scan_counted isDev processes emptyScan emptyScan_counted)
    as (Hd & Hc & Hch & Hs).
  cbn; unfold analyze; cbn [riskScore unauthorized suspicious networkThreats].
  now rewrite Hd, Hc, Hch, Hs.
Qed.

(** C7 (what the code does instead): the overall risk score is the sum of
    the weighted category counts of the process analysis (cheating 40,
    development 15, communication 10, suspicious command lines 25), of 20
    per network threat, of the behavioural risk score and of the biometric
    risk score only when no analyzer throws on its payload, as for payloads
    of counters.  When an analyzer throws, the catch block returns the
    report with the score 0, whatever the process analysis found: for an
    electron application started on main.js and tab switches that cannot be
    converted, the report lists the CRITICAL finding, the sum without the
    behavioural part is 40 and the score is 0. *)
Theorem overall_risk_score (isDev : bool) (processes : list Process)
    (netstat : outcome string) (behaviorData : option BehaviorPayload)
    (biometricData : option BiometricPayload) :
  let results := analyze isDev processes netstat in
  let report := generateViolationReport results behaviorData biometricData in
  overallRiskScore report
  = (if completes behaviorData biometricData
     then weightedFindings results
          + behavior_riskScore
              (analyzeBehaviorMetrics (seenBehavior behaviorData))
          + biometric_riskScore
              (analyzeBiometricData (seenBiometric behaviorData biometricData))
     else 0)
  /\ (forall (counters : option BehaviorData) (readings : option BiometricData),
        overallRiskScore
          (generateViolationReport results (option_map sentBehavior counters)
             (option_map sentBiometric readings))
        = weightedFindings results
          + behavior_riskScore (analyzeBehaviorMetrics counters)
          + biometric_riskScore (analyzeBiometricData readings))
  /\ (let failing := analyze false electronMain noConnections in
      let caught :=
        generateViolationReport failing (Some unreadableTabs) None in
      map violation_severity (violations caught) = [CRITICAL]
      /\ weightedFindings failing = 40
      /\ overallRiskScore caught = 0).
Proof.
  intros results report; subst report.
  assert (Hweighted : riskScore results = weightedFindings results)
    by (subst results; unfold weightedFindings; now rewrite analyze_riskScore).
  split; [|split].
  - rewrite report_overallRiskScore, Hweighted; reflexivity.
  - intros counters readings; rewrite report_overallRiskScore, Hweighted.
    now rewrite completes_sent, seenBehavior_sent, seenBiometric_sent.
  - vm_compute; repeat split; reflexivity.
Qed.

Lemma scanProcess_patterns (isDev : bool) (acc : Scan) (proc : Process) :
  processPatterns (scanProcess isDev acc proc)
  = stepPatterns isDev (processPatterns acc) proc.
Proof.
  unfold scanProcess, stepPatterns.
  destruct (isServerProcess isDev proc); [reflexivity|].
  destruct (findApp isDev proc) as [app|];
    destruct (isBrowserName proc);
    destruct (cmd proc) as [c|]; try destruct (JS.truthy c);
    try destruct (findPattern c); reflexivity.
Qed.

Lemma scan_patterns (isDev : bool) (processes : list Process) (acc : Scan) :
  processPatterns (fold_left (scanProcess isDev) processes acc)
  = fold_left (stepPatterns isDev) processes (processPatterns acc).
Proof.
  revert acc; induction processes as [|proc processes IH]; intros acc; simpl.
  - reflexivity.
  - now rewrite IH, scanProcess_patterns.
Qed.

Lemma stepPatterns_uncounted (isDev : bool) (pp : ProcessPatterns)
    (proc : Process) :
  hitsUncounted isDev proc = true -> stepPatterns isDev pp proc = pp.
Proof.
  unfold hitsUncounted, stepPatterns.
  destruct (isServerProcess isDev proc); [reflexivity|].
  destruct (findApp isDev proc) as [app|]; [|discriminate].
  destruct (app_category app); (discriminate || reflexivity).
Qed.

Lemma patterns_without_uncounted (isDev : bool) (processes : list Process)
    (pp : ProcessPatterns) :
  fold_left (stepPatterns isDev)
    (filter (fun proc => negb (hitsUncounted isDev proc)) processes) pp
  = fold_left (stepPatterns isDev) processes pp.
Proof.
  revert pp; induction processes as [|proc processes IH]; intros pp; simpl.
  - reflexivity.
  - destruct (hitsUncounted isDev proc) eqn:Hhit; simpl.
    + now rewrite IH, stepPatterns_uncounted.
    + apply IH.
Qed.

(** C10: the category-weighted part of the risk score counts the
    unauthorized findings of the categories cheating, development and
    communication and the suspicious command lines, and nothing else:
    dropping from the snapshot every process that a catalog entry of
    category ai_cheating, remote_access, recording, virtualization,
    browser, emulation, monitoring or system names, of whatever severity,
    leaves it unchanged. *)
Theorem uncounted_categories_weigh_nothing (isDev : bool)
    (processes : list Process) (netstat : outcome string) :
  let results := analyze isDev processes netstat in
  categoryWeighted results
  = countCategory cheating (unauthorized results) * 40
    + countCategory development (unauthorized results) * 15
    + countCategory communication (unauthorized results) * 10
    + Z.of_nat (List.length (suspicious results)) * 25
  /\ categoryWeighted
       (analyze isDev
          (filter (fun proc => negb (hitsUncounted isDev proc)) processes)
          netstat)
     = categoryWeighted results.
Proof.
  intros results; subst results; split.
  - unfold categoryWeighted; rewrite analyze_riskScore; cbv zeta; lia.
  - unfold categoryWeighted, analyze; cbn [riskScore networkThreats].
    now rewrite !scan_patterns, patterns_without_uncounted.
Qed.

End ServerScan.

(** ** Findings of one type *)

Section Filtering.
Context {A B : Type} (p : B -> bool) (f : A -> B).

Lemma filter_map_all (l : list A) :
  (forall x, p (f x) = true) -> filter p (map f l) = map f l.
Proof.
  intros H; induction l as [|x l IH]; simpl; [reflexivity|].
  now rewrite H, IH.
Qed.

Lemma filter_map_none (l : list A) :
  Forall (fun x => p (f x) = false) l -> filter p (map f l) = [].
Proof.
  induction 1 as [|x l Hx _ IH]; simpl; [reflexivity|].
  now rewrite Hx.
Qed.
End Filtering.

Section ServerFindings.
Import ServerMjs.

Lemma anomaly_violations_filtered (t : ViolationType) (category : string)
    (l : list Anomaly) :
  isAnomalyType t = false ->
  Forall (fun a => isAnomalyType (anomaly_type a) = true) l ->
  filter (fun v => ViolationType_eqb (violation_type v) t)
    (map (anomalyViolation category) l) = [].
Proof.
  intros Ht Hl; apply filter_map_none.
  eapply Forall_impl; [|exact Hl].
  intros a Ha; cbn.
  destruct (ViolationType_eqb (anomaly_type a) t) eqn:E; [|reflexivity].
  apply ViolationType_eqb_eq in E; congruence.
Qed.

Variables (results : Results) (behaviorData : option BehaviorPayload)
          (biometricData : option BiometricPayload).

Let report := generateViolationReport results behaviorData biometricData.

(** The UNAUTHORIZED_APPLICATION findings of a report are the entries of
    [results.unauthorized], one each and in their order. *)
Lemma unauthorized_findings :
  findingsOfType UNAUTHORIZED_APPLICATION report
  = map unauthorizedViolation (unauthorized results).
Proof.
  unfold findingsOfType, report; rewrite report_violations, !filter_app.
  rewrite (filter_map_all _ unauthorizedViolation) by reflexivity.
  rewrite !filter_map_none by (apply Forall_forall; reflexivity).
  rewrite !anomaly_violations_filtered
    by (reflexivity || apply behavior_anomaly_types
        || apply biometric_anomaly_types).
  now rewrite !app_nil_r.
Qed.

(** The SUSPICIOUS_BROWSER_ACTIVITY findings of a report are the entries
    of [results.browserInstances], one each and in their order. *)
Lemma browser_findings :
  findingsOfType SUSPICIOUS_BROWSER_ACTIVITY report
  = map browserViolation (browserInstances results).
Proof.
  unfold findingsOfType, report; rewrite report_violations, !filter_app.
  rewrite (filter_map_all _ browserViolation) by reflexivity.
  rewrite !filter_map_none by (apply Forall_forall; reflexivity).
  rewrite !anomaly_violations_filtered
    by (reflexivity || apply behavior_anomaly_types
        || apply biometric_anomaly_types).
  now rewrite !app_nil_r.
Qed.

End ServerFindings.

(** ** The process classifier of [app/server.mjs] *)

Section ServerClassifier.
Import ServerMjs.

Lemma catalog_names_nonempty (isDev : bool) :
  forallb (fun app => JS.truthy (JS.toLowerCase (app_name app)))
          (unauthorizedApps isDev) = true.
Proof. destruct isDev; vm_compute; reflexivity. Qed.

Lemma truthy_of_lower_eq (s t : string) :
  JS.toLowerCase s = t -> JS.truthy t = true -> JS.truthy s = true.
Proof. intros <-; destruct s; [discriminate | reflexivity]. Qed.

Lemma find_existsb {A : Type} (f g : A -> bool) (l : list A) :
  (forall x, In x l -> f x = g x) ->
  isSome (find f l) = existsb g l.
Proof.
  induction l as [|x l IH]; intros H; simpl; [reflexivity|].
  rewrite <- (H x) by (left; reflexivity).
  destruct (f x); [reflexivity|].
  apply IH; intros y Hy; apply H; right; exact Hy.
Qed.

Lemma findApp_named (isDev : bool) (proc : Process) :
  isSome (findApp isDev proc) = namedInCatalog isDev proc.
Proof.
  unfold findApp, namedInCatalog; apply find_existsb.
  intros app Happ.
  destruct (String.eqb_spec (JS.toLowerCase (name proc))
              (JS.toLowerCase (app_name app))) as [E|E].
  - rewrite andb_true_r.
    apply (truthy_of_lower_eq _ _ E).
    pose proof (catalog_names_nonempty isDev) as Hall.
    rewrite forallb_forall in Hall; exact (Hall app Happ).
  - apply andb_false_r.
Qed.

Lemma findApp_truthy (isDev : bool) (proc : Process) (app : App) :
  findApp isDev proc = Some app -> JS.truthy (name proc) = true.
Proof.
  unfold findApp; intros H; apply find_some in H as [_ H].
  now apply andb_true_iff in H.
Qed.

Lemma isServerProcess_allowListed (isDev : bool) (proc : Process) :
  isServerProcess isDev proc = allowListed isDev proc.
Proof.
  unfold isServerProcess, allowListed, cmdIncludes, JS.truthyOpt.
  destruct isDev; [|reflexivity]; cbn [andb].
  destruct (cmd proc) as [c|]; [|now rewrite !andb_false_r].
  assert (Hc : JS.includes c "server.mjs" = true -> JS.truthy c = true)
    by (destruct c; [discriminate | reflexivity]).
  destruct (JS.includes c "server.mjs");
    [rewrite Hc by reflexivity | now rewrite !andb_false_r].
  rewrite !andb_true_r.
  destruct (String.eqb_spec (JS.toLowerCase (name proc)) "node.exe") as [E|_].
  - now rewrite (truthy_of_lower_eq _ _ E).
  - destruct (String.eqb_spec (JS.toLowerCase (name proc)) "node") as [E|_].
    + now rewrite (truthy_of_lower_eq _ _ E).
    + apply andb_false_r.
Qed.

Lemma scanProcess_unauthorized (isDev : bool) (acc : Scan) (proc : Process) :
  map entryKey (scan_unauthorized (scanProcess isDev acc proc))
  = (map entryKey (scan_unauthorized acc)
     ++ if flagged isDev proc then [processKey proc] else [])%list.
Proof.
  unfold flagged; rewrite <- findApp_named, <- isServerProcess_allowListed.
  unfold scanProcess.
  destruct (isServerProcess isDev proc).
  - rewrite andb_false_r; now rewrite app_nil_r.
  - rewrite andb_true_r.
    destruct (findApp isDev proc) as [app|] eqn:Happ.
    + apply findApp_truthy in Happ.
      destruct (unauthorizedEntry_key proc app Happ) as [Hn Hp].
      assert (Hkey : entryKey (unauthorizedEntry proc app) = processKey proc)
        by (unfold entryKey, processKey; now rewrite Hn, Hp).
      destruct (isBrowserName proc);
        destruct (cmd proc) as [c|]; try destruct (JS.truthy c);
        try destruct (findPattern c);
        cbn [scan_unauthorized]; now rewrite map_app, <- Hkey.
    + destruct (isBrowserName proc);
        destruct (cmd proc) as [c|]; try destruct (JS.truthy c);
        try destruct (findPattern c);
        cbn [scan_unauthorized]; now rewrite app_nil_r.
Qed.

Lemma scan_unauthorized_keys (isDev : bool) (processes : list Process)
    (acc : Scan) :
  map entryKey (scan_unauthorized (fold_left (scanProcess isDev) processes acc))
  = (map entryKey (scan_unauthorized acc)
     ++ map processKey (filter (flagged isDev) processes))%list.
Proof.
  revert acc; induction processes as [|proc processes IH]; intros acc; simpl.
  - now rewrite app_nil_r.
  - rewrite IH, scanProcess_unauthorized, <- app_assoc.
    destruct (flagged isDev proc); reflexivity.
Qed.

(** The classifier of [app/server.mjs]: one finding per process that the
    catalog names and the allow-list does not hold. *)
Lemma server_one_finding_per_named_process (isDev : bool)
    (processes : list Process) (netstat : outcome string)
    (behaviorData : option BehaviorPayload)
    (biometricData : option BiometricPayload) :
  let report :=
    generateViolationReport (analyze isDev processes netstat)
      behaviorData biometricData in
  map subject (findingsOfType UNAUTHORIZED_APPLICATION report)
  = map processKey
      (filter (fun proc => namedInCatalog isDev proc
                           && negb (allowListed isDev proc)) processes).
Proof.
  cbv zeta; rewrite unauthorized_findings.
  unfold analyze; cbn [unauthorized].
  rewrite map_map.
  change (fun x => subject (unauthorizedViolation x)) with entryKey.
  now rewrite scan_unauthorized_keys.
Qed.

End ServerClassifier.

(** ** Browser instance counts *)

Section Counters.

Lemma bumpCount_keys (key k : string) (m : list (string * Z)) :
  In k (map fst (bumpCount key m)) -> k = key \/ In k (map fst m).
Proof.
  induction m as [|[k' v] m IH]; simpl.
  - intros [H|[]]; left; now symmetry.
  - destruct (String.eqb_spec k' key) as [->|Hne]; simpl.
    + intros [H|H]; [right; left; exact H | right; right; exact H].
    + intros [H|H]; [right; left; exact H|].
      destruct (IH H) as [Hk|Hk]; [left; exact Hk | right; right; exact Hk].
Qed.

(** The keys of a counter table stay distinct. *)
Lemma bumpCount_NoDup (key : string) (m : list (string * Z)) :
  NoDup (map fst m) -> NoDup (map fst (bumpCount key m)).
Proof.
  induction m as [|[k v] m IH]; simpl; intros H.
  - constructor; [intros [] | constructor].
  - inversion H as [|? ? Hnotin Hrest]; subst.
    destruct (String.eqb_spec k key) as [->|Hne]; simpl.
    + constructor; assumption.
    + constructor; [|apply IH, Hrest].
      intros Hin; apply bumpCount_keys in Hin as [Hk|Hk];
        [now apply Hne | now apply Hnotin].
Qed.

End Counters.

Section ServerBrowsers.
Import ServerMjs.

Lemma browser_loop (isDev : bool) (counts : list (string * Z))
    (instances : list BrowserInstance) :
  fold_left (browserEntry isDev) counts instances
  = (instances ++ map (instanceOf isDev) (filter (overThreshold isDev) counts))%list.
Proof.
  revert instances; induction counts as [|[b c] counts IH]; intros instances.
  - simpl; now rewrite app_nil_r.
  - cbn [fold_left filter]; rewrite IH.
    unfold browserEntry at 1, overThreshold at 2; cbn [snd].
    destruct (c >? browserThreshold isDev); [|reflexivity].
    now rewrite <- app_assoc.
Qed.

Lemma scanProcess_counts_NoDup (isDev : bool) (acc : Scan) (proc : Process) :
  NoDup (map fst (browserCounts acc)) ->
  NoDup (map fst (browserCounts (scanProcess isDev acc proc))).
Proof.
  intros H; unfold scanProcess.
  destruct (isServerProcess isDev proc); [exact H|].
  destruct (findApp isDev proc) as [app|];
    destruct (isBrowserName proc);
    destruct (cmd proc) as [c|]; try destruct (JS.truthy c);
    try destruct (findPattern c);
    cbn [browserCounts]; (exact H || apply bumpCount_NoDup, H).
Qed.

Lemma scan_counts_NoDup (isDev : bool) (processes : list Process) (acc : Scan) :
  NoDup (map fst (browserCounts acc)) ->
  NoDup (map fst (browserCounts (fold_left (scanProcess isDev) processes acc))).
Proof.
  revert acc; induction processes as [|proc processes IH]; intros acc H.
  - exact H.
  - apply IH, scanProcess_counts_NoDup, H.
Qed.

(** The browser findings of [app/server.mjs]: one per browser whose count
    exceeds the threshold of the configuration. *)
Lemma server_browser_findings (isDev : bool) (processes : list Process)
    (netstat : outcome string) (behaviorData : option BehaviorPayload)
    (biometricData : option BiometricPayload) :
  let counts := browserCounts (fold_left (scanProcess isDev) processes emptyScan) in
  let threshold := if isDev then 20 else 8 in
  let report :=
    generateViolationReport (analyze isDev processes netstat)
      behaviorData biometricData in
  map (fun v => (violation_details v, violation_severity v))
      (findingsOfType SUSPICIOUS_BROWSER_ACTIVITY report)
  = map (fun entry =>
           (InstancesDetails (fst entry) (snd entry),
            if threshold + 10 <? snd entry then HIGH else MEDIUM))
        (filter (fun entry => threshold <? snd entry) counts)
  /\ NoDup (map fst counts).
Proof.
  intros counts threshold report; split.
  - subst report; rewrite browser_findings.
    unfold analyze; cbn [browserInstances].
    rewrite browser_loop; cbn [app]; rewrite !map_map.
    fold counts.
    replace (filter (overThreshold isDev) counts)
      with (filter (fun entry => threshold <? snd entry) counts).
    + apply map_ext; intros [b c]; cbn.
      now rewrite Z.gtb_ltb.
    + apply filter_ext; intros [b c]; unfold overThreshold; cbn [snd].
      now rewrite Z.gtb_ltb.
  - apply scan_counts_NoDup; constructor.
Qed.

End ServerBrowsers.

(** ** The earlier server file: report and browser counts *)

Section Part000Report.
Import Part000.

Lemma part000_violations (results : Results) :
  violations (generateViolationReport results)
  = (map unauthorizedViolation (unauthorized results)
     ++ map suspiciousViolation (suspicious results)
     ++ map threatViolation (networkThreats results)
     ++ map browserViolation (browserInstances results))%list.
Proof.
  unfold generateViolationReport.
  rewrite (fold_left_appends violations addBrowser browserViolation) by reflexivity.
  rewrite (fold_left_appends violations addThreat threatViolation) by reflexivity.
  rewrite (fold_left_appends violations addSuspicious suspiciousViolation)
    by reflexivity.
  rewrite (fold_left_appends violations addUnauthorized unauthorizedViolation)
    by reflexivity.
  cbn [violations app]; now rewrite <- !app_assoc.
Qed.

Lemma part000_browser_findings (results : Results) :
  part000_findingsOfType SUSPICIOUS_BROWSER_ACTIVITY
    (generateViolationReport results)
  = map browserViolation (browserInstances results).
Proof.
  unfold part000_findingsOfType; rewrite part000_violations, !filter_app.
  rewrite (filter_map_all _ browserViolation) by reflexivity.
  rewrite !filter_map_none by (apply Forall_forall; reflexivity).
  reflexivity.
Qed.

Lemma part000_browser_loop (counts : list (string * Z))
    (instances : list BrowserInstance) :
  fold_left browserEntry counts instances
  = (instances
     ++ map (fun entry =>
               mkBrowserInstance (fst entry) (snd entry)
                 (if snd entry >? 5 then HIGH else MEDIUM))
          (filter (fun entry => snd entry >? 3) counts))%list.
Proof.
  revert instances; induction counts as [|[b c] counts IH]; intros instances.
  - simpl; now rewrite app_nil_r.
  - cbn [fold_left filter]; rewrite IH.
    unfold browserEntry at 1; cbn [snd].
    destruct (c >? 3); [|reflexivity].
    now rewrite <- app_assoc.
Qed.

Lemma part000_scanProcess_counts_NoDup (acc : Scan) (proc : Process) :
  NoDup (map fst (browserCounts acc)) ->
  NoDup (map fst (browserCounts (scanProcess acc proc))).
Proof.
  intros H; unfold scanProcess.
  destruct (findApp proc) as [app|];
    destruct (isBrowserName proc);
    destruct (cmd proc) as [c|];
    try destruct (JS.truthy c && hasSuspiciousPattern proc);
    cbn [browserCounts]; (exact H || apply bumpCount_NoDup, H).
Qed.

Lemma part000_scan_counts_NoDup (processes : list Process) (acc : Scan) :
  NoDup (map fst (browserCounts acc)) ->
  NoDup (map fst (browserCounts (fold_left scanProcess processes acc))).
Proof.
  revert acc; induction processes as [|proc processes IH]; intros acc H.
  - exact H.
  - apply IH, part000_scanProcess_counts_NoDup, H.
Qed.

(** The browser findings of the earlier server: one per browser counted
    more than three times, HIGH above five. *)
Lemma part000_browser_thresholds (processes : list Process)
    (netstat : outcome string) :
  let counts := browserCounts (fold_left scanProcess processes emptyScan) in
  let report := generateViolationReport (analyze processes netstat) in
  map (fun v => (violation_details v, violation_severity v))
      (part000_findingsOfType SUSPICIOUS_BROWSER_ACTIVITY report)
  = map (fun entry =>
           (InstancesDetails (fst entry) (snd entry),
            if 5 <? snd entry then HIGH else MEDIUM))
        (filter (fun entry => 3 <? snd entry) counts)
  /\ NoDup (map fst counts).
Proof.
  intros counts report; split.
  - subst report; rewrite part000_browser_findings.
    unfold analyze; cbn [browserInstances].
    rewrite part000_browser_loop; cbn [app]; rewrite !map_map.
    fold counts.
    replace (filter (fun entry => snd entry >? 3) counts)
      with (filter (fun entry => 3 <? snd entry) counts).
    + apply map_ext; intros [b c]; cbn.
      now rewrite Z.gtb_ltb.
    + apply filter_ext; intros [b c]; cbn [snd].
      now rewrite Z.gtb_ltb.
  - apply part000_scan_counts_NoDup; constructor.
Qed.

End Part000Report.

Section Part000Classifier.
Import Part000.

Lemma part000_catalog_names_nonempty :
  forallb (fun app => JS.truthy (JS.toLowerCase (app_name app)))
          unauthorizedApps = true.
Proof. vm_compute; reflexivity. Qed.

Lemma part000_findApp_named (proc : Process) :
  isSome (findApp proc) = part000_namedInCatalog proc.
Proof.
  unfold findApp, part000_namedInCatalog; apply find_existsb.
  intros app Happ.
  destruct (String.eqb_spec (JS.toLowerCase (name proc))
              (JS.toLowerCase (app_name app))) as [E|E].
  - rewrite andb_true_r.
    apply (truthy_of_lower_eq _ _ E).
    pose proof part000_catalog_names_nonempty as Hall.
    rewrite forallb_forall in Hall; exact (Hall app Happ).
  - apply andb_false_r.
Qed.

Lemma part000_unauthorizedEntry_key (proc : Process) (app : App) :
  JS.truthy (name proc) = true ->
  part000_entryKey (unauthorizedEntry proc app) = processKey proc.
Proof.
  intros Hname; unfold unauthorizedEntry, part000_entryKey, processKey.
  rewrite Hname.
  repeat match goal with
         | |- context [if ?c then _ else _] => destruct c
         end; cbn; now rewrite orZero_id.
Qed.

Lemma part000_scanProcess_unauthorized (acc : Scan) (proc : Process) :
  map part000_entryKey (scan_unauthorized (scanProcess acc proc))
  = (map part000_entryKey (scan_unauthorized acc)
     ++ if part000_namedInCatalog proc then [processKey proc] else [])%list.
Proof.
  rewrite <- part000_findApp_named; unfold scanProcess.
  destruct (findApp proc) as [app|] eqn:Happ.
  - assert (Hname : JS.truthy (name proc) = true).
    { unfold findApp in Happ; apply find_some in Happ as [_ H].
      now apply andb_true_iff in H. }
    pose proof (part000_unauthorizedEntry_key proc app Hname) as Hkey.
    destruct (isBrowserName proc);
      destruct (cmd proc) as [c|];
      try destruct (JS.truthy c && hasSuspiciousPattern proc);
      cbn [scan_unauthorized isSome]; now rewrite map_app, <- Hkey.
  - destruct (isBrowserName proc);
      destruct (cmd proc) as [c|];
      try destruct (JS.truthy c && hasSuspiciousPattern proc);
      cbn [scan_unauthorized isSome]; now rewrite app_nil_r.
Qed.

Lemma part000_scan_unauthorized_keys (processes : list Process) (acc : Scan) :
  map part000_entryKey (scan_unauthorized (fold_left scanProcess processes acc))
  = (map part000_entryKey (scan_unauthorized acc)
     ++ map processKey (filter part000_namedInCatalog processes))%list.
Proof.
  revert acc; induction processes as [|proc processes IH]; intros acc; simpl.
  - now rewrite app_nil_r.
  - rewrite IH, part000_scanProcess_unauthorized, <- app_assoc.
    destruct (part000_namedInCatalog proc); reflexivity.
Qed.

(** The classifier of the earlier server file: one finding per process
    that the catalog names. *)
Lemma part000_one_finding_per_named_process (processes : list Process)
    (netstat : outcome string) :
  let report := generateViolationReport (analyze processes netstat) in
  map part000_subject (part000_findingsOfType UNAUTHORIZED_APPLICATION report)
  = map processKey (filter part000_namedInCatalog processes).
Proof.
  cbv zeta; unfold part000_findingsOfType.
  rewrite part000_violations, !filter_app.
  rewrite (filter_map_all _ unauthorizedViolation) by reflexivity.
  rewrite !filter_map_none by (apply Forall_forall; reflexivity).
  rewrite !app_nil_r; unfold analyze; cbn [unauthorized].
  rewrite map_map.
  change (fun x => part000_subject (unauthorizedViolation x))
    with part000_entryKey.
  now rewrite part000_scan_unauthorized_keys.
Qed.

End Part000Classifier.

(** C3: in both server files the UNAUTHORIZED_APPLICATION findings of a
    report are, one for one and in order, the processes of the snapshot
    whose name equals a catalog name up to letter case; [app/server.mjs]
    alone excepts the processes on its allow-list, which holds the
    processes named node or node.exe whose command line contains server.mjs
    and is empty outside the development configuration. *)
Theorem one_finding_per_named_process (isDev : bool)
    (processes : list Process) (netstat : outcome string)
    (behaviorData : option ServerMjs.BehaviorPayload)
    (biometricData : option ServerMjs.BiometricPayload) :
  (let report :=
     ServerMjs.generateViolationReport
       (ServerMjs.analyze isDev processes netstat) behaviorData biometricData in
   map subject (findingsOfType UNAUTHORIZED_APPLICATION report)
   = map processKey
       (filter (fun proc => namedInCatalog isDev proc
                            && negb (allowListed isDev proc)) processes))
  /\ (forall proc, allowListed false proc = false)
  /\ (let report :=
        Part000.generateViolationReport (Part000.analyze processes netstat) in
      map part000_subject
          (part000_findingsOfType UNAUTHORIZED_APPLICATION report)
      = map processKey (filter part000_namedInCatalog processes)).
Proof.
  split; [apply server_one_finding_per_named_process|].
  split; [reflexivity | apply part000_one_finding_per_named_process].
Qed.

(** C4, as stated, fails on [app/server.mjs]: in the production
    configuration a browser counted four times gives no
    SUSPICIOUS_BROWSER_ACTIVITY finding. *)
Lemma four_instances_unreported :
  ServerMjs.browserCounts
    (fold_left (ServerMjs.scanProcess false) fourChromes ServerMjs.emptyScan)
  = [("chrome.exe", 4)]
  /\ findingsOfType SUSPICIOUS_BROWSER_ACTIVITY
       (ServerMjs.generateViolationReport
          (ServerMjs.analyze false fourChromes (Returned "")) None None)
     = [].
Proof. split; vm_compute; reflexivity. Qed.

(** C4, amended: every browser whose instance count exceeds the threshold
    gives one SUSPICIOUS_BROWSER_ACTIVITY finding and no other browser gives
    one.  In the earlier server file the threshold is 3 and the finding is
    HIGH above 5 instances, MEDIUM otherwise (a count of 4 gives MEDIUM, a
    count of 6 gives HIGH); in [app/server.mjs] the threshold is 8, or 20 in
    the development configuration, and the finding is HIGH above threshold
    plus 10 instances, MEDIUM otherwise. *)
Theorem browser_instance_findings (isDev : bool) (processes : list Process)
    (netstat : outcome string)
    (behaviorData : option ServerMjs.BehaviorPayload)
    (biometricData : option ServerMjs.BiometricPayload) :
  (let counts :=
     Part000.browserCounts
       (fold_left Part000.scanProcess processes Part000.emptyScan) in
   let report :=
     Part000.generateViolationReport (Part000.analyze processes netstat) in
   map (fun v => (Part000.violation_details v, Part000.violation_severity v))
       (part000_findingsOfType SUSPICIOUS_BROWSER_ACTIVITY report)
   = map (fun entry =>
            (InstancesDetails (fst entry) (snd entry),
             if 5 <? snd entry then HIGH else MEDIUM))
         (filter (fun entry => 3 <? snd entry) counts)
   /\ NoDup (map fst counts))
  /\ (let counts :=
        ServerMjs.browserCounts
          (fold_left (ServerMjs.scanProcess isDev) processes ServerMjs.emptyScan) in
      let threshold := if isDev then 20 else 8 in
      let report :=
        ServerMjs.generateViolationReport
          (ServerMjs.analyze isDev processes netstat) behaviorData biometricData in
      map (fun v => (ServerMjs.violation_details v, ServerMjs.violation_severity v))
          (findingsOfType SUSPICIOUS_BROWSER_ACTIVITY report)
      = map (fun entry =>
               (InstancesDetails (fst entry) (snd entry),
                if threshold + 10 <? snd entry then HIGH else MEDIUM))
            (filter (fun entry => threshold <? snd entry) counts)
      /\ NoDup (map fst counts))
  /\ fold_left Part000.browserEntry [("chrome", 4)] []
     = [Part000.mkBrowserInstance "chrome" 4 MEDIUM]
  /\ fold_left Part000.browserEntry [("chrome", 6)] []
     = [Part000.mkBrowserInstance "chrome" 6 HIGH]
  /\ fold_left Part000.browserEntry [("chrome", 3)] [] = [].
Proof.
  split; [apply part000_browser_thresholds|].
  split; [apply server_browser_findings|].
  repeat split.
Qed.

(** ** The network threat scanner *)

Section ServerNetwork.
Import ServerMjs.

Lemma scanDomains_filter (connections : list string) (domains found : list Domain)
    (n : Z) :
  scanDomains connections domains found n
  = ((found ++ filter (named connections) domains)%list,
     n + Z.of_nat (List.length (filter (named connections) domains))).
Proof.
  revert found n; induction domains as [|d domains IH]; intros found n.
  - simpl; rewrite app_nil_r; apply pair_equal_spec; split; [reflexivity | lia].
  - cbn [scanDomains filter].
    change (existsb (connectionNames d) connections) with (named connections d).
    destruct (named connections d).
    + rewrite IH; destruct d; cbn [domain domain_category domain_severity].
      rewrite <- app_assoc; cbn [List.length app].
      apply pair_equal_spec; split; [reflexivity | lia].
    + apply IH.
Qed.

Lemma named_iff (connections : list string) (d : Domain) :
  named connections d = true
  <-> exists conn, In conn connections
                   /\ JS.matchesIPv4 conn = true
                   /\ Substring (JS.toLowerCase (domain d)) (JS.toLowerCase conn).
Proof.
  unfold named; rewrite existsb_exists; split.
  - intros (conn & Hin & H); exists conn; split; [exact Hin|].
    unfold connectionNames in H.
    destruct (JS.matchesIPv4 conn); [|discriminate].
    split; [reflexivity | now apply includes_iff].
  - intros (conn & Hin & Hip & Hsub); exists conn; split; [exact Hin|].
    unfold connectionNames; rewrite Hip; now apply includes_iff.
Qed.

Lemma isExternal_iff (conn : string) :
  isExternal conn = true
  <-> ~ Substring "127.0.0.1" conn /\ ~ Substring "::1" conn
      /\ ~ Substring "localhost" conn.
Proof.
  unfold isExternal; rewrite !andb_true_iff, !negb_true_iff.
  rewrite <- !includes_iff, !not_true_iff_false; tauto.
Qed.

Lemma suspiciousDomains_NoDup : NoDup suspiciousDomains.
Proof.
  apply (NoDup_map_inv domain), distinct_NoDup.
  vm_compute; reflexivity.
Qed.

End ServerNetwork.

(** ** The dotted-quad pattern *)

Section DottedQuad.

Lemma digits1to3_iff (s r : string) :
  In r (JS.digits1to3 s) <-> exists o, isOctet o = true /\ s = o ++ r.
Proof.
  split.
  - destruct s as [|c1 [|c2 [|c3 s]]]; cbn [JS.digits1to3].
    + intros [].
    + destruct (JS.isDigit c1) eqn:D1; [|intros []].
      intros [<-|[]]; exists (String c1 ""); now rewrite <- D1.
    + destruct (JS.isDigit c1) eqn:D1; [|intros []].
      destruct (JS.isDigit c2) eqn:D2.
      * intros [<-|[<-|[]]].
        -- exists (String c1 ""); now rewrite <- D1.
        -- exists (String c1 (String c2 "")); cbn; now rewrite D1, D2.
      * intros [<-|[]]; exists (String c1 ""); now rewrite <- D1.
    + destruct (JS.isDigit c1) eqn:D1; [|intros []].
      destruct (JS.isDigit c2) eqn:D2.
      * destruct (JS.isDigit c3) eqn:D3.
        -- intros [<-|[<-|[<-|[]]]].
           ++ exists (String c1 ""); now rewrite <- D1.
           ++ exists (String c1 (String c2 "")); cbn; now rewrite D1, D2.
           ++ exists (String c1 (String c2 (String c3 ""))); cbn;
                now rewrite D1, D2, D3.
        -- intros [<-|[<-|[]]].
           ++ exists (String c1 ""); now rewrite <- D1.
           ++ exists (String c1 (String c2 "")); cbn; now rewrite D1, D2.
      * intros [<-|[]]; exists (String c1 ""); now rewrite <- D1.
  - intros ([|c1 [|c2 [|c3 [|c4 o]]]] & Ho & ->); cbn in Ho; try discriminate.
    + cbn [append JS.digits1to3]; rewrite Ho; left; reflexivity.
    + apply andb_true_iff in Ho as [D1 D2].
      cbn [append JS.digits1to3]; rewrite D1, D2; right; left; reflexivity.
    + apply andb_true_iff in Ho as [Ho D3].
      apply andb_true_iff in Ho as [D1 D2].
      cbn [append JS.digits1to3]; rewrite D1, D2, D3.
      right; right; left; reflexivity.
Qed.

Lemma octetDot_iff (s r : string) :
  In r (JS.octetDot s) <-> exists o, isOctet o = true /\ s = o ++ "." ++ r.
Proof.
  unfold JS.octetDot; rewrite in_flat_map; split.
  - intros (t & Ht & Hr); apply digits1to3_iff in Ht as (o & Ho & ->).
    exists o; split; [exact Ho|].
    destruct t as [|c t]; [destruct Hr|]; cbn [JS.dot] in Hr.
    destruct (Ascii.eqb_spec c ".") as [->|_]; [|destruct Hr].
    destruct Hr as [<-|[]]; reflexivity.
  - intros (o & Ho & ->); exists ("." ++ r); split.
    + apply digits1to3_iff; exists o; split; [exact Ho | reflexivity].
    + left; reflexivity.
Qed.

Lemma quadAt_iff (s : string) :
  JS.quadAt s = true
  <-> exists a b c d post,
        s = a ++ "." ++ b ++ "." ++ c ++ "." ++ d ++ post
        /\ isOctet a = true /\ isOctet b = true /\ isOctet c = true
        /\ isOctet d = true /\ JS.wordEnd post = true.
Proof.
  unfold JS.quadAt; rewrite existsb_exists; split.
  - intros (post & Hin & Hend).
    apply in_flat_map in Hin as (s3 & Hin & Hd).
    apply in_flat_map in Hin as (s2 & Hin & Hc).
    apply in_flat_map in Hin as (s1 & Ha & Hb).
    apply octetDot_iff in Ha as (a & Ha & ->).
    apply octetDot_iff in Hb as (b & Hb & ->).
    apply octetDot_iff in Hc as (c & Hc & ->).
    apply digits1to3_iff in Hd as (d & Hd & ->).
    exists a, b, c, d, post; repeat split; assumption.
  - intros (a & b & c & d & post & -> & Ha & Hb & Hc & Hd & Hend).
    exists post; split; [|exact Hend].
    apply in_flat_map; exists (d ++ post); split;
      [|apply digits1to3_iff; exists d; split; [exact Hd | reflexivity]].
    apply in_flat_map; exists (c ++ "." ++ d ++ post); split;
      [|apply octetDot_iff; exists c; split; [exact Hc | reflexivity]].
    apply in_flat_map; exists (b ++ "." ++ c ++ "." ++ d ++ post); split;
      [|apply octetDot_iff; exists b; split; [exact Hb | reflexivity]].
    apply octetDot_iff; exists a; split; [exact Ha | reflexivity].
Qed.

Lemma wordStart_cons (prevWord : bool) (c : ascii) (pre : string) :
  wordStart prevWord (String c pre) = wordStart (JS.isWord c) pre.
Proof. destruct pre; reflexivity. Qed.

Lemma quadFrom_iff (s : string) (prevWord : bool) :
  JS.quadFrom prevWord s = true
  <-> exists pre rest,
        s = pre ++ rest /\ wordStart prevWord pre = true
        /\ JS.quadAt rest = true.
Proof.
  revert prevWord; induction s as [|c s IH]; intros prevWord;
    cbn [JS.quadFrom]; rewrite orb_true_iff, andb_true_iff.
  - split.
    + intros [[Hw Hq]|H]; [|discriminate].
      exists "", ""; repeat split; assumption.
    + intros ([|x pre] & rest & Hs & Hw & Hq); [|discriminate].
      cbn in Hs; subst rest; left; split; assumption.
  - rewrite IH; split.
    + intros [[Hw Hq]|(pre & rest & -> & Hw & Hq)].
      * exists "", (String c s); repeat split; assumption.
      * exists (String c pre), rest; rewrite wordStart_cons.
        repeat split; assumption.
    + intros ([|x pre] & rest & Hs & Hw & Hq).
      * cbn in Hs; subst rest; left; split; assumption.
      * right; cbn in Hs; injection Hs as -> ->.
        rewrite wordStart_cons in Hw.
        exists pre, rest; repeat split; assumption.
Qed.

(** The regular expression test, read as a statement about the text. *)
Lemma matchesIPv4_iff (s : string) :
  JS.matchesIPv4 s = true <-> HasDottedQuad s.
Proof.
  unfold JS.matchesIPv4, HasDottedQuad; rewrite quadFrom_iff; split.
  - intros (pre & rest & -> & Hw & Hq).
    apply quadAt_iff in Hq as (a & b & c & d & post & -> & H).
    exists pre, a, b, c, d, post; split; [reflexivity|].
    destruct H as (Ha & Hb & Hc & Hd & Hend); repeat split; try assumption.
    destruct pre; [reflexivity | now apply negb_true_iff in Hw].
  - intros (pre & a & b & c & d & post & -> & Ha & Hb & Hc & Hd & Hw & Hend).
    exists pre, (a ++ "." ++ b ++ "." ++ c ++ "." ++ d ++ post).
    split; [reflexivity|]; split.
    + destruct pre; [reflexivity | now apply negb_true_iff].
    + apply quadAt_iff; exists a, b, c, d, post; repeat split; assumption.
Qed.

End DottedQuad.

(** ** The network threat scanner: statements *)

(** C5, as stated, fails on [app/server.mjs]: a connection line that
    contains a catalog domain but no dotted-quad address names nothing. *)
Lemma domain_without_address_unreported :
  In (ServerMjs.mkDomain "chatgpt.com" "ai" CRITICAL) ServerMjs.suspiciousDomains
  /\ JS.includes "tcp chatgpt.com:443 ESTABLISHED" "chatgpt.com" = true
  /\ ServerMjs.suspiciousConnections
       (ServerMjs.scanConnections ["tcp chatgpt.com:443 ESTABLISHED"]) = [].
Proof.
  split; [left; reflexivity|].
  split; vm_compute; reflexivity.
Qed.

(** C5, amended.  In [app/server.mjs] the scanner returns, each once and
    with its category and severity, exactly the catalog domains whose
    lower-cased name occurs in the lower-cased text of some connection line
    that holds a dotted-quad address; [total] counts the lines, [external]
    the lines that contain none of 127.0.0.1, ::1 and localhost, and
    [suspicious] the domains returned.  In the earlier server file the
    scanner returns the bare catalog domains that occur, letter case
    respected, in some connection line, and no counts. *)
Theorem network_scan (connections : list string) :
  (let threats := ServerMjs.scanConnections connections in
   (forall d,
      In d (ServerMjs.suspiciousConnections threats)
      <-> In d ServerMjs.suspiciousDomains
          /\ exists conn,
               In conn connections /\ HasDottedQuad conn
               /\ Substring (JS.toLowerCase (ServerMjs.domain d))
                    (JS.toLowerCase conn))
   /\ NoDup (ServerMjs.suspiciousConnections threats)
   /\ ServerMjs.total (ServerMjs.connectionStats threats)
      = Z.of_nat (List.length connections)
   /\ ServerMjs.external (ServerMjs.connectionStats threats)
      = Z.of_nat (List.length (filter ServerMjs.isExternal connections))
   /\ (forall conn,
         ServerMjs.isExternal conn = true
         <-> ~ Substring "127.0.0.1" conn /\ ~ Substring "::1" conn
             /\ ~ Substring "localhost" conn)
   /\ ServerMjs.suspiciousCount (ServerMjs.connectionStats threats)
      = Z.of_nat (List.length (ServerMjs.suspiciousConnections threats))
   /\ ServerMjs.error threats = None)
  /\ (let found :=
        Part000.scanDomains connections Part000.suspiciousDomains [] in
      (forall d,
         In d found
         <-> In d Part000.suspiciousDomains
             /\ exists conn, In conn connections /\ Substring d conn)
      /\ NoDup found).
Proof.
  split.
  - cbv zeta; unfold ServerMjs.scanConnections.
    rewrite scanDomains_filter; cbn [app Z.add fst snd
      ServerMjs.suspiciousConnections ServerMjs.connectionStats
      ServerMjs.total ServerMjs.external ServerMjs.suspiciousCount
      ServerMjs.error].
    split; [|split; [|split; [|split; [|split; [|split]]]]].
    + intros d; rewrite filter_In, named_iff.
      split; intros (Hin & conn & Hc & Hip & Hsub); (split; [exact Hin|]);
        exists conn; (split; [exact Hc|]); (split; [|exact Hsub]);
        now apply matchesIPv4_iff.
    + apply NoDup_filter, suspiciousDomains_NoDup.
    + reflexivity.
    + reflexivity.
    + apply isExternal_iff.
    + reflexivity.
    + reflexivity.
  - cbv zeta.
    assert (Hscan : forall domains found,
      Part000.scanDomains connections domains found
      = (found ++ filter (fun d => existsb (fun conn => JS.includes conn d)
                                     connections) domains)%list).
    { induction domains as [|d domains IH]; intros found; cbn.
      - now rewrite app_nil_r.
      - destruct (existsb (fun conn => JS.includes conn d) connections).
        + now rewrite IH, <- app_assoc.
        + apply IH. }
    rewrite Hscan; cbn [app]; split.
    + intros d; rewrite filter_In, existsb_exists.
      split; intros (Hin & conn & Hc & Hsub); (split; [exact Hin|]);
        exists conn; (split; [exact Hc|]); now apply includes_iff.
    + apply NoDup_filter, distinct_NoDup.
      vm_compute; reflexivity.
Qed.

(** ** A failing connection listing *)

Section NetworkFailure.
Import ServerMjs.

(** C6: when the connection-listing call throws, the scanner returns no
    suspicious connection and records the message; the process analysis
    still returns; and a check-processes request whose analysis finds
    nothing else is answered with status clear. *)
Theorem network_failure_degrades (isDev : bool) (message : string)
    (processes : list Process) :
  let threats := checkNetworkConnections (Thrown message) in
  let results := analyze isDev processes (Thrown message) in
  suspiciousConnections threats = []
  /\ error threats = Some message
  /\ analyzeProcesses isDev (Returned processes) (Thrown message)
     = Returned results
  /\ networkThreats results = threats
  /\ (unauthorized results = [] -> suspicious results = [] ->
      browserInstances results = [] ->
      exists report,
        checkProcesses isDev (Returned processes) (Thrown message)
        = Json "clear" CLEAN report
        /\ violations report = []).
Proof.
  intros threats results; repeat split.
  intros Hu Hs Hb.
  exists (generateViolationReport results None None); split.
  - unfold checkProcesses, analyzeProcesses; fold results.
    assert (Hsev : severity (generateViolationReport results None None) = CLEAN)
      by (unfold generateViolationReport, tryBlock; now rewrite Hu, Hs, Hb).
    unfold statusOf; now rewrite Hsev.
  - now rewrite report_violations, Hu, Hs, Hb.
Qed.

Lemma network_failure_degrades_witness :
  exists report,
    checkProcesses false (Returned idleDesktop) (Thrown "spawn netstat ENOENT")
    = Json "clear" CLEAN report
    /\ violations report = [].
Proof.
  apply (network_failure_degrades false "spawn netstat ENOENT" idleDesktop);
    vm_compute; reflexivity.
Defined.

End NetworkFailure.

(** ** The severity of a report *)

Section ReportSeverity.
Import ServerMjs.

(** A report without violations is CLEAN. *)
Lemma clean_without_violations (results : Results)
    (behaviorData : option BehaviorPayload)
    (biometricData : option BiometricPayload) :
  violations (generateViolationReport results behaviorData biometricData) = [] ->
  severity (generateViolationReport results behaviorData biometricData) = CLEAN.
Proof.
  rewrite report_violations; intros H.
  apply app_eq_nil in H as [Hu H]; apply app_eq_nil in H as [Hs H].
  apply app_eq_nil in H as [Hn H]; apply app_eq_nil in H as [Hb H].
  apply app_eq_nil in H as [Hbeh Hbio].
  apply map_eq_nil in Hu, Hs, Hn, Hb, Hbeh, Hbio.
  rewrite report_attempt; unfold completedReport.
  rewrite Hu, Hs, Hn, Hb, Hbeh, Hbio.
  destruct (completes behaviorData biometricData),
    (seenBehavior behaviorData), (seenBiometric behaviorData biometricData);
    reflexivity.
Qed.

(** C1 (what the code does instead): the report severity is not the
    maximum of the violation severities.  A CRITICAL suspicious command
    line leaves the report at MEDIUM; a HIGH biometric anomaly, a LOW
    unauthorized application and a MEDIUM network threat leave it CLEAN. *)
Theorem report_severity_below_maximum :
  (let report :=
     generateViolationReport (analyze false keyloggerNotes (Returned ""))
       None None in
   map violation_severity (violations report) = [CRITICAL]
   /\ maxSeverity (map violation_severity (violations report)) = CRITICAL
   /\ severity report = MEDIUM)
  /\ (let report :=
        generateViolationReport (analyze false [] (Returned ""))
          None (Some (mkBiometricPayload false (Counter 100))) in
      map violation_severity (violations report) = [HIGH]
      /\ maxSeverity (map violation_severity (violations report)) = HIGH
      /\ severity report = CLEAN)
  /\ (let report :=
        generateViolationReport (analyze false oneChrome (Returned ""))
          None None in
      map violation_severity (violations report) = [LOW]
      /\ maxSeverity (map violation_severity (violations report)) = LOW
      /\ severity report = CLEAN)
  /\ (let report :=
        generateViolationReport
          (analyze false [] (Returned "tcp 10.0.0.5:50211 zoom.us:443 ESTABLISHED"))
          None None in
      map violation_severity (violations report) = [MEDIUM]
      /\ maxSeverity (map violation_severity (violations report)) = MEDIUM
      /\ severity report = CLEAN).
Proof. repeat split; vm_compute; reflexivity. Qed.

End ReportSeverity.

(** The earlier server file has the same defect: a MEDIUM unauthorized
    application leaves its report CLEAN. *)
Lemma part000_severity_below_maximum :
  let report :=
    Part000.generateViolationReport (Part000.analyze oneNpm (Returned "")) in
  map Part000.violation_severity (Part000.violations report) = [MEDIUM]
  /\ Part000.severity report = CLEAN.
Proof. split; vm_compute; reflexivity. Qed.

(** * Further properties of [app/server.mjs] *)

(** ** What the report severity is *)

Lemma sevMax_assoc (a b c : Severity) :
  sevMax (sevMax a b) c = sevMax a (sevMax b c).
Proof. destruct a, b, c; reflexivity. Qed.

Lemma sevMax_clean_r (a : Severity) : sevMax a CLEAN = a.
Proof. destruct a; reflexivity. Qed.

Lemma fold_sevMax (l : list Severity) (a : Severity) :
  fold_left sevMax l a = sevMax a (maxSeverity l).
Proof.
  revert a; induction l as [|x l IH]; intros a; simpl.
  - now rewrite sevMax_clean_r.
  - now rewrite IH, sevMax_assoc.
Qed.

Lemma maxSeverity_app (l l' : list Severity) :
  maxSeverity (l ++ l') = sevMax (maxSeverity l) (maxSeverity l').
Proof.
  induction l as [|x l IH]; simpl.
  - destruct (maxSeverity l'); reflexivity.
  - now rewrite IH, sevMax_assoc.
Qed.

Lemma maxSeverity_in (l : list Severity) :
  maxSeverity l = CLEAN \/ In (maxSeverity l) l.
Proof.
  induction l as [|x l IH]; simpl; [left; reflexivity|].
  destruct IH as [IH|IH].
  - rewrite IH, sevMax_clean_r; right; left; reflexivity.
  - right; unfold sevMax; destruct (rank x <=? rank (maxSeverity l))%nat;
      [right; exact IH | left; reflexivity].
Qed.

Lemma maxSeverity_clean (l : list Severity) :
  maxSeverity l = CLEAN <-> Forall (fun s => s = CLEAN) l.
Proof.
  induction l as [|x l IH]; simpl.
  - split; [constructor | reflexivity].
  - split.
    + intros H; destruct x, (maxSeverity l) eqn:E; try discriminate.
      constructor; [reflexivity | now apply IH].
    + intros H; inversion H as [|? ? Hx Hl]; subst.
      apply IH in Hl; now rewrite Hl.
Qed.

Lemma maxSeverity_critical (l : list Severity) :
  maxSeverity l = CRITICAL <-> In CRITICAL l.
Proof.
  induction l as [|x l IH]; simpl.
  - split; [discriminate | intros []].
  - split.
    + intros H; destruct x; try (left; reflexivity);
        right; apply IH; destruct (maxSeverity l); (discriminate || reflexivity).
    + intros [->|H]; [destruct (maxSeverity l); reflexivity|].
      apply IH in H; rewrite H; destruct x; reflexivity.
Qed.

Section ServerSeverity.
Import ServerMjs.

(** A loop whose steps raise the severity by an effective severity. *)
Lemma severity_loop {X : Type} (add : Report -> X -> Report)
    (eff : X -> Severity) :
  (forall r x, severity (add r x) = sevMax (severity r) (eff x)) ->
  forall l r,
    severity (fold_left add l r)
    = sevMax (severity r) (maxSeverity (map eff l)).
Proof.
  intros Hadd l; induction l as [|x l IH]; intros r; simpl.
  - now rewrite sevMax_clean_r.
  - now rewrite IH, Hadd, sevMax_assoc.
Qed.

Lemma addUnauthorized_severity (r : Report) (app : UnauthorizedEntry) :
  severity (addUnauthorized r app)
  = sevMax (severity r) (effectiveUnauthorized (unauthorized_severity app)).
Proof.
  unfold addUnauthorized, push; cbn [severity].
  destruct (severity r), (unauthorized_severity app); reflexivity.
Qed.

Lemma addSuspicious_severity (r : Report) (a : SuspiciousEntry) :
  severity (addSuspicious r a)
  = sevMax (severity r) (effectiveSuspicious (suspicious_severity a)).
Proof.
  unfold addSuspicious, push; cbn [severity].
  destruct (severity r), (suspicious_severity a); reflexivity.
Qed.

Lemma addThreat_severity (r : Report) (t : Domain) :
  severity (addThreat r t)
  = sevMax (severity r) (effectiveThreat (domain_severity t)).
Proof.
  unfold addThreat, push; cbn [severity].
  destruct (severity r), (domain_severity t); reflexivity.
Qed.

Lemma addBrowser_severity (r : Report) (b : BrowserInstance) :
  severity (addBrowser r b)
  = sevMax (severity r) (effectiveBrowser (threat_level b)).
Proof.
  unfold addBrowser, push; cbn [severity].
  destruct (severity r), (threat_level b); reflexivity.
Qed.

(** The severity of a report, loop by loop. *)
Lemma completed_severity_loops (results : Results)
    (behaviorData : option BehaviorData)
    (biometricData : option BiometricData) :
  severity (completedReport results behaviorData biometricData)
  = maxSeverity (effectiveSeverities results).
Proof.
  unfold completedReport; cbn [severity].
  set (r4 := fold_left addBrowser _ _).
  assert (H4 : severity r4 = maxSeverity (effectiveSeverities results)).
  { subst r4; unfold effectiveSeverities.
    rewrite (severity_loop addBrowser _ addBrowser_severity).
    rewrite (severity_loop addThreat _ addThreat_severity).
    rewrite (severity_loop addSuspicious _ addSuspicious_severity).
    rewrite (severity_loop addUnauthorized _ addUnauthorized_severity).
    cbn [severity]; rewrite !maxSeverity_app, !sevMax_assoc.
    destruct (maxSeverity _); reflexivity. }
  set (r5 := match behaviorData with Some _ => _ | None => r4 end).
  assert (H5 : severity r5 = severity r4).
  { subst r5; destruct behaviorData; [|reflexivity].
    now rewrite (fold_left_preserves severity). }
  destruct biometricData; [|congruence].
  rewrite (fold_left_preserves severity) by reflexivity.
  cbn [severity]; congruence.
Qed.

Lemma report_severity_loops (results : Results)
    (behaviorData : option BehaviorPayload)
    (biometricData : option BiometricPayload) :
  severity (generateViolationReport results behaviorData biometricData)
  = maxSeverity (effectiveSeverities results).
Proof.
  rewrite report_attempt; cbv zeta.
  destruct (completes behaviorData biometricData); cbn [severity];
    apply completed_severity_loops.
Qed.

(** X1: the severity of a report is the greatest effective severity of the
    process and network findings, where the effective severity of an
    unauthorized application is its severity unless that is LOW (then
    nothing), of a suspicious command line and of a browser finding HIGH if
    HIGH and MEDIUM otherwise, and of a network threat its severity unless
    that is below HIGH (then nothing). *)
Theorem report_severity_effective (results : Results)
    (behaviorData : option BehaviorPayload)
    (biometricData : option BiometricPayload) :
  severity (generateViolationReport results behaviorData biometricData)
  = maxSeverity (effectiveSeverities results)
  /\ severity (generateViolationReport results behaviorData biometricData)
     <> LOW.
Proof.
  rewrite report_severity_loops; split; [reflexivity|].
  intros Hlow.
  destruct (maxSeverity_in (effectiveSeverities results)) as [H|H];
    [congruence|].
  rewrite Hlow in H; unfold effectiveSeverities in H.
  repeat (apply in_app_or in H as [H|H]);
    apply in_map_iff in H as (x & Hx & _).
  - destruct (unauthorized_severity x); discriminate.
  - destruct (suspicious_severity x); discriminate.
  - destruct (domain_severity x); discriminate.
  - destruct (threat_level x); discriminate.
Qed.

End ServerSeverity.

Section ServerStatus.
Import ServerMjs.

(** X2: a check-processes request that lists the processes is answered
    with status clear exactly when the analysis has no suspicious command
    line and no browser finding, every unauthorized application is below
    MEDIUM and every network threat is below HIGH; unauthorized
    applications of severity LOW and network threats of severity MEDIUM are
    reported in a report that stays CLEAN. *)
Theorem clear_status_iff (isDev : bool) (processes : list Process)
    (netstat : outcome string) :
  let results := analyze isDev processes netstat in
  fst (responseStatus (checkProcesses isDev (Returned processes) netstat))
  = "clear"
  <-> suspicious results = [] /\ browserInstances results = []
      /\ forallb (fun u => belowMedium (unauthorized_severity u))
           (unauthorized results) = true
      /\ forallb (fun t => belowHigh (domain_severity t))
           (suspiciousConnections (networkThreats results)) = true.
Proof.
  intros results; unfold checkProcesses, analyzeProcesses; fold results.
  cbn [responseStatus fst]; unfold statusOf.
  rewrite report_severity_loops.
  assert (Hiff : maxSeverity (effectiveSeverities results) = CLEAN
    <-> suspicious results = [] /\ browserInstances results = []
        /\ forallb (fun u => belowMedium (unauthorized_severity u))
             (unauthorized results) = true
        /\ forallb (fun t => belowHigh (domain_severity t))
             (suspiciousConnections (networkThreats results)) = true).
  { rewrite maxSeverity_clean; unfold effectiveSeverities.
    rewrite !Forall_app, !Forall_map, !forallb_forall, !Forall_forall.
    split.
    - intros (Hu & Hs & Ht & Hb); repeat split.
      + destruct (suspicious results) as [|a l]; [reflexivity|].
        specialize (Hs a (or_introl eq_refl));
          destruct (suspicious_severity a); discriminate.
      + destruct (browserInstances results) as [|b l]; [reflexivity|].
        specialize (Hb b (or_introl eq_refl));
          destruct (threat_level b); discriminate.
      + intros u Hin; specialize (Hu u Hin);
          destruct (unauthorized_severity u); (discriminate || reflexivity).
      + intros t Hin; specialize (Ht t Hin);
          destruct (domain_severity t); (discriminate || reflexivity).
    - intros (Hs & Hb & Hu & Ht); rewrite Hs, Hb; repeat split;
        try (intros x []).
      + intros u Hin; specialize (Hu u Hin);
          destruct (unauthorized_severity u); (discriminate || reflexivity).
      + intros t Hin; specialize (Ht t Hin);
          destruct (domain_severity t); (discriminate || reflexivity). }
  rewrite <- Hiff.
  destruct (maxSeverity (effectiveSeverities results)); cbn;
    split; (discriminate || reflexivity).
Qed.

(** X3: the behaviour metrics and the biometric data of a monitoring
    request never change the status or the severity of the answer: a
    monitor-processes request with a session id is answered with the status
    and the severity that check-processes gives for the same snapshot. *)
Theorem monitoring_payload_leaves_status (isDev : bool) (sessionId : string)
    (behaviorMetrics : option BehaviorPayload)
    (biometricData : option BiometricPayload)
    (psList : outcome (list Process)) (netstat : outcome string) :
  JS.truthy sessionId = true ->
  responseStatus
    (monitorProcesses isDev (Some sessionId) behaviorMetrics biometricData
       psList netstat)
  = responseStatus (checkProcesses isDev psList netstat).
Proof.
  intros Hsid; unfold monitorProcesses, checkProcesses.
  cbn [JS.truthyOpt]; rewrite Hsid; cbn [negb].
  destruct (analyzeProcesses isDev psList netstat) as [results|message];
    [|reflexivity].
  cbn [responseStatus]; unfold statusOf.
  now rewrite !report_severity_loops.
Qed.

Lemma monitoring_payload_leaves_status_witness :
  responseStatus
    (monitorProcesses false (Some "session-1")
       (Some (sentBehavior (mkBehaviorData 12 0 0 0)))
       (Some (sentBiometric (mkBiometricData false 40)))
       (Returned idleDesktop) (Returned ""))
  = ("clear", Some CLEAN).
Proof.
  rewrite (monitoring_payload_leaves_status false "session-1"
             (Some (sentBehavior (mkBehaviorData 12 0 0 0)))
             (Some (sentBiometric (mkBiometricData false 40)))
             (Returned idleDesktop) (Returned "") eq_refl).
  vm_compute; reflexivity.
Defined.

End ServerStatus.

(** ** The tallies of a report *)

Section ServerTallies.
Import ServerMjs.

Lemma tallyAll_app (l l' : list Violation) (s : Summary) :
  tallyAll (l ++ l') s = tallyAll l' (tallyAll l s).
Proof. unfold tallyAll; apply fold_left_app. Qed.

(** A loop whose steps push and tally one violation. *)
Lemma summary_loop {X : Type} (add : Report -> X -> Report)
    (mk : X -> Violation) :
  (forall r x, summary (add r x) = tally (violation_severity (mk x)) (summary r)) ->
  forall l r, summary (fold_left add l r) = tallyAll (map mk l) (summary r).
Proof.
  intros Hadd l; induction l as [|x l IH]; intros r; simpl.
  - reflexivity.
  - now rewrite IH, Hadd.
Qed.

Lemma completed_summary (results : Results) (behaviorData : option BehaviorData)
    (biometricData : option BiometricData) :
  summary (completedReport results behaviorData biometricData)
  = tallyAll
      (violations (completedReport results behaviorData biometricData))
      emptySummary.
Proof.
  rewrite completed_violations, !tallyAll_app.
  unfold completedReport; cbn [summary].
  set (r4 := fold_left addBrowser _ _).
  assert (H4 : summary r4
    = tallyAll (map browserViolation (browserInstances results))
        (tallyAll (map threatViolation
                     (suspiciousConnections (networkThreats results)))
           (tallyAll (map suspiciousViolation (suspicious results))
              (tallyAll (map unauthorizedViolation (unauthorized results))
                 emptySummary)))).
  { subst r4.
    rewrite (summary_loop addBrowser browserViolation) by reflexivity.
    rewrite (summary_loop addThreat threatViolation) by reflexivity.
    rewrite (summary_loop addSuspicious suspiciousViolation) by reflexivity.
    now rewrite (summary_loop addUnauthorized unauthorizedViolation)
      by reflexivity. }
  set (r5 := match behaviorData with Some _ => _ | None => r4 end).
  assert (H5 : summary r5
    = tallyAll (map (anomalyViolation "behavior")
                  (behavior_anomalies (analyzeBehaviorMetrics behaviorData)))
        (summary r4)).
  { subst r5; destruct behaviorData; [|reflexivity].
    now rewrite (summary_loop (addAnomaly "behavior")
                   (anomalyViolation "behavior")) by reflexivity. }
  rewrite <- H4, <- H5.
  destruct biometricData; [|reflexivity].
  now rewrite (summary_loop (addAnomaly "biometric")
                 (anomalyViolation "biometric")) by reflexivity.
Qed.

Lemma report_summary (results : Results) (behaviorData : option BehaviorPayload)
    (biometricData : option BiometricPayload) :
  summary (generateViolationReport results behaviorData biometricData)
  = tallyAll
      (violations (generateViolationReport results behaviorData biometricData))
      emptySummary.
Proof.
  rewrite report_attempt; cbv zeta.
  destruct (completes behaviorData biometricData); cbn [summary violations];
    apply completed_summary.
Qed.

Lemma tallyAll_counts (l : list Violation) (s : Summary) :
  totalViolations (tallyAll l s) = totalViolations s + Z.of_nat (List.length l)
  /\ criticalViolations (tallyAll l s)
     = criticalViolations s + countSeverity CRITICAL l
  /\ highViolations (tallyAll l s) = highViolations s + countSeverity HIGH l
  /\ mediumViolations (tallyAll l s)
     = mediumViolations s + countSeverity MEDIUM l
  /\ lowViolations (tallyAll l s) = lowViolations s + countSeverity LOW l.
Proof.
  revert s; induction l as [|v l IH]; intros s.
  - unfold countSeverity; cbn; repeat split; lia.
  - cbn [tallyAll fold_left]; fold (tallyAll l (tally (violation_severity v) s)).
    destruct (IH (tally (violation_severity v) s)) as (Ht & Hc & Hh & Hm & Hl).
    rewrite Ht, Hc, Hh, Hm, Hl; unfold countSeverity; cbn [filter List.length].
    destruct (violation_severity v); cbn -[Z.add Z.of_nat];
      repeat split; lia.
Qed.

Lemma countSeverity_sum (l : list Violation) :
  Forall (fun v => violation_severity v <> CLEAN) l ->
  countSeverity CRITICAL l + countSeverity HIGH l + countSeverity MEDIUM l
  + countSeverity LOW l = Z.of_nat (List.length l).
Proof.
  unfold countSeverity; induction 1 as [|v l Hv _ IH]; [reflexivity|].
  cbn [filter List.length].
  destruct (violation_severity v); try congruence;
    cbn -[Z.add Z.of_nat]; lia.
Qed.

(** *** No finding of an analysis is CLEAN *)

Lemma catalog_severities (isDev : bool) :
  forallb (fun app => negb (Severity_eqb (app_severity app) CLEAN))
          (unauthorizedApps isDev) = true.
Proof. destruct isDev; vm_compute; reflexivity. Qed.

Lemma pattern_severities :
  forallb (fun p => negb (Severity_eqb (pattern_severity p) CLEAN))
          suspiciousPatterns = true.
Proof. vm_compute; reflexivity. Qed.

Lemma domain_severities :
  forallb (fun d => negb (belowMedium (domain_severity d)))
          suspiciousDomains = true.
Proof. vm_compute; reflexivity. Qed.

Lemma findPattern_severity (c : string) (p : Pattern) :
  findPattern c = Some p -> pattern_severity p <> CLEAN.
Proof.
  unfold findPattern; intros H; apply find_some in H as [Hin _].
  pose proof pattern_severities as Hall; rewrite forallb_forall in Hall.
  specialize (Hall p Hin); destruct (pattern_severity p);
    (discriminate || congruence).
Qed.

Lemma unauthorizedEntry_not_clean (isDev : bool) (proc : Process) (app : App) :
  findApp isDev proc = Some app ->
  unauthorized_severity (unauthorizedEntry proc app) <> CLEAN.
Proof.
  intros Happ; unfold findApp in Happ; apply find_some in Happ as [Hin _].
  pose proof (catalog_severities isDev) as Hall.
  rewrite forallb_forall in Hall; specialize (Hall app Hin).
  assert (Hcat : app_severity app <> CLEAN)
    by (destruct (app_severity app); (discriminate || congruence)).
  unfold unauthorizedEntry.
  destruct (cmd proc) as [c|].
  - destruct (JS.truthy c).
    + destruct (findPattern c) as [p|] eqn:Hp.
      * apply findPattern_severity in Hp.
        repeat match goal with
               | |- context [if ?b then _ else _] => destruct b
               end; exact Hp.
      * repeat match goal with
               | |- context [if ?b then _ else _] => destruct b
               end; cbn; (exact Hcat || discriminate).
    + repeat match goal with
             | |- context [if ?b then _ else _] => destruct b
             end; cbn; (exact Hcat || discriminate).
  - repeat match goal with
           | |- context [if ?b then _ else _] => destruct b
           end; cbn; (exact Hcat || discriminate).
Qed.

Lemma scanProcess_not_clean (isDev : bool) (acc : Scan) (proc : Process) :
  Forall (fun u => unauthorized_severity u <> CLEAN) (scan_unauthorized acc)
  /\ Forall (fun a => suspicious_severity a <> CLEAN) (scan_suspicious acc) ->
  Forall (fun u => unauthorized_severity u <> CLEAN)
         (scan_unauthorized (scanProcess isDev acc proc))
  /\ Forall (fun a => suspicious_severity a <> CLEAN)
            (scan_suspicious (scanProcess isDev acc proc)).
Proof.
  intros [Hu Hs]; unfold scanProcess.
  destruct (isServerProcess isDev proc); [now split|].
  destruct (findApp isDev proc) as [app|] eqn:Happ.
  - apply unauthorizedEntry_not_clean in Happ.
    assert (Hu' : Forall (fun u => unauthorized_severity u <> CLEAN)
                    (scan_unauthorized acc ++ [unauthorizedEntry proc app]))
      by (apply Forall_app; split; [exact Hu | now constructor]).
    destruct (isBrowserName proc);
      destruct (cmd proc) as [c|]; try destruct (JS.truthy c);
      try destruct (findPattern c); now split.
  - destruct (isBrowserName proc);
      destruct (cmd proc) as [c|]; try destruct (JS.truthy c);
      try (destruct (findPattern c) as [p|] eqn:Hp); try (now split).
    all: split; [exact Hu|]; cbn [scan_suspicious];
      apply Forall_app; split; [exact Hs|];
      constructor; [|constructor]; cbn;
      now apply (findPattern_severity c).
Qed.

Lemma scan_not_clean (isDev : bool) (processes : list Process) (acc : Scan) :
  Forall (fun u => unauthorized_severity u <> CLEAN) (scan_unauthorized acc)
  /\ Forall (fun a => suspicious_severity a <> CLEAN) (scan_suspicious acc) ->
  Forall (fun u => unauthorized_severity u <> CLEAN)
         (scan_unauthorized (fold_left (scanProcess isDev) processes acc))
  /\ Forall (fun a => suspicious_severity a <> CLEAN)
            (scan_suspicious (fold_left (scanProcess isDev) processes acc)).
Proof.
  revert acc; induction processes as [|proc processes IH]; intros acc H.
  - exact H.
  - apply IH, scanProcess_not_clean, H.
Qed.

Lemma threats_in_catalog (netstat : outcome string) :
  incl (suspiciousConnections (checkNetworkConnections netstat))
       suspiciousDomains.
Proof.
  destruct netstat as [stdout|message]; unfold checkNetworkConnections.
  - unfold scanConnections; rewrite scanDomains_filter.
    cbn [suspiciousConnections app].
    intros d Hd; now apply filter_In in Hd.
  - intros d [].
Qed.

Lemma anomaly_severities (behaviorData : option BehaviorData)
    (biometricData : option BiometricData) :
  Forall (fun a => anomaly_severity a <> CLEAN)
         (behavior_anomalies (analyzeBehaviorMetrics behaviorData))
  /\ Forall (fun a => anomaly_severity a <> CLEAN)
            (biometric_anomalies (analyzeBiometricData biometricData)).
Proof.
  split.
  - destruct behaviorData as [b|]; [|constructor].
    unfold analyzeBehaviorMetrics; cbn -[Z.add Z.mul Z.gtb Z.ltb].
    split_tests; repeat constructor; discriminate.
  - destruct biometricData as [b|]; [|constructor].
    unfold analyzeBiometricData; cbn -[Z.add Z.mul Z.gtb Z.ltb].
    split_tests; repeat constructor; discriminate.
Qed.

Lemma analysis_violations_not_clean (isDev : bool) (processes : list Process)
    (netstat : outcome string) (behaviorData : option BehaviorPayload)
    (biometricData : option BiometricPayload) :
  Forall (fun v => violation_severity v <> CLEAN)
    (violations
       (generateViolationReport (analyze isDev processes netstat)
          behaviorData biometricData)).
Proof.
  rewrite report_violations; unfold analyze;
    cbn [unauthorized suspicious browserInstances networkThreats].
  destruct (scan_not_clean isDev processes emptyScan) as [Hu Hs];
    [split; constructor|].
  destruct (anomaly_severities (seenBehavior behaviorData)
              (seenBiometric behaviorData biometricData)) as [Hbeh Hbio].
  rewrite !Forall_app, !Forall_map; repeat split; try assumption.
  - apply Forall_forall; intros d Hd; apply threats_in_catalog in Hd.
    pose proof domain_severities as Hall; rewrite forallb_forall in Hall.
    specialize (Hall d Hd); cbn.
    destruct (domain_severity d); (discriminate || congruence).
  - rewrite browser_loop; cbn [app]; rewrite Forall_map.
    apply Forall_forall; intros e _; cbn.
    destruct (snd e >? browserThreshold isDev + 10); discriminate.
Qed.

(** X4: the summary of a report counts its violations, also when an
    analyzer throws: the total is the number of violations, which is the
    number of unauthorized applications, suspicious command lines, network
    threats, browser findings and the behavioural and biometric anomalies
    of the payloads that the analyzers read, for payloads of counters the
    anomalies of both payloads; each of the four severity counters is the
    number of violations of that severity; and the four counters add up to
    the total. *)
Theorem summary_counts_violations (isDev : bool) (processes : list Process)
    (netstat : outcome string) (behaviorData : option BehaviorPayload)
    (biometricData : option BiometricPayload) :
  let results := analyze isDev processes netstat in
  let report := generateViolationReport results behaviorData biometricData in
  totalViolations (summary report) = Z.of_nat (List.length (violations report))
  /\ List.length (violations report)
     = (List.length (unauthorized results) + List.length (suspicious results)
        + List.length (suspiciousConnections (networkThreats results))
        + List.length (browserInstances results)
        + List.length
            (behavior_anomalies
               (analyzeBehaviorMetrics (seenBehavior behaviorData)))
        + List.length
            (biometric_anomalies
               (analyzeBiometricData
                  (seenBiometric behaviorData biometricData))))%nat
  /\ (forall (counters : option BehaviorData) (readings : option BiometricData),
        List.length
          (violations
             (generateViolationReport results (option_map sentBehavior counters)
                (option_map sentBiometric readings)))
        = (List.length (unauthorized results) + List.length (suspicious results)
           + List.length (suspiciousConnections (networkThreats results))
           + List.length (browserInstances results)
           + List.length (behavior_anomalies (analyzeBehaviorMetrics counters))
           + List.length (biometric_anomalies (analyzeBiometricData readings)))%nat)
  /\ criticalViolations (summary report)
     = countSeverity CRITICAL (violations report)
  /\ highViolations (summary report) = countSeverity HIGH (violations report)
  /\ mediumViolations (summary report)
     = countSeverity MEDIUM (violations report)
  /\ lowViolations (summary report) = countSeverity LOW (violations report)
  /\ criticalViolations (summary report) + highViolations (summary report)
     + mediumViolations (summary report) + lowViolations (summary report)
     = totalViolations (summary report).
Proof.
  intros results report.
  pose proof (analysis_violations_not_clean isDev processes netstat
                behaviorData biometricData) as Hclean.
  fold results in Hclean; fold report in Hclean.
  apply countSeverity_sum in Hclean.
  assert (Hsum : summary report = tallyAll (violations report) emptySummary)
    by apply report_summary.
  destruct (tallyAll_counts (violations report) emptySummary)
    as (Ht & Hc & Hh & Hm & Hl).
  rewrite Hsum, Ht, Hc, Hh, Hm, Hl; cbn [emptySummary totalViolations
    criticalViolations highViolations mediumViolations lowViolations].
  split; [lia|]; split; [|split; [|repeat split; lia]].
  - subst report; rewrite report_violations, !length_app, !length_map; lia.
  - intros counters readings.
    rewrite report_violations, !length_app, !length_map.
    rewrite seenBehavior_sent, seenBiometric_sent; lia.
Qed.

End ServerTallies.

(** ** The recommendations of a report *)

Section ServerRecommendations.
Import ServerMjs.

Lemma countSeverity_positive (s : Severity) (l : list Violation) :
  0 < countSeverity s l
  <-> exists v, In v l /\ violation_severity v = s.
Proof.
  unfold countSeverity; split.
  - intros H.
    destruct (filter (fun v => Severity_eqb (violation_severity v) s) l)
      as [|v l'] eqn:E; [cbn in H; lia|].
    assert (Hin : In v (filter (fun v => Severity_eqb (violation_severity v) s) l))
      by (rewrite E; left; reflexivity).
    apply filter_In in Hin as [Hin Hs].
    exists v; split; [exact Hin|].
    destruct (violation_severity v), s; (discriminate || reflexivity).
  - intros (v & Hin & Hs).
    assert (Hf : In v (filter (fun v => Severity_eqb (violation_severity v) s) l)).
    { apply filter_In; split; [exact Hin|].
      rewrite Hs; destruct s; reflexivity. }
    destruct (filter (fun v => Severity_eqb (violation_severity v) s) l);
      [destruct Hf | cbn [List.length]; lia].
Qed.

(** The recommendations of a completed report: the rung of the score
    ladder, then the call for a manual review. *)
Lemma completed_recommendations (results : Results)
    (behaviorData : option BehaviorData)
    (biometricData : option BiometricData) :
  let report := completedReport results behaviorData biometricData in
  recommendations report
  = ((if overallRiskScore report >? 100 then
        ["IMMEDIATE INTERVENTION REQUIRED";
         "Consider terminating interview session"]
      else if overallRiskScore report >? 50 then
        ["Increase monitoring frequency";
         "Enable additional security measures"]
      else [])
     ++ (if criticalViolations (summary report) >? 0 then
           ["Critical violations detected - manual review required"]
         else []))%list.
Proof.
  cbv zeta; unfold completedReport;
    cbn [recommendations overallRiskScore summary].
  set (r4 := fold_left addBrowser _ _).
  assert (H4 : recommendations r4 = [])
    by (subst r4; now rewrite !(fold_left_preserves recommendations)).
  set (r5 := match behaviorData with Some _ => _ | None => r4 end).
  assert (H5 : recommendations r5 = []).
  { subst r5; destruct behaviorData; [|exact H4].
    now rewrite (fold_left_preserves recommendations). }
  set (r6 := match biometricData with Some _ => _ | None => r5 end).
  assert (H6 : recommendations r6 = []).
  { subst r6; destruct biometricData; [|exact H5].
    now rewrite (fold_left_preserves recommendations). }
  rewrite H6; cbn [app].
  destruct (criticalViolations (summary r6) >? 0);
    [reflexivity | now rewrite app_nil_r].
Qed.

(** The recommendations of a report: those of the completed report, and
    none when an analyzer throws. *)
Lemma report_recommendations (results : Results)
    (behaviorData : option BehaviorPayload)
    (biometricData : option BiometricPayload) :
  let report := generateViolationReport results behaviorData biometricData in
  recommendations report
  = if completes behaviorData biometricData then
      ((if overallRiskScore report >? 100 then
          ["IMMEDIATE INTERVENTION REQUIRED";
           "Consider terminating interview session"]
        else if overallRiskScore report >? 50 then
          ["Increase monitoring frequency";
           "Enable additional security measures"]
        else [])
       ++ (if criticalViolations (summary report) >? 0 then
             ["Critical violations detected - manual review required"]
           else []))%list
    else [].
Proof.
  cbv zeta; rewrite report_attempt; cbv zeta.
  destruct (completes behaviorData biometricData);
    cbn [recommendations overallRiskScore summary];
    [apply completed_recommendations | reflexivity].
Qed.

(** X5: the recommendations follow the score and the tallies only when no
    analyzer throws on its payload.  A report then calls for a manual
    review exactly when one of its violations is CRITICAL, whatever the
    risk score; it calls for immediate intervention exactly when the
    overall risk score exceeds 100, and for increased monitoring exactly
    when the score exceeds 50 without exceeding 100.  When an analyzer
    throws, the report has no recommendation, also when it lists a CRITICAL
    violation, as for an electron application started on main.js and tab
    switches that cannot be converted. *)
Theorem report_recommendation_ladder (results : Results)
    (behaviorData : option BehaviorPayload)
    (biometricData : option BiometricPayload) :
  let report := generateViolationReport results behaviorData biometricData in
  (In "Critical violations detected - manual review required"
      (recommendations report)
   <-> completes behaviorData biometricData = true
       /\ exists v, In v (violations report) /\ violation_severity v = CRITICAL)
  /\ (In "IMMEDIATE INTERVENTION REQUIRED" (recommendations report)
      <-> 100 < overallRiskScore report)
  /\ (In "Consider terminating interview session" (recommendations report)
      <-> 100 < overallRiskScore report)
  /\ (In "Increase monitoring frequency" (recommendations report)
      <-> 50 < overallRiskScore report <= 100)
  /\ (In "Enable additional security measures" (recommendations report)
      <-> 50 < overallRiskScore report <= 100)
  /\ (completes behaviorData biometricData = false ->
      recommendations report = [])
  /\ (let caught :=
        generateViolationReport (analyze false electronMain noConnections)
          (Some unreadableTabs) None in
      map violation_severity (violations caught) = [CRITICAL]
      /\ recommendations caught = []).
Proof.
  intros report.
  pose proof (report_recommendations results behaviorData biometricData) as Hr.
  pose proof (report_overallRiskScore results behaviorData biometricData) as Hs.
  cbv zeta in Hr; fold report in Hr, Hs; rewrite Hr.
  assert (Hc : criticalViolations (summary report)
               = countSeverity CRITICAL (violations report)).
  { unfold report; rewrite report_summary.
    now destruct (tallyAll_counts
                    (violations (generateViolationReport results behaviorData
                                   biometricData)) emptySummary)
      as (_ & -> & _). }
  rewrite <- countSeverity_positive, <- Hc.
  assert (Hcaught :
    let caught :=
      generateViolationReport (analyze false electronMain noConnections)
        (Some unreadableTabs) None in
    map violation_severity (violations caught) = [CRITICAL]
    /\ recommendations caught = [])
    by (vm_compute; split; reflexivity).
  destruct (completes behaviorData biometricData).
  - clear Hs.
    destruct (Z.gtb_spec (overallRiskScore report) 100) as [H100|H100];
      [|destruct (Z.gtb_spec (overallRiskScore report) 50) as [H50|H50]];
      destruct (Z.gtb_spec (criticalViolations (summary report)) 0) as [H0|H0];
      cbn [app In];
      (split; [|split; [|split; [|split; [|split; [|split]]]]]);
      try exact Hcaught; try (intros H; discriminate H);
      (split; intros H); try lia; try tauto;
      repeat (destruct H as [H|H]; try discriminate H); try tauto; try lia.
  - rewrite Hs; cbn [In].
    (split; [|split; [|split; [|split; [|split; [|split]]]]]);
      try exact Hcaught; try (intros _; reflexivity);
      (split; intros H); try lia; try tauto.
Qed.

End ServerRecommendations.

(** ** Network threats in the report and over more lines *)

Section ServerNetworkMore.
Import ServerMjs.

Lemma network_findings_of_report (results : Results)
    (behaviorData : option BehaviorPayload)
    (biometricData : option BiometricPayload) :
  findingsOfType SUSPICIOUS_NETWORK_ACTIVITY
    (generateViolationReport results behaviorData biometricData)
  = map threatViolation (suspiciousConnections (networkThreats results)).
Proof.
  unfold findingsOfType; rewrite report_violations, !filter_app.
  rewrite (filter_map_all _ threatViolation) by reflexivity.
  rewrite !filter_map_none by (apply Forall_forall; reflexivity).
  rewrite !anomaly_violations_filtered
    by (reflexivity || apply behavior_anomaly_types
        || apply biometric_anomaly_types).
  now rewrite !app_nil_r.
Qed.

Lemma suspiciousCount_length (netstat : outcome string) :
  suspiciousCount (connectionStats (checkNetworkConnections netstat))
  = Z.of_nat
      (List.length (suspiciousConnections (checkNetworkConnections netstat))).
Proof.
  destruct netstat as [stdout|message]; unfold checkNetworkConnections;
    [|reflexivity].
  unfold scanConnections; rewrite scanDomains_filter.
  cbn [suspiciousConnections connectionStats suspiciousCount app]; lia.
Qed.

(** X6: every domain that the scanner returns gives one
    SUSPICIOUS_NETWORK_ACTIVITY violation, in the scanner's order, with the
    severity and the category of the domain and confidence 0.85; the
    number of these violations is the [suspicious] count of the scan. *)
Theorem network_threats_reported (isDev : bool) (processes : list Process)
    (netstat : outcome string) (behaviorData : option BehaviorPayload)
    (biometricData : option BiometricPayload) :
  let threats := checkNetworkConnections netstat in
  let report :=
    generateViolationReport (analyze isDev processes netstat)
      behaviorData biometricData in
  findingsOfType SUSPICIOUS_NETWORK_ACTIVITY report
  = map (fun d =>
           mkViolation SUSPICIOUS_NETWORK_ACTIVITY (domain_severity d)
             (DomainDetails (domain_category d) (domain d)) (85 # 100)
             (Some (domain_category d)))
        (suspiciousConnections threats)
  /\ Z.of_nat
       (List.length (findingsOfType SUSPICIOUS_NETWORK_ACTIVITY report))
     = suspiciousCount (connectionStats threats).
Proof.
  cbv zeta; rewrite network_findings_of_report.
  unfold analyze at 1 2; cbn [networkThreats].
  split; [reflexivity|].
  now rewrite length_map, suspiciousCount_length.
Qed.

Lemma named_app (l1 l2 : list string) (d : Domain) :
  named (l1 ++ l2) d = named l1 d || named l2 d.
Proof. unfold named; apply existsb_app. Qed.

(** X7: scanning two lists of connection lines together reports a domain
    exactly when one of the two lists alone reports it, so more lines never
    hide a threat; the counts [total] and [external] of the two lists add
    up, [external] never exceeds [total], and [suspicious] never exceeds
    the 30 domains of the catalog. *)
Theorem network_scan_composes (l1 l2 : list string) :
  (forall d,
     In d (suspiciousConnections (scanConnections (l1 ++ l2)))
     <-> In d (suspiciousConnections (scanConnections l1))
         \/ In d (suspiciousConnections (scanConnections l2)))
  /\ total (connectionStats (scanConnections (l1 ++ l2)))
     = total (connectionStats (scanConnections l1))
       + total (connectionStats (scanConnections l2))
  /\ external (connectionStats (scanConnections (l1 ++ l2)))
     = external (connectionStats (scanConnections l1))
       + external (connectionStats (scanConnections l2))
  /\ 0 <= external (connectionStats (scanConnections l1))
     <= total (connectionStats (scanConnections l1))
  /\ 0 <= suspiciousCount (connectionStats (scanConnections l1)) <= 30.
Proof.
  unfold scanConnections; rewrite !scanDomains_filter.
  cbn [suspiciousConnections connectionStats total external suspiciousCount
       app].
  split; [|split; [|split; [|split]]].
  - intros d; rewrite !filter_In, named_app, orb_true_iff; tauto.
  - rewrite length_app; lia.
  - rewrite filter_app, length_app; lia.
  - pose proof (filter_length_le isExternal l1); lia.
  - pose proof (filter_length_le (named l1) suspiciousDomains) as H.
    change (List.length suspiciousDomains) with 30%nat in H; lia.
Qed.

End ServerNetworkMore.

(** ** Suspicious command lines *)

Section ServerSuspicious.
Import ServerMjs.

Lemma findPattern_existsb (c : string) :
  isSome (findPattern c)
  = existsb (fun p => JS.includes (JS.toLowerCase c) (JS.toLowerCase (pattern p)))
            suspiciousPatterns.
Proof. unfold findPattern; now apply find_existsb. Qed.

Lemma no_pattern_in_empty :
  existsb (fun p => JS.includes (JS.toLowerCase "") (JS.toLowerCase (pattern p)))
          suspiciousPatterns = false.
Proof. vm_compute; reflexivity. Qed.

Lemma findPattern_repeats (proc : Process) (c : string) (p : Pattern) :
  findPattern c = Some p ->
  repeatsPattern
    (mkSuspicious (displayName proc) (JS.orZero (pid proc)) c
       (pattern_description p) (pattern_severity p) (8 # 10)).
Proof.
  unfold findPattern; intros H; apply find_some in H as [Hin Hinc].
  exists p; cbn; repeat split; try assumption.
  now apply includes_iff.
Qed.

Lemma scanProcess_suspicious (isDev : bool) (acc : Scan) (proc : Process) :
  map suspiciousKey (scan_suspicious (scanProcess isDev acc proc))
  = (map suspiciousKey (scan_suspicious acc)
     ++ if suspiciousFlagged isDev proc
        then [(displayName proc, pid proc)] else [])%list
  /\ (Forall repeatsPattern (scan_suspicious acc) ->
      Forall repeatsPattern (scan_suspicious (scanProcess isDev acc proc))).
Proof.
  unfold suspiciousFlagged, patternInCmd.
  rewrite <- findApp_named, <- isServerProcess_allowListed.
  unfold scanProcess.
  destruct (isServerProcess isDev proc);
    [cbn [negb andb]; rewrite app_nil_r; now split|].
  cbn [negb andb].
  destruct (findApp isDev proc) as [app|]; cbn [isSome negb andb].
  - destruct (isBrowserName proc);
      destruct (cmd proc) as [c|]; try destruct (JS.truthy c);
      try destruct (findPattern c);
      cbn [scan_suspicious]; rewrite app_nil_r; now split.
  - destruct (cmd proc) as [c|].
    + destruct (JS.truthy c) eqn:Hc.
      * rewrite <- findPattern_existsb.
        destruct (findPattern c) as [p|] eqn:Hp; cbn [isSome].
        -- apply (findPattern_repeats proc) in Hp.
           destruct (isBrowserName proc); cbn [scan_suspicious];
             (split; [rewrite map_app; cbn; now rewrite orZero_id|]);
             intros H; apply Forall_app; (split; [exact H|]);
             now constructor.
        -- destruct (isBrowserName proc); cbn [scan_suspicious];
             rewrite app_nil_r; now split.
      * destruct c; [|discriminate Hc].
        rewrite no_pattern_in_empty.
        destruct (isBrowserName proc); cbn [scan_suspicious];
          rewrite app_nil_r; now split.
    + destruct (isBrowserName proc); cbn [scan_suspicious];
        rewrite app_nil_r; now split.
Qed.

Lemma scan_suspicious_keys (isDev : bool) (processes : list Process)
    (acc : Scan) :
  map suspiciousKey
      (scan_suspicious (fold_left (scanProcess isDev) processes acc))
  = (map suspiciousKey (scan_suspicious acc)
     ++ map (fun proc => (displayName proc, pid proc))
          (filter (suspiciousFlagged isDev) processes))%list
  /\ (Forall repeatsPattern (scan_suspicious acc) ->
      Forall repeatsPattern
        (scan_suspicious (fold_left (scanProcess isDev) processes acc))).
Proof.
  revert acc; induction processes as [|proc processes IH]; intros acc; simpl.
  - rewrite app_nil_r; now split.
  - destruct (IH (scanProcess isDev acc proc)) as [IHk IHf].
    destruct (scanProcess_suspicious isDev acc proc) as [Hk Hf].
    split; [|intros H; apply IHf, Hf, H].
    rewrite IHk, Hk, <- app_assoc.
    destruct (suspiciousFlagged isDev proc); reflexivity.
Qed.

Lemma suspicious_findings_of_report (results : Results)
    (behaviorData : option BehaviorPayload)
    (biometricData : option BiometricPayload) :
  findingsOfType SUSPICIOUS_ACTIVITY
    (generateViolationReport results behaviorData biometricData)
  = map suspiciousViolation (suspicious results).
Proof.
  unfold findingsOfType; rewrite report_violations, !filter_app.
  rewrite (filter_map_all _ suspiciousViolation) by reflexivity.
  rewrite !filter_map_none by (apply Forall_forall; reflexivity).
  rewrite !anomaly_violations_filtered
    by (reflexivity || apply behavior_anomaly_types
        || apply biometric_anomaly_types).
  now rewrite !app_nil_r.
Qed.

(** X8: the suspicious activities of an analysis are, one for one and in
    order, the processes of the snapshot that are not on the allow-list,
    that no catalog entry names and whose command line contains a
    suspicious pattern up to letter case; each repeats the description and
    the severity of a pattern that its command line contains, and each
    gives one SUSPICIOUS_ACTIVITY violation.  So no process is reported
    both as an unauthorized application and as a suspicious activity. *)
Theorem suspicious_activity_findings (isDev : bool)
    (processes : list Process) (netstat : outcome string)
    (behaviorData : option BehaviorPayload)
    (biometricData : option BiometricPayload) :
  let results := analyze isDev processes netstat in
  let report := generateViolationReport results behaviorData biometricData in
  map suspiciousKey (suspicious results)
  = map (fun proc => (displayName proc, pid proc))
        (filter (fun proc =>
                   negb (allowListed isDev proc)
                   && negb (namedInCatalog isDev proc)
                   && patternInCmd proc) processes)
  /\ Forall repeatsPattern (suspicious results)
  /\ findingsOfType SUSPICIOUS_ACTIVITY report
     = map (fun a =>
              mkViolation SUSPICIOUS_ACTIVITY (suspicious_severity a)
                (ReasonDetails (suspicious_reason a)) (suspicious_confidence a)
                None)
           (suspicious results).
Proof.
  cbv zeta; rewrite suspicious_findings_of_report.
  unfold analyze; cbn [suspicious].
  destruct (scan_suspicious_keys isDev processes emptyScan) as [Hk Hf].
  split; [exact Hk|]; split; [apply Hf; constructor | reflexivity].
Qed.

End ServerSuspicious.

(** ** Command lines that make an unauthorized application CRITICAL *)

Section ServerMainJs.
Import ServerMjs.

Lemma findPattern_main_js (c : string) :
  JS.includes (JS.toLowerCase c) "main.js" = true ->
  exists p, findPattern c = Some p /\ pattern_severity p = CRITICAL.
Proof.
  intros H; unfold findPattern, suspiciousPatterns; cbn [find pattern].
  change (JS.toLowerCase "main.js") with "main.js"; rewrite H.
  eexists; split; reflexivity.
Qed.

Lemma default_cmd_without_main_js :
  JS.includes (JS.toLowerCase "No command-line details available") "main.js"
  = false.
Proof. vm_compute; reflexivity. Qed.

Lemma unauthorizedEntry_main_js (proc : Process) (app : App) :
  JS.includes (JS.toLowerCase (unauthorized_cmd (unauthorizedEntry proc app)))
    "main.js" = true ->
  unauthorized_severity (unauthorizedEntry proc app) = CRITICAL.
Proof.
  unfold unauthorizedEntry.
  destruct (cmd proc) as [c|].
  - destruct (JS.truthy c) eqn:Hc.
    + destruct (findPattern c) as [p|] eqn:Hp.
      * repeat match goal with
               | |- context [if ?b then _ else _] => destruct b
               end;
          cbn [unauthorized_cmd unauthorized_severity JS.orElse];
          rewrite Hc; intros H;
          apply findPattern_main_js in H as (q & Hq & Hs); congruence.
      * repeat match goal with
               | |- context [if ?b then _ else _] => destruct b
               end;
          cbn [unauthorized_cmd unauthorized_severity JS.orElse];
          rewrite Hc; intros H;
          apply findPattern_main_js in H as (q & Hq & Hs); congruence.
    + repeat match goal with
             | |- context [if ?b then _ else _] => destruct b
             end;
        cbn [unauthorized_cmd unauthorized_severity JS.orElse];
        rewrite Hc, default_cmd_without_main_js; discriminate.
  - repeat match goal with
           | |- context [if ?b then _ else _] => destruct b
           end;
      cbn [unauthorized_cmd unauthorized_severity JS.orElse];
      rewrite default_cmd_without_main_js; discriminate.
Qed.

Lemma scanProcess_main_js (isDev : bool) (acc : Scan) (proc : Process) :
  Forall (fun u =>
            JS.includes (JS.toLowerCase (unauthorized_cmd u)) "main.js" = true ->
            unauthorized_severity u = CRITICAL) (scan_unauthorized acc) ->
  Forall (fun u =>
            JS.includes (JS.toLowerCase (unauthorized_cmd u)) "main.js" = true ->
            unauthorized_severity u = CRITICAL)
         (scan_unauthorized (scanProcess isDev acc proc)).
Proof.
  intros H; unfold scanProcess.
  destruct (isServerProcess isDev proc); [exact H|].
  destruct (findApp isDev proc) as [app|].
  - assert (H' : Forall (fun u =>
                   JS.includes (JS.toLowerCase (unauthorized_cmd u)) "main.js"
                   = true -> unauthorized_severity u = CRITICAL)
                   (scan_unauthorized acc ++ [unauthorizedEntry proc app])).
    { apply Forall_app; split; [exact H|].
      constructor; [apply unauthorizedEntry_main_js | constructor]. }
    destruct (isBrowserName proc);
      destruct (cmd proc) as [c|]; try destruct (JS.truthy c);
      try destruct (findPattern c); exact H'.
  - destruct (isBrowserName proc);
      destruct (cmd proc) as [c|]; try destruct (JS.truthy c);
      try destruct (findPattern c); exact H.
Qed.

Lemma scan_main_js (isDev : bool) (processes : list Process) (acc : Scan) :
  Forall (fun u =>
            JS.includes (JS.toLowerCase (unauthorized_cmd u)) "main.js" = true ->
            unauthorized_severity u = CRITICAL) (scan_unauthorized acc) ->
  Forall (fun u =>
            JS.includes (JS.toLowerCase (unauthorized_cmd u)) "main.js" = true ->
            unauthorized_severity u = CRITICAL)
         (scan_unauthorized (fold_left (scanProcess isDev) processes acc)).
Proof.
  revert acc; induction processes as [|proc processes IH]; intros acc H.
  - exact H.
  - apply IH, scanProcess_main_js, H.
Qed.

(** X9: an unauthorized application whose command line contains main.js,
    in whatever letter case, is reported CRITICAL whatever the severity of
    its catalog entry: main.js is the first pattern of the catalog, and the
    first pattern found decides. *)
Theorem main_js_is_critical (isDev : bool) (processes : list Process)
    (netstat : outcome string) :
  Forall (fun u =>
            JS.includes (JS.toLowerCase (unauthorized_cmd u)) "main.js" = true ->
            unauthorized_severity u = CRITICAL)
         (unauthorized (analyze isDev processes netstat)).
Proof.
  unfold analyze; cbn [unauthorized].
  apply scan_main_js; constructor.
Qed.

End ServerMainJs.

(** ** Suspicious command lines in the earlier server file *)

Section Part000Suspicious.
Import Part000.

Lemma part000_no_pattern_in_empty :
  existsb (fun p => JS.includes (JS.toLowerCase "") (JS.toLowerCase p))
          suspiciousPatterns = false.
Proof. vm_compute; reflexivity. Qed.

Lemma part000_no_pattern_in_default :
  existsb (fun p => JS.includes (JS.toLowerCase "N/A") (JS.toLowerCase p))
          suspiciousPatterns = false.
Proof. vm_compute; reflexivity. Qed.

Lemma hasSuspiciousPattern_patternInCmd (proc : Process) :
  hasSuspiciousPattern proc = part000_patternInCmd proc.
Proof.
  unfold hasSuspiciousPattern, part000_patternInCmd.
  destruct (cmd proc) as [[|a c]|]; [|reflexivity|reflexivity].
  now rewrite part000_no_pattern_in_empty.
Qed.

Lemma part000_scanProcess_suspicious (acc : Scan) (proc : Process) :
  scan_suspicious (scanProcess acc proc)
  = (scan_suspicious acc
     ++ if part000_patternInCmd proc
        then [mkSuspicious (displayName proc) (pid proc)
                (JS.orElse (cmd proc) "")
                "Suspicious command line pattern detected"]
        else [])%list.
Proof.
  rewrite <- hasSuspiciousPattern_patternInCmd; unfold scanProcess.
  destruct (findApp proc) as [app|];
    destruct (isBrowserName proc);
    destruct (cmd proc) as [c|] eqn:Hcmd;
    try (assert (Hnone : hasSuspiciousPattern proc = false)
           by (unfold hasSuspiciousPattern; now rewrite Hcmd);
         rewrite Hnone; cbn [scan_suspicious]; now rewrite app_nil_r).
  all: destruct (JS.truthy c) eqn:Hc; cbn [andb].
  all: try (assert (Hnone : hasSuspiciousPattern proc = false)
              by (unfold hasSuspiciousPattern; now rewrite Hcmd, Hc);
            rewrite Hnone; cbn [scan_suspicious]; now rewrite app_nil_r).
  all: destruct (hasSuspiciousPattern proc); cbn [scan_suspicious];
    [|now rewrite app_nil_r].
  all: unfold displayName, JS.orElse; now rewrite Hc, orZero_id.
Qed.

Lemma part000_scan_suspicious (processes : list Process) (acc : Scan) :
  scan_suspicious (fold_left scanProcess processes acc)
  = (scan_suspicious acc
     ++ map (fun proc =>
               mkSuspicious (displayName proc) (pid proc)
                 (JS.orElse (cmd proc) "")
                 "Suspicious command line pattern detected")
          (filter part000_patternInCmd processes))%list.
Proof.
  revert acc; induction processes as [|proc processes IH]; intros acc; simpl.
  - now rewrite app_nil_r.
  - rewrite IH, part000_scanProcess_suspicious, <- app_assoc.
    destruct (part000_patternInCmd proc); reflexivity.
Qed.

Lemma part000_unauthorizedEntry_cmd (proc : Process) (app : App) :
  unauthorized_cmd (unauthorizedEntry proc app) = JS.orElse (cmd proc) "N/A".
Proof.
  unfold unauthorizedEntry.
  repeat match goal with
         | |- context [if ?b then _ else _] => destruct b
         end; reflexivity.
Qed.

Lemma part000_unauthorizedEntry_escalates (proc : Process) (app : App) :
  hasSuspiciousPattern proc = true ->
  unauthorized_severity (unauthorizedEntry proc app) = CRITICAL.
Proof.
  intros H; unfold unauthorizedEntry; rewrite H.
  repeat match goal with
         | |- context [if ?b then _ else _] => destruct b
         end; reflexivity.
Qed.

Lemma part000_unauthorizedEntry_critical (proc : Process) (app : App) :
  existsb (fun p =>
             JS.includes
               (JS.toLowerCase (unauthorized_cmd (unauthorizedEntry proc app)))
               (JS.toLowerCase p)) suspiciousPatterns = true ->
  unauthorized_severity (unauthorizedEntry proc app) = CRITICAL.
Proof.
  rewrite part000_unauthorizedEntry_cmd; intros H.
  apply part000_unauthorizedEntry_escalates.
  unfold hasSuspiciousPattern; unfold JS.orElse in H.
  destruct (cmd proc) as [c|];
    [|now rewrite part000_no_pattern_in_default in H].
  destruct (JS.truthy c); [exact H|].
  now rewrite part000_no_pattern_in_default in H.
Qed.

Lemma part000_scan_critical (processes : list Process) (acc : Scan) :
  Forall (fun u =>
            existsb (fun p =>
                       JS.includes (JS.toLowerCase (unauthorized_cmd u))
                         (JS.toLowerCase p)) suspiciousPatterns = true ->
            unauthorized_severity u = CRITICAL) (scan_unauthorized acc) ->
  Forall (fun u =>
            existsb (fun p =>
                       JS.includes (JS.toLowerCase (unauthorized_cmd u))
                         (JS.toLowerCase p)) suspiciousPatterns = true ->
            unauthorized_severity u = CRITICAL)
         (scan_unauthorized (fold_left scanProcess processes acc)).
Proof.
  revert acc; induction processes as [|proc processes IH]; intros acc H.
  - exact H.
  - apply IH; unfold scanProcess.
    destruct (findApp proc) as [app|].
    + assert (H' : Forall (fun u =>
                     existsb (fun p =>
                                JS.includes (JS.toLowerCase (unauthorized_cmd u))
                                  (JS.toLowerCase p)) suspiciousPatterns = true ->
                     unauthorized_severity u = CRITICAL)
                     (scan_unauthorized acc ++ [unauthorizedEntry proc app])).
      { apply Forall_app; split; [exact H|].
        constructor; [apply part000_unauthorizedEntry_critical | constructor]. }
      destruct (isBrowserName proc);
        destruct (cmd proc) as [c|];
        try destruct (JS.truthy c && hasSuspiciousPattern proc); exact H'.
    + destruct (isBrowserName proc);
        destruct (cmd proc) as [c|];
        try destruct (JS.truthy c && hasSuspiciousPattern proc); exact H.
Qed.

(** X10: in the earlier server file every process whose command line
    contains a suspicious pattern up to letter case gives one
    SUSPICIOUS_ACTIVITY violation of severity MEDIUM, whether or not the
    catalog names the process; and an unauthorized application with such a
    command line is reported CRITICAL.  A catalog process with a suspicious
    command line is so reported twice. *)
Theorem part000_suspicious_command_lines (processes : list Process)
    (netstat : outcome string) :
  let results := analyze processes netstat in
  let report := generateViolationReport results in
  map part000_suspiciousKey (suspicious results)
  = map (fun proc => (displayName proc, pid proc))
        (filter part000_patternInCmd processes)
  /\ part000_findingsOfType SUSPICIOUS_ACTIVITY report
     = map (fun _ =>
              mkViolation SUSPICIOUS_ACTIVITY MEDIUM
                (ReasonDetails "Suspicious command line pattern detected"))
           (filter part000_patternInCmd processes)
  /\ Forall (fun u =>
               existsb (fun p =>
                          JS.includes (JS.toLowerCase (unauthorized_cmd u))
                            (JS.toLowerCase p)) suspiciousPatterns = true ->
               unauthorized_severity u = CRITICAL)
            (unauthorized results).
Proof.
  cbv zeta; unfold part000_findingsOfType.
  rewrite part000_violations, !filter_app.
  rewrite (filter_map_all _ suspiciousViolation) by reflexivity.
  rewrite !filter_map_none by (apply Forall_forall; reflexivity).
  unfold analyze; cbn [suspicious unauthorized app].
  rewrite app_nil_r, part000_scan_suspicious; cbn [app scan_suspicious emptyScan].
  rewrite !map_map; split; [reflexivity|]; split; [reflexivity|].
  apply part000_scan_critical; constructor.
Qed.

End Part000Suspicious.

(** ** The server's own process, and what the browser counts count *)

Section ServerScanMore.
Import ServerMjs.

Lemma scanProcess_allowListed (isDev : bool) (acc : Scan) (proc : Process) :
  allowListed isDev proc = true -> scanProcess isDev acc proc = acc.
Proof.
  rewrite <- isServerProcess_allowListed; unfold scanProcess; now intros ->.
Qed.

Lemma scan_without_allowListed (isDev : bool) (processes : list Process)
    (acc : Scan) :
  fold_left (scanProcess isDev)
    (filter (fun proc => negb (allowListed isDev proc)) processes) acc
  = fold_left (scanProcess isDev) processes acc.
Proof.
  revert acc; induction processes as [|proc processes IH]; intros acc; simpl.
  - reflexivity.
  - destruct (allowListed isDev proc) eqn:H; simpl.
    + now rewrite IH, scanProcess_allowListed.
    + apply IH.
Qed.

(** A report reads five fields of the analysis. *)
Lemma report_reads (r1 r2 : Results) (behaviorData : option BehaviorPayload)
    (biometricData : option BiometricPayload) :
  unauthorized r1 = unauthorized r2 -> suspicious r1 = suspicious r2 ->
  networkThreats r1 = networkThreats r2 ->
  browserInstances r1 = browserInstances r2 -> riskScore r1 = riskScore r2 ->
  generateViolationReport r1 behaviorData biometricData
  = generateViolationReport r2 behaviorData biometricData.
Proof.
  intros Hu Hs Hn Hb Hr; unfold generateViolationReport, tryBlock.
  now rewrite Hu, Hs, Hn, Hb, Hr.
Qed.

(** X11: in the development configuration the server's own process is
    invisible to the whole analysis, not only to the classifier: the report
    of a snapshot is the report of the snapshot without the processes on
    the allow-list, although [processCount] still counts them. *)
Theorem own_process_invisible (isDev : bool) (processes : list Process)
    (netstat : outcome string) (behaviorData : option BehaviorPayload)
    (biometricData : option BiometricPayload) :
  let others := filter (fun proc => negb (allowListed isDev proc)) processes in
  generateViolationReport (analyze isDev processes netstat)
    behaviorData biometricData
  = generateViolationReport (analyze isDev others netstat)
      behaviorData biometricData
  /\ processCount (analyze isDev processes netstat)
     = Z.of_nat (List.length processes).
Proof.
  cbv zeta; split; [|reflexivity].
  apply report_reads; unfold analyze;
    cbn [unauthorized suspicious networkThreats browserInstances riskScore];
    rewrite ?scan_without_allowListed; reflexivity.
Qed.

Lemma countOf_bump (key k : string) (m : list (string * Z)) :
  countOf k (bumpCount key m)
  = countOf k m + (if (key =? k)%string then 1 else 0).
Proof.
  induction m as [|[k' v] m IH]; cbn [bumpCount countOf].
  - destruct (key =? k)%string; reflexivity.
  - destruct (String.eqb_spec k' key) as [->|Hne]; cbn [countOf].
    + destruct (key =? k)%string; lia.
    + destruct (String.eqb_spec k' k) as [->|Hne'].
      * destruct (String.eqb_spec key k) as [->|_]; [congruence | lia].
      * exact IH.
Qed.

Lemma string_app_assoc (a b c : string) : (a ++ b) ++ c = a ++ b ++ c.
Proof. induction a as [|x a IH]; cbn; [reflexivity | now rewrite IH]. Qed.

Lemma includes_trans (s t u : string) :
  JS.includes s t = true -> JS.includes t u = true -> JS.includes s u = true.
Proof.
  rewrite !includes_iff; intros (a & b & ->) (c & d & ->).
  exists (a ++ c), (d ++ b); now rewrite !string_app_assoc.
Qed.

Lemma isBrowserName_browserLike (proc : Process) :
  isBrowserName proc = browserLike proc.
Proof.
  unfold isBrowserName, browserLike.
  destruct (name proc) as [|a n] eqn:Hn; [reflexivity|].
  cbn [JS.truthy String.eqb negb andb].
  destruct (JS.includes (JS.toLowerCase (String a n)) "msedgewebview2") eqn:H;
    [|now rewrite orb_false_r].
  assert (H' : JS.includes (JS.toLowerCase (String a n)) "msedge" = true)
    by (apply (includes_trans _ _ _ H); reflexivity).
  rewrite H'; now rewrite !orb_true_r.
Qed.

Lemma scanProcess_counts (isDev : bool) (acc : Scan) (proc : Process) :
  browserCounts (scanProcess isDev acc proc)
  = if negb (allowListed isDev proc) && browserLike proc
    then bumpCount (JS.toLowerCase (name proc)) (browserCounts acc)
    else browserCounts acc.
Proof.
  rewrite <- isServerProcess_allowListed, <- isBrowserName_browserLike.
  unfold scanProcess.
  destruct (isServerProcess isDev proc); [reflexivity|]; cbn [negb andb].
  destruct (findApp isDev proc) as [app|];
    destruct (isBrowserName proc);
    destruct (cmd proc) as [c|]; try destruct (JS.truthy c);
    try destruct (findPattern c); reflexivity.
Qed.

Lemma scan_counts (isDev : bool) (k : string) (processes : list Process)
    (acc : Scan) :
  countOf k (browserCounts (fold_left (scanProcess isDev) processes acc))
  = countOf k (browserCounts acc)
    + Z.of_nat
        (List.length
           (filter (fun proc =>
                      negb (allowListed isDev proc) && browserLike proc
                      && (JS.toLowerCase (name proc) =? k)%string)
                   processes)).
Proof.
  revert acc; induction processes as [|proc processes IH]; intros acc.
  - cbn; lia.
  - cbn [fold_left filter]; rewrite IH, scanProcess_counts.
    destruct (negb (allowListed isDev proc) && browserLike proc);
      cbn [andb]; [|lia].
    rewrite countOf_bump.
    destruct (JS.toLowerCase (name proc) =? k)%string;
      cbn [List.length]; lia.
Qed.

(** X12: the count that the analysis keeps for a browser key is the number
    of processes of the snapshot, the allow-list aside, whose lower-cased
    name is that key and contains chrome, firefox, safari or msedge; the
    separate test for msedgewebview2 adds nothing. *)
Theorem browser_counts_count (isDev : bool) (processes : list Process)
    (k : string) :
  countOf k (browserCounts (fold_left (scanProcess isDev) processes emptyScan))
  = Z.of_nat
      (List.length
         (filter (fun proc =>
                    negb (allowListed isDev proc) && browserLike proc
                    && (JS.toLowerCase (name proc) =? k)%string)
                 processes)).
Proof. rewrite scan_counts; cbn [emptyScan browserCounts countOf]; lia. Qed.

End ServerScanMore.

(** ** The severity of a report in the earlier server file *)

Section Part000Severity.
Import Part000.

Lemma part000_addUnauthorized_severity (r : Report) (app : UnauthorizedEntry) :
  part000_level (severity r) = true ->
  severity (addUnauthorized r app)
  = sevMax (severity r) (effectiveThreat (unauthorized_severity app))
  /\ part000_level (severity (addUnauthorized r app)) = true.
Proof.
  unfold addUnauthorized, push; cbn [severity].
  destruct (severity r), (unauthorized_severity app); cbn;
    intros H; try discriminate H; split; reflexivity.
Qed.

Lemma part000_unauthorized_loop (l : list UnauthorizedEntry) (r : Report) :
  part000_level (severity r) = true ->
  severity (fold_left addUnauthorized l r)
  = sevMax (severity r)
      (maxSeverity
         (map (fun u => effectiveThreat (unauthorized_severity u)) l))
  /\ part000_level (severity (fold_left addUnauthorized l r)) = true.
Proof.
  revert r; induction l as [|u l IH]; intros r H; simpl.
  - rewrite sevMax_clean_r; split; [reflexivity | exact H].
  - destruct (part000_addUnauthorized_severity r u H) as [Hs Hinv].
    destruct (IH _ Hinv) as [IHs IHinv].
    split; [|exact IHinv].
    now rewrite IHs, Hs, sevMax_assoc.
Qed.

Lemma part000_threat_loop (l : list string) (r : Report) :
  part000_level (severity r) = true ->
  severity (fold_left addThreat l r)
  = sevMax (severity r) (maxSeverity (map (fun _ => HIGH) l)).
Proof.
  revert r; induction l as [|d l IH]; intros r H; simpl.
  - now rewrite sevMax_clean_r.
  - rewrite IH; unfold addThreat, push; cbn [severity];
      destruct (severity r); try discriminate H;
      destruct (maxSeverity _); reflexivity.
Qed.

(** X13: in the earlier server file the severity of a report is CRITICAL
    when an unauthorized application is CRITICAL, otherwise HIGH when an
    unauthorized application is HIGH or a network threat was found, and
    CLEAN otherwise: MEDIUM and LOW applications, suspicious command lines
    and browser findings are listed and tallied but never move the
    severity, so a report with such findings alone is answered clear. *)
Theorem part000_report_severity (results : Results) :
  severity (generateViolationReport results)
  = maxSeverity
      (map (fun u => effectiveThreat (unauthorized_severity u))
           (unauthorized results)
       ++ map (fun _ => HIGH) (networkThreats results))
  /\ (severity (generateViolationReport results) = CLEAN
      \/ severity (generateViolationReport results) = HIGH
      \/ severity (generateViolationReport results) = CRITICAL).
Proof.
  assert (Heq : severity (generateViolationReport results)
    = maxSeverity
        (map (fun u => effectiveThreat (unauthorized_severity u))
             (unauthorized results)
         ++ map (fun _ => HIGH) (networkThreats results))).
  { unfold generateViolationReport.
    rewrite (fold_left_preserves severity addBrowser) by reflexivity.
    set (r1 := fold_left addUnauthorized _ _).
    set (r2 := fold_left addSuspicious _ r1).
    destruct (part000_unauthorized_loop (unauthorized results)
                (mkReport CLEAN [] emptySummary) eq_refl) as [H1 Hinv].
    fold r1 in H1, Hinv.
    assert (H2 : severity r2 = severity r1)
      by (subst r2; now rewrite (fold_left_preserves severity addSuspicious)).
    rewrite part000_threat_loop by now rewrite H2.
    rewrite H2, H1, maxSeverity_app; cbn [severity].
    now destruct (maxSeverity _). }
  split; [exact Heq|].
  rewrite Heq.
  destruct (maxSeverity_in
              (map (fun u => effectiveThreat (unauthorized_severity u))
                   (unauthorized results)
               ++ map (fun _ => HIGH) (networkThreats results))) as [H|H];
    [left; exact H|].
  apply in_app_or in H as [H|H]; apply in_map_iff in H as (x & Hx & _).
  - rewrite <- Hx; destruct (unauthorized_severity x); cbn; tauto.
  - rewrite <- Hx; tauto.
Qed.

End Part000Severity.

(** ** The two analyzers in closed form *)

Section AnalyzersClosed.
Import ServerMjs.

(** The keystroke rate exceeds 100 exactly above 500 keystrokes. *)
Lemma keystroke_rate_threshold (k : Z) :
  Qgtb (inject_Z k / 5) 100 = (500 <? k).
Proof.
  unfold Qgtb, Qcompare, Qdiv, Qmult, Qinv, inject_Z; cbn [Qnum Qden].
  destruct (Z.ltb_spec 500 k) as [H|H];
    destruct (Z.compare_spec (k * 1 * 1) (100 * Z.pos (1 * 5))) as [E|E|E];
    (reflexivity || lia).
Qed.

(** X14: the behavioural risk score is twice the tab switches above 5
    switches, plus three times the right clicks above 3 clicks, plus 10
    above a minute of idle time, plus 15 above 500 keystrokes in the
    interval; the anomalies are those of the rules that fired, in this
    order; and the score is 0 exactly when there is no anomaly. *)
Theorem behavior_analysis_closed (b : BehaviorData) :
  let analysis := analyzeBehaviorMetrics (Some b) in
  behavior_riskScore analysis
  = (if 5 <? tabSwitches b then tabSwitches b * 2 else 0)
    + (if 3 <? rightClicks b then rightClicks b * 3 else 0)
    + (if 60000 <? idleTime b then 10 else 0)
    + (if 500 <? keystrokes b then 15 else 0)
  /\ map anomaly_type (behavior_anomalies analysis)
     = ((if 5 <? tabSwitches b then [EXCESSIVE_TAB_SWITCHING] else [])
        ++ (if 3 <? rightClicks b then [EXCESSIVE_RIGHT_CLICKS] else [])
        ++ (if 60000 <? idleTime b then [EXTENDED_IDLE_TIME] else [])
        ++ (if 500 <? keystrokes b then [UNUSUAL_KEYSTROKE_PATTERN] else []))%list
  /\ (behavior_riskScore analysis = 0 <-> behavior_anomalies analysis = []).
Proof.
  cbv zeta; unfold analyzeBehaviorMetrics.
  rewrite keystroke_rate_threshold, !Z.gtb_ltb.
  destruct (Z.ltb_spec 5 (tabSwitches b)) as [Ht|Ht];
    destruct (Z.ltb_spec 3 (rightClicks b)) as [Hr|Hr];
    destruct (Z.ltb_spec 60000 (idleTime b)) as [Hi|Hi];
    destruct (Z.ltb_spec 500 (keystrokes b)) as [Hk|Hk];
    cbn -[Z.add Z.mul Z.ltb];
    repeat match goal with
           | |- context [if ?c then _ else _] =>
               destruct c; cbn -[Z.add Z.mul Z.ltb]
           end;
    (split; [lia|]); (split; [reflexivity|]);
    (split; intros H; [try lia; try reflexivity | try discriminate H; try lia]).
Qed.

(** X15: the biometric risk score is 30 without a face plus 20 below an
    attention score of 70, so it never exceeds 50; below 70 the one
    attention anomaly is LOW_ATTENTION_SCORE with severity MEDIUM and the
    attention level is LOW, from 70 on there is none and the level is
    NORMAL; the level CRITICAL is never returned. *)
Theorem biometric_analysis_closed (b : BiometricData) :
  let analysis := analyzeBiometricData (Some b) in
  biometric_riskScore analysis
  = (if faceDetected b then 0 else 30)
    + (if attentionScore b <? 70 then 20 else 0)
  /\ 0 <= biometric_riskScore analysis <= 50
  /\ map (fun a => (anomaly_type a, anomaly_severity a))
         (biometric_anomalies analysis)
     = ((if faceDetected b then [] else [(FACE_NOT_DETECTED, HIGH)])
        ++ (if attentionScore b <? 70 then [(LOW_ATTENTION_SCORE, MEDIUM)]
            else []))%list
  /\ attentionLevel analysis
     = (if attentionScore b <? 70 then ATTENTION_LOW else ATTENTION_NORMAL).
Proof.
  cbv zeta; unfold analyzeBiometricData.
  destruct (Z.ltb_spec (attentionScore b) 70) as [H70|H70].
  - destruct (faceDetected b); cbn; repeat split; lia.
  - assert (H50 : (attentionScore b <? 50) = false) by (apply Z.ltb_ge; lia).
    rewrite H50; destruct (faceDetected b); cbn; repeat split; lia.
Qed.

End AnalyzersClosed.

(** * Properties of the remaining endpoints of [app/server.mjs] *)

(** ** Terminating processes *)

Section Termination.
Import ServerMjs ServerSessions.

Lemma terminate_loop (requests : list (Z * outcome string))
    (results : Termination) :
  fold_left terminateOne requests results
  = mkTermination (terminated results ++ killed requests)
      (failed results ++ survived requests).
Proof.
  revert results; induction requests as [|[p [out|message]] requests IH];
    intros results.
  - cbn; rewrite !app_nil_r; now destruct results.
  - cbn [fold_left]; rewrite IH; cbn; now rewrite <- app_assoc.
  - cbn [fold_left]; rewrite IH; cbn; now rewrite <- app_assoc.
Qed.

Lemma killed_survived_length (requests : list (Z * outcome string)) :
  (List.length (killed requests) + List.length (survived requests))%nat
  = List.length requests.
Proof.
  unfold killed, survived.
  induction requests as [|[p [out|message]] requests IH];
    cbn [flat_map snd fst app List.length]; lia.
Qed.

(** X16: a termination request answers every process id of the request, in
    the order of the request: [terminated] lists the ids whose kill command
    returned and [failed] those whose kill command threw, with the message;
    a failure for one id never aborts the batch, and the two counts of the
    answer add up to the number of ids.  A body without a process-id array
    is refused with code 400. *)
Theorem termination_partitions (requests : list (Z * outcome string)) :
  terminateProcesses (Some requests)
  = TerminationDone (mkTermination (killed requests) (survived requests))
      (Z.of_nat (List.length (killed requests)))
      (Z.of_nat (List.length (survived requests)))
  /\ Z.of_nat (List.length (killed requests))
     + Z.of_nat (List.length (survived requests))
     = Z.of_nat (List.length requests)
  /\ (forall p,
        In p (map fst requests)
        <-> In p (killed requests) \/ In p (map fst (survived requests)))
  /\ terminateProcesses None
     = TerminationRefused 400 "Process IDs array is required".
Proof.
  split; [|split; [|split; [|reflexivity]]].
  - unfold terminateProcesses; now rewrite terminate_loop.
  - pose proof (killed_survived_length requests); lia.
  - intros p; induction requests as [|[q [out|message]] requests IH]; cbn.
    + tauto.
    + cbn in IH; tauto.
    + cbn in IH; tauto.
Qed.

End Termination.

(** ** Process details and the classifier *)

Section ProcessDetails.
Import ServerMjs ServerSessions.

Lemma toLowerCase_app (s t : string) :
  JS.toLowerCase (s ++ t) = (JS.toLowerCase s ++ JS.toLowerCase t)%string.
Proof. induction s as [|c s IH]; cbn; [reflexivity | now rewrite IH]. Qed.

(** The analysis of the process-details endpoint against the entry that
    the classifier builds for the same process. *)
Lemma analyzeOne_entry (isDev : bool) (proc : Process)
    (app : App) :
  findApp isDev proc = Some app ->
  patternInCmd proc = true \/ cmdIncludes proc ".asar" = false ->
  riskLevel (analyzeOne isDev proc)
  = unauthorized_severity (unauthorizedEntry proc app)
  /\ analysis_category (analyzeOne isDev proc)
     = categoryName (unauthorized_category (unauthorizedEntry proc app)).
Proof.
  intros Happ Hcond; rewrite unauthorizedEntry_category.
  unfold analyzeOne, unauthorizedEntry; rewrite Happ.
  unfold patternInCmd in Hcond.
  destruct (cmd proc) as [c|] eqn:Hcmd.
  - destruct (JS.truthy c) eqn:Hc.
    + rewrite <- findPattern_existsb in Hcond.
      destruct (findPattern c) as [p|] eqn:Hp.
      * repeat match goal with
               | |- context [if ?b then _ else _] => destruct b
               end; split; reflexivity.
      * destruct Hcond as [Hcond|Hasar]; [discriminate Hcond|].
        rewrite Hasar.
        assert (Hmain : cmdIncludes proc "main.js" = false).
        { unfold cmdIncludes; rewrite Hcmd, Hc; cbn [andb].
          destruct (JS.includes c "main.js") eqn:Hm; [|reflexivity].
          exfalso.
          unfold findPattern, suspiciousPatterns in Hp; cbn [find pattern] in Hp.
          change (JS.toLowerCase "main.js") with "main.js" in Hp.
          assert (Hl : JS.includes (JS.toLowerCase c) "main.js" = true).
          { apply includes_iff; apply includes_iff in Hm.
            destruct Hm as (pre & post & ->).
            exists (JS.toLowerCase pre), (JS.toLowerCase post).
            now rewrite !toLowerCase_app. }
          rewrite Hl in Hp; discriminate Hp. }
        rewrite Hmain.
        repeat match goal with
               | |- context [if ?b then _ else _] => destruct b
               end; split; reflexivity.
    + destruct c; [|discriminate Hc].
      assert (H1 : cmdIncludes proc "main.js" = false)
        by (unfold cmdIncludes; now rewrite Hcmd).
      assert (H2 : cmdIncludes proc ".asar" = false)
        by (unfold cmdIncludes; now rewrite Hcmd).
      rewrite H1, H2.
      repeat match goal with
             | |- context [if ?b then _ else _] => destruct b
             end; split; reflexivity.
  - assert (H1 : cmdIncludes proc "main.js" = false)
      by (unfold cmdIncludes; now rewrite Hcmd).
    assert (H2 : cmdIncludes proc ".asar" = false)
      by (unfold cmdIncludes; now rewrite Hcmd).
    rewrite H1, H2.
    repeat match goal with
           | |- context [if ?b then _ else _] => destruct b
           end; split; reflexivity.
Qed.

(** The unauthorized entries of a scan, process by process. *)
Lemma scanProcess_entries (isDev : bool) (acc : Scan) (proc : Process) :
  scan_unauthorized (scanProcess isDev acc proc)
  = (scan_unauthorized acc
     ++ if isServerProcess isDev proc then []
        else match findApp isDev proc with
             | Some app => [unauthorizedEntry proc app]
             | None => []
             end)%list.
Proof.
  unfold scanProcess.
  destruct (isServerProcess isDev proc); [now rewrite app_nil_r|].
  destruct (findApp isDev proc) as [app|];
    destruct (isBrowserName proc);
    destruct (cmd proc) as [c|]; try destruct (JS.truthy c);
    try destruct (findPattern c);
    cbn [scan_unauthorized]; now rewrite ?app_nil_r.
Qed.

Lemma scan_entries (isDev : bool) (processes : list Process) (acc : Scan) :
  scan_unauthorized (fold_left (scanProcess isDev) processes acc)
  = (scan_unauthorized acc
     ++ flat_map (fun proc =>
                    if isServerProcess isDev proc then []
                    else match findApp isDev proc with
                         | Some app => [unauthorizedEntry proc app]
                         | None => []
                         end) processes)%list.
Proof.
  revert acc; induction processes as [|proc processes IH]; intros acc;
    cbn [fold_left flat_map].
  - now rewrite app_nil_r.
  - now rewrite IH, scanProcess_entries, <- app_assoc.
Qed.

(** X17: the unauthorized applications that the classifier reports for a
    snapshot are, one for one and in order, the processes of the snapshot
    that the catalog names and the allow-list does not hold, and each is
    reported with the severity and the category that the analysis of the
    process-details endpoint gives the same process, provided that every
    process of the snapshot has a suspicious pattern in its command line or
    no .asar marker.  (A packed electron application without a pattern is
    HIGH for the classifier and CRITICAL in its details; and the details
    analysis has no allow-list, so it calls the server's own process LOW
    where the classifier reports nothing.) *)
Theorem details_agree_with_classifier (isDev : bool)
    (processes : list Process) (netstat : outcome string) :
  Forall (fun proc =>
            patternInCmd proc = true \/ cmdIncludes proc ".asar" = false)
         processes ->
  map (fun u =>
         (entryKey u, unauthorized_severity u,
          categoryName (unauthorized_category u)))
      (unauthorized (analyze isDev processes netstat))
  = map (fun proc =>
           (processKey proc, riskLevel (analyzeOne isDev proc),
            analysis_category (analyzeOne isDev proc)))
        (filter (flagged isDev) processes).
Proof.
  intros Hall; unfold analyze; cbn [unauthorized].
  rewrite scan_entries; cbn [scan_unauthorized emptyScan List.app].
  induction Hall as [|proc processes Hproc _ IH]; [reflexivity|].
  cbn [flat_map filter]; rewrite map_app, IH.
  unfold flagged at 2.
  rewrite <- findApp_named, <- isServerProcess_allowListed.
  destruct (isServerProcess isDev proc);
    [now rewrite andb_false_r|].
  rewrite andb_true_r.
  destruct (findApp isDev proc) as [app|] eqn:Happ; [|reflexivity].
  cbn [isSome map List.app]; f_equal.
  destruct (analyzeOne_entry isDev proc app Happ Hproc) as [-> ->].
  destruct (unauthorizedEntry_key proc app (findApp_truthy _ _ _ Happ))
    as [Hn Hp].
  unfold entryKey, processKey; now rewrite Hn, Hp.
Qed.

End ProcessDetails.

Section ProcessDetailsExamples.
Import ServerMjs ServerSessions.

Lemma details_agree_with_classifier_witness :
  map (fun u =>
         (entryKey u, unauthorized_severity u,
          categoryName (unauthorized_category u)))
      (unauthorized (analyze false electronMain noConnections))
  = [(("electron.exe", 4242), CRITICAL, "cheating")]
  /\ map (fun proc =>
            (processKey proc, riskLevel (analyzeOne false proc),
             analysis_category (analyzeOne false proc)))
         (filter (flagged false) electronMain)
     = [(("electron.exe", 4242), CRITICAL, "cheating")].
Proof.
  assert (Hall : Forall (fun proc =>
                           patternInCmd proc = true
                           \/ cmdIncludes proc ".asar" = false)
                        electronMain)
    by (repeat constructor; left; vm_compute; reflexivity).
  pose proof (details_agree_with_classifier false electronMain noConnections
                Hall) as H.
  split.
  - vm_compute; reflexivity.
  - rewrite <- H; vm_compute; reflexivity.
Defined.

(** The first exception is met: a packed electron application is HIGH in
    the analysis and CRITICAL in its process details. *)
Example packed_electron_disagrees :
  let proc := mkProcess 4242 "electron.exe" (Some "electron.exe app.asar") 1 in
  map unauthorized_severity (unauthorized (analyze false [proc] noConnections))
  = [HIGH]
  /\ riskLevel (analyzeOne false proc) = CRITICAL.
Proof. vm_compute; split; reflexivity. Qed.

(** The second exception is met: in the development configuration the
    analysis skips the server's own process, and its process details call
    it a LOW development tool that one may consider terminating. *)
Example own_process_has_details :
  let proc := mkProcess 900 "node" (Some "node server.mjs") 1 in
  unauthorized (analyze true [proc] noConnections) = []
  /\ analyzeOne true proc
     = mkProcessAnalysis LOW "development" ["Consider terminating this process"].
Proof. vm_compute; split; reflexivity. Qed.

End ProcessDetailsExamples.

(** ** Reading the audit log *)

Section AuditLogs.
Import ServerSessions.

Lemma filter_filter {A : Type} (f g : A -> bool) (l : list A) :
  filter g (filter f l) = filter (fun x => f x && g x) l.
Proof.
  induction l as [|x l IH]; cbn; [reflexivity|].
  destruct (f x); cbn; [destruct (g x)|]; now rewrite IH.
Qed.

Lemma filter_true {A : Type} (l : list A) : filter (fun _ => true) l = l.
Proof. induction l as [|x l IH]; cbn; [reflexivity | now rewrite IH]. Qed.

Lemma audit_logs_filtered (content : string) (type sessionId : option string)
    (limit : option Z) :
  getAuditLogs (Some (Returned content)) type sessionId limit
  = let logs :=
      filter (logMatches type sessionId)
             (sliceFrom (option_map Z.opp limit) (logLines content)) in
    Logs logs (Some (Z.of_nat (List.length logs))).
Proof.
  unfold getAuditLogs; fold (logLines content).
  set (window := sliceFrom _ _).
  assert (H :
    match type with
    | Some t =>
        if JS.truthy t
        then filter (fun log => JS.includes (JS.toLowerCase log) (JS.toLowerCase t))
               match sessionId with
               | Some id =>
                   if JS.truthy id then filter (fun log => JS.includes log id) window
                   else window
               | None => window
               end
        else match sessionId with
             | Some id =>
                 if JS.truthy id then filter (fun log => JS.includes log id) window
                 else window
             | None => window
             end
    | None => match sessionId with
              | Some id =>
                  if JS.truthy id then filter (fun log => JS.includes log id) window
                  else window
              | None => window
              end
    end = filter (logMatches type sessionId) window).
  { unfold logMatches.
    destruct sessionId as [id|]; [destruct (JS.truthy id)|];
      (destruct type as [t|]; [destruct (JS.truthy t)|]);
      rewrite ?filter_filter; cbn [andb];
      try reflexivity;
      try (apply filter_ext; intros log; now rewrite ?andb_true_r);
      symmetry; apply filter_true. }
  cbv zeta; now rewrite H.
Qed.

Lemma sliceFrom_last {A : Type} (n : Z) (l : list A) :
  0 < n -> sliceFrom (Some (- n)) l = lastn (Z.to_nat n) l.
Proof.
  intros Hn; unfold sliceFrom, lastn; cbv zeta.
  destruct (Z.ltb_spec (- n) 0) as [_|H]; [|lia].
  f_equal; lia.
Qed.

Lemma sliceFrom_all {A : Type} (l : list A) :
  sliceFrom (Some (- 0)) l = l /\ sliceFrom None l = l.
Proof.
  unfold sliceFrom; cbn [Z.opp Z.ltb Z.compare]; cbv zeta.
  rewrite Z.min_l by lia; split; reflexivity.
Qed.

Lemma sliceFrom_drop {A : Type} (n : Z) (l : list A) :
  n < 0 -> sliceFrom (Some (- n)) l = skipn (Z.to_nat (- n)) l.
Proof.
  intros Hn; unfold sliceFrom; cbv zeta.
  destruct (Z.ltb_spec (- n) 0) as [H|_]; [lia|].
  destruct (Z.le_gt_cases (- n) (Z.of_nat (List.length l))) as [H|H].
  - now rewrite Z.min_l.
  - rewrite Z.min_r by lia; rewrite !skipn_all2; [reflexivity | lia | lia].
Qed.

(** X18: the audit-log endpoint applies the limit before the two filters:
    for a positive limit n it returns, in file order, the lines among the
    last n non-blank lines of the file that pass the filters, so at most n
    lines and possibly none although earlier lines match; for the limit 0
    or a limit that is not a number it returns every matching line; for a
    negative limit n it drops the first |n| non-blank lines instead.
    [totalLogs] is the number of lines returned, not of lines in the file. *)
Theorem audit_log_window (content : string) (type sessionId : option string) :
  (forall n, 0 < n ->
     let logs := filter (logMatches type sessionId)
                        (lastn (Z.to_nat n) (logLines content)) in
     getAuditLogs (Some (Returned content)) type sessionId (Some n)
     = Logs logs (Some (Z.of_nat (List.length logs)))
     /\ Z.of_nat (List.length logs) <= n)
  /\ (forall limit, limit = Some 0 \/ limit = None ->
        let logs := filter (logMatches type sessionId) (logLines content) in
        getAuditLogs (Some (Returned content)) type sessionId limit
        = Logs logs (Some (Z.of_nat (List.length logs))))
  /\ (forall n, n < 0 ->
        let logs := filter (logMatches type sessionId)
                           (skipn (Z.to_nat (- n)) (logLines content)) in
        getAuditLogs (Some (Returned content)) type sessionId (Some n)
        = Logs logs (Some (Z.of_nat (List.length logs)))).
Proof.
  split; [|split].
  - intros n Hn logs; split.
    + rewrite audit_logs_filtered; cbn [option_map]; cbv zeta.
      now rewrite sliceFrom_last.
    + subst logs.
      pose proof (filter_length_le (logMatches type sessionId)
                    (lastn (Z.to_nat n) (logLines content))) as H.
      unfold lastn in H |- *; rewrite length_skipn in H; lia.
  - intros limit [->| ->] logs; rewrite audit_logs_filtered; cbn [option_map];
      cbv zeta.
    + now rewrite (proj1 (sliceFrom_all _)).
    + now rewrite (proj2 (sliceFrom_all _)).
  - intros n Hn logs; rewrite audit_logs_filtered; cbn [option_map]; cbv zeta.
    now rewrite sliceFrom_drop.
Qed.

(** With the limit 2 a matching line outside the last two lines is not
    returned, and the answer counts no line. *)
Example audit_log_limit_hides_match :
  getAuditLogs (Some (Returned "[ERROR] first
[INFO] second
[INFO] third
")) (Some "error") None (Some 2)
  = Logs [] (Some 0).
Proof. vm_compute; reflexivity. Qed.

End AuditLogs.

(** ** Sessions and their violation histories *)

Section Sessions.
Import ServerMjs ServerSessions.
Local Open Scope list_scope.

(** The map operations. *)

Lemma get_set_same {V : Type} (m : JSMap.t V) (k : string) (v : V) :
  JSMap.get (JSMap.set m k v) k = Some v.
Proof.
  induction m as [|[k' v'] m IH]; cbn.
  - now rewrite String.eqb_refl.
  - destruct (k' =? k)%string eqn:E; cbn; rewrite E; [reflexivity | exact IH].
Qed.

Lemma get_set_other {V : Type} (m : JSMap.t V) (k k' : string) (v : V) :
  k <> k' -> JSMap.get (JSMap.set m k v) k' = JSMap.get m k'.
Proof.
  intros H; induction m as [|[k0 v0] m IH]; cbn.
  - destruct (String.eqb_spec k k'); [contradiction | reflexivity].
  - destruct (String.eqb_spec k0 k) as [->|Hk]; cbn.
    + destruct (String.eqb_spec k k'); [contradiction | reflexivity].
    + destruct (k0 =? k')%string; [reflexivity | exact IH].
Qed.

Lemma has_set {V : Type} (m : JSMap.t V) (k k' : string) (v : V) :
  JSMap.has (JSMap.set m k v) k' = (k =? k')%string || JSMap.has m k'.
Proof.
  unfold JSMap.has; destruct (String.eqb_spec k k') as [->|H]; cbn [orb].
  - now rewrite get_set_same.
  - now rewrite get_set_other.
Qed.

Lemma values_set_fresh {V : Type} (m : JSMap.t V) (k : string) (v : V) :
  JSMap.get m k = None ->
  JSMap.values (JSMap.set m k v) = (JSMap.values m ++ [v])%list.
Proof.
  unfold JSMap.values; induction m as [|[k0 v0] m IH]; cbn; intros H.
  - reflexivity.
  - destruct (k0 =? k)%string; [discriminate H|].
    cbn; f_equal; apply IH, H.
Qed.

Lemma get_In {V : Type} (m : JSMap.t V) (k : string) (v : V) :
  JSMap.get m k = Some v -> In (k, v) m.
Proof.
  induction m as [|[k0 v0] m IH]; cbn; [discriminate|].
  destruct (String.eqb_spec k0 k) as [->|H]; intros Hget.
  - left; congruence.
  - right; apply IH, Hget.
Qed.

Lemma get_value {V : Type} (m : JSMap.t V) (k : string) (v : V) :
  JSMap.get m k = Some v -> In v (JSMap.values m).
Proof.
  intros H; apply get_In in H; unfold JSMap.values.
  apply in_map_iff; exists (k, v); split; [reflexivity | exact H].
Qed.

Lemma values_injective {V : Type} (m : JSMap.t V) (a b : string) (r : V) :
  NoDup (JSMap.values m) -> In (a, r) m -> In (b, r) m -> a = b.
Proof.
  unfold JSMap.values; induction m as [|[k v] m IH]; cbn; intros Hnd Ha Hb.
  - contradiction.
  - inversion Hnd as [|x l Hnotin Hnd']; subst.
    destruct Ha as [Ha|Ha], Hb as [Hb|Hb].
    + congruence.
    + injection Ha as -> ->; exfalso; apply Hnotin.
      apply in_map_iff; exists (b, r); split; [reflexivity | exact Hb].
    + injection Hb as -> ->; exfalso; apply Hnotin.
      apply in_map_iff; exists (a, r); split; [reflexivity | exact Ha].
    + now apply IH.
Qed.

(** The heap operations. *)

Lemma length_pushAt (h : Heap) (ref : nat) (x : HistoryRecord) :
  List.length (pushAt h ref x) = List.length h.
Proof.
  revert ref; induction h as [|a h IH]; intros [|n]; cbn; try reflexivity.
  now rewrite IH.
Qed.

Lemma deref_pushAt_same (h : Heap) (ref : nat) (x : HistoryRecord) :
  (ref < List.length h)%nat ->
  deref (pushAt h ref x) ref = (deref h ref ++ [x])%list.
Proof.
  unfold deref; revert ref; induction h as [|a h IH]; intros [|n] H; cbn in *;
    try lia; [reflexivity|].
  apply IH; lia.
Qed.

Lemma deref_pushAt_other (h : Heap) (ref ref' : nat) (x : HistoryRecord) :
  ref <> ref' -> deref (pushAt h ref x) ref' = deref h ref'.
Proof.
  unfold deref; revert ref ref'; induction h as [|a h IH]; intros [|n] [|n'] H;
    cbn; try reflexivity; try congruence.
  apply IH; congruence.
Qed.

Lemma deref_alloc_old (h : Heap) (a : list HistoryRecord) (ref : nat) :
  (ref < List.length h)%nat -> deref (h ++ [a]) ref = deref h ref.
Proof. intros H; unfold deref; now apply app_nth1. Qed.

Lemma deref_alloc_new (h : Heap) (a : list HistoryRecord) :
  deref (h ++ [a]) (List.length h) = a.
Proof.
  unfold deref; rewrite app_nth2 by lia; now rewrite Nat.sub_diag.
Qed.

(** Sums over the registered arrays. *)

Lemma sumOver_app (f : list HistoryRecord -> Z) (h : Heap)
    (refs refs' : list nat) :
  sumOver f h (refs ++ refs') = sumOver f h refs + sumOver f h refs'.
Proof.
  unfold sumOver; induction refs as [|r refs IH]; cbn -[Z.add];
    [reflexivity | rewrite IH; lia].
Qed.

Lemma sumOver_pushAt_out (f : list HistoryRecord -> Z) (h : Heap)
    (refs : list nat) (ref : nat) (x : HistoryRecord) :
  ~ In ref refs -> sumOver f (pushAt h ref x) refs = sumOver f h refs.
Proof.
  unfold sumOver; induction refs as [|r refs IH]; cbn -[Z.add]; intros H.
  - reflexivity.
  - rewrite deref_pushAt_other by (intros ->; apply H; now left).
    rewrite IH by (intros Hin; apply H; now right); reflexivity.
Qed.

Lemma sumOver_pushAt_in (f : list HistoryRecord -> Z)
    (g : HistoryRecord -> Z) (h : Heap) (refs : list nat) (ref : nat)
    (x : HistoryRecord) :
  additive f g -> NoDup refs -> In ref refs -> (ref < List.length h)%nat ->
  sumOver f (pushAt h ref x) refs = sumOver f h refs + g x.
Proof.
  intros [_ Hadd] Hnd Hin Hlt; induction refs as [|r refs IH].
  - contradiction.
  - inversion Hnd as [|y l Hnotin Hnd']; subst.
    destruct (Nat.eq_dec r ref) as [->|Hne].
    + change (sumOver f (pushAt h ref x) (ref :: refs))
        with (f (deref (pushAt h ref x) ref) + sumOver f (pushAt h ref x) refs).
      rewrite deref_pushAt_same, Hadd, sumOver_pushAt_out by assumption.
      change (sumOver f h (ref :: refs))
        with (f (deref h ref) + sumOver f h refs); lia.
    + destruct Hin as [Hin|Hin]; [contradiction|].
      change (sumOver f (pushAt h ref x) (r :: refs))
        with (f (deref (pushAt h ref x) r) + sumOver f (pushAt h ref x) refs).
      rewrite deref_pushAt_other by congruence.
      rewrite IH by assumption.
      change (sumOver f h (r :: refs)) with (f (deref h r) + sumOver f h refs).
      lia.
Qed.

Lemma sumOver_alloc (f : list HistoryRecord -> Z) (h : Heap)
    (a : list HistoryRecord) (refs : list nat) :
  Forall (fun ref => (ref < List.length h)%nat) refs ->
  sumOver f (h ++ [a]) refs = sumOver f h refs.
Proof.
  unfold sumOver; induction 1 as [|r refs Hr _ IH]; cbn -[Z.add].
  - reflexivity.
  - now rewrite deref_alloc_old, IH.
Qed.

(** Registered arrays of a consistent state. *)

Lemma registered_in_heap (st : State) (id : string) (ref : nat) :
  consistent st -> JSMap.get (sessionViolations st) id = Some ref ->
  (ref < List.length (heap st))%nat.
Proof.
  intros (_ & Hlt & _) Hget.
  rewrite Forall_forall in Hlt; apply Hlt; eapply get_value, Hget.
Qed.

Lemma registered_once (st : State) (id1 id2 : string) (ref : nat) :
  consistent st ->
  JSMap.get (sessionViolations st) id1 = Some ref ->
  JSMap.get (sessionViolations st) id2 = Some ref -> id1 = id2.
Proof.
  intros (Hnd & _) H1 H2.
  eapply values_injective; [exact Hnd | apply get_In, H1 | apply get_In, H2].
Qed.

Lemma consistent_initial : consistent initialState.
Proof.
  split; [constructor | split; [constructor|]].
  intros id session _ H; discriminate H.
Qed.

(** Storing a session object whose history is the registered array. *)
Lemma consistent_update (st : State) (id : string) (s : Session) :
  consistent st ->
  (JS.truthy id = true ->
   JSMap.get (sessionViolations st) id = Some (violationHistory s)) ->
  consistent
    (mkState (heap st) (JSMap.set (activeSessions st) id s)
       (sessionViolations st)).
Proof.
  intros (Hnd & Hlt & Hs) Hid; split; [exact Hnd | split; [exact Hlt|]].
  cbn [activeSessions sessionViolations]; intros id' s' Ht Hget.
  destruct (String.eqb_spec id id') as [->|Hne].
  - rewrite get_set_same in Hget; injection Hget as <-; now apply Hid.
  - rewrite get_set_other in Hget by assumption; now apply Hs.
Qed.

(** A new array leaves the registered ones as they are. *)
Lemma consistent_alloc (st : State) (a : list HistoryRecord) :
  consistent st ->
  consistent
    (mkState (heap st ++ [a]) (activeSessions st) (sessionViolations st)).
Proof.
  intros (Hnd & Hlt & Hs); split; [exact Hnd | split; [|exact Hs]].
  cbn [heap sessionViolations]; rewrite length_app; cbn.
  eapply Forall_impl; [|exact Hlt]; cbn; intros; lia.
Qed.

Lemma history_alloc (st : State) (a : list HistoryRecord) (id : string) :
  consistent st ->
  history (mkState (heap st ++ [a]) (activeSessions st) (sessionViolations st))
          id
  = history st id.
Proof.
  intros Hc; unfold history; cbn [heap sessionViolations].
  destruct (JSMap.get (sessionViolations st) id) as [ref|] eqn:Hget;
    [|reflexivity].
  apply deref_alloc_old; eapply registered_in_heap; eassumption.
Qed.

Lemma summed_alloc (f : list HistoryRecord -> Z) (st : State)
    (a : list HistoryRecord) :
  consistent st ->
  summed f (mkState (heap st ++ [a]) (activeSessions st) (sessionViolations st))
  = summed f st.
Proof.
  intros (_ & Hlt & _); unfold summed; cbn [heap sessionViolations].
  now apply sumOver_alloc.
Qed.

Lemma trackSession_active (st : State) (sessionId : option string)
    (report : Report) :
  activeSessions (trackSession st sessionId report) = activeSessions st.
Proof.
  unfold trackSession; destruct (JS.truthyOpt sessionId); [|reflexivity].
  unfold JSMap.has.
  destruct (JSMap.get (sessionViolations st) (JS.orElse sessionId ""))
    as [ref|] eqn:Hget; cbn [negb alloc].
  - rewrite Hget; reflexivity.
  - cbn [sessionViolations]; rewrite get_set_same; reflexivity.
Qed.

Lemma trackSession_falsy (st : State) (id : string) (report : Report) :
  JS.truthy id = false -> trackSession st (Some id) report = st.
Proof. intros H; unfold trackSession; cbn [JS.truthyOpt]; now rewrite H. Qed.

(** The session tracking of a report, for a non-empty session id. *)
Lemma trackSession_spec (st : State) (id : string) (report : Report) :
  consistent st -> JS.truthy id = true ->
  consistent (trackSession st (Some id) report)
  /\ (exists ref,
        JSMap.get (sessionViolations (trackSession st (Some id) report)) id
        = Some ref)
  /\ (forall id',
        history (trackSession st (Some id) report) id'
        = (history st id'
           ++ if (id =? id')%string then [recordOf report] else [])%list)
  /\ (forall f g,
        additive f g ->
        summed f (trackSession st (Some id) report)
        = summed f st + g (recordOf report)).
Proof.
  intros Hc Ht; pose proof Hc as (Hnd & Hlt & Hs).
  unfold trackSession; cbn [JS.truthyOpt JS.orElse]; rewrite Ht.
  unfold JSMap.has.
  destruct (JSMap.get (sessionViolations st) id) as [ref|] eqn:Hget;
    cbn [negb alloc].
  - rewrite Hget; fold (recordOf report).
    assert (Hin : (ref < List.length (heap st))%nat)
      by (eapply registered_in_heap; eassumption).
    split; [|split; [|split]].
    + split; [exact Hnd | split; [|exact Hs]].
      cbn [heap sessionViolations]; now rewrite length_pushAt.
    + exists ref; exact Hget.
    + intros id'; unfold history; cbn [heap sessionViolations].
      destruct (String.eqb_spec id id') as [<-|Hne].
      * rewrite Hget; now apply deref_pushAt_same.
      * destruct (JSMap.get (sessionViolations st) id') as [ref'|] eqn:Hget';
          [|reflexivity].
        rewrite app_nil_r; apply deref_pushAt_other; intros ->.
        apply Hne; eapply registered_once; eassumption.
    + intros f g Hadd; unfold summed; cbn [heap sessionViolations].
      apply sumOver_pushAt_in; try assumption.
      eapply get_value, Hget.
  - cbn [sessionViolations heap activeSessions]; rewrite get_set_same.
    fold (recordOf report).
    assert (Hfresh : ~ In (List.length (heap st))
                          (JSMap.values (sessionViolations st))).
    { intros Hin; rewrite Forall_forall in Hlt; apply Hlt in Hin; lia. }
    split; [|split; [|split]].
    + split; [|split]; cbn [heap sessionViolations activeSessions].
      * rewrite values_set_fresh by assumption.
        apply NoDup_app; [exact Hnd | |].
        -- repeat constructor; intros [].
        -- intros x Hx [<-|[]]; now apply Hfresh.
      * rewrite values_set_fresh, length_pushAt, length_app by assumption.
        apply Forall_app; split.
        -- eapply Forall_impl; [|exact Hlt]; cbn; intros; lia.
        -- repeat constructor; cbn; lia.
      * intros id' s' Ht' Hget'.
        rewrite get_set_other; [now apply Hs|].
        intros ->; rewrite (Hs _ _ Ht' Hget') in Hget; discriminate Hget.
    + exists (List.length (heap st)); cbn [sessionViolations].
      apply get_set_same.
    + intros id'; unfold history; cbn [heap sessionViolations].
      destruct (String.eqb_spec id id') as [<-|Hne].
      * rewrite get_set_same, Hget.
        rewrite deref_pushAt_same by (rewrite length_app; cbn; lia).
        now rewrite deref_alloc_new.
      * rewrite get_set_other by assumption.
        destruct (JSMap.get (sessionViolations st) id') as [ref'|] eqn:Hget';
          [|reflexivity].
        assert (Hin : (ref' < List.length (heap st))%nat)
          by (eapply registered_in_heap; eassumption).
        rewrite app_nil_r, deref_pushAt_other by lia.
        now apply deref_alloc_old.
    + intros f g Hadd; unfold summed; cbn [heap sessionViolations].
      rewrite values_set_fresh, sumOver_app by assumption.
      rewrite sumOver_pushAt_out, sumOver_alloc by assumption.
      unfold sumOver at 2; cbn [map fold_right].
      rewrite deref_pushAt_same by (rewrite length_app; cbn; lia).
      rewrite deref_alloc_new; destruct Hadd as [H0 Hadd].
      rewrite Hadd, H0; lia.
Qed.

Lemma orElse_truthy (header : option string) :
  JS.truthyOpt header = true -> JS.truthy (JS.orElse header "") = true.
Proof.
  destruct header as [h|]; cbn; [|discriminate].
  intros H; now rewrite H.
Qed.

(** One request on a consistent state. *)
Lemma handle_spec (isDev : bool) (st : State) (req : Request) :
  consistent st ->
  consistent (snd (handle isDev st req))
  /\ (forall id,
        history (snd (handle isDev st req)) id
        = (history st id ++ addedTo isDev req id)%list)
  /\ (forall f g,
        additive f g ->
        summed f (snd (handle isDev st req))
        = summed f st + weight g isDev req).
Proof.
  intros Hc.
  assert (Hsame : consistent st
                  /\ (forall id, history st id = (history st id ++ [])%list)
                  /\ (forall f g, additive f g -> summed f st = summed f st + 0)).
  { split; [exact Hc | split]; intros; [now rewrite app_nil_r | lia]. }
  destruct req as [header uuid psList netstat
                  |header behaviorMetrics biometricData score psList netstat
                  |sessionId| |header];
    unfold addedTo, weight; cbn [handle recorded snd].
  - (* check-processes *)
    unfold checkProcesses, analyzeProcesses.
    destruct psList as [processes|message]; [|exact Hsame].
    rewrite (tryBlock_cases _ None None).
    change (completes None None) with true; cbn [reportOf].
    set (id := JS.orElse header uuid).
    set (report := generateViolationReport _ None None).
    destruct (JS.truthy id) eqn:Ht.
    + destruct (trackSession_spec st id report Hc Ht)
        as (Hc1 & (ref & Hget) & Hhist & Hsum).
      unfold historyOrNew; rewrite Hget; cbn [snd].
      split; [|split].
      * apply consistent_update; [exact Hc1 | intros _; exact Hget].
      * exact Hhist.
      * exact Hsum.
    + rewrite trackSession_falsy by assumption.
      unfold historyOrNew.
      destruct (JSMap.get (sessionViolations st) id) as [ref|] eqn:Hget;
        cbn [alloc snd heap activeSessions sessionViolations].
      * split; [|exact (proj2 Hsame)].
        apply consistent_update; [exact Hc | congruence].
      * split; [|split].
        -- apply (consistent_update
                    (mkState (heap st ++ [[]]) (activeSessions st)
                       (sessionViolations st)));
             [now apply consistent_alloc | congruence].
        -- intros id'; rewrite app_nil_r.
           now apply (history_alloc st []).
        -- intros f g _; rewrite Z.add_0_r.
           now apply (summed_alloc f st []).
  - (* monitor-processes *)
    unfold monitorProcesses, analyzeProcesses.
    destruct psList as [processes|message];
      [|destruct (JS.truthyOpt header); exact Hsame].
    destruct (JS.truthyOpt header) eqn:Hh; cbn [negb andb]; [|exact Hsame].
    set (id := JS.orElse header "").
    pose proof (orElse_truthy header Hh) as Ht; fold id in Ht.
    rewrite tryBlock_cases.
    set (report := generateViolationReport _ behaviorMetrics biometricData).
    destruct (completes behaviorMetrics biometricData); cbn [reportOf snd].
    + destruct (trackSession_spec st id report Hc Ht)
        as (Hc1 & (ref & Hget) & Hhist & Hsum).
      destruct (JSMap.get (activeSessions (trackSession st (Some id) report)) id)
        as [session|] eqn:Hs.
      * unfold historyOrNew; rewrite Hget.
        split; [|split].
        -- apply consistent_update; [exact Hc1 | intros _; exact Hget].
        -- exact Hhist.
        -- exact Hsum.
      * split; [exact Hc1 | split; [exact Hhist | exact Hsum]].
    + destruct (JSMap.get (activeSessions st) id) as [session|] eqn:Hs;
        [|exact Hsame].
      pose proof (proj2 (proj2 Hc) id session Ht Hs) as Hget.
      unfold historyOrNew; rewrite Hget.
      split; [|exact (proj2 Hsame)].
      apply consistent_update; [exact Hc | intros _; exact Hget].
  - exact Hsame.
  - exact Hsame.
  - (* connection-details *)
    unfold getConnectionDetails.
    destruct (negb (JS.truthyOpt header)
              || negb (JSMap.has (activeSessions st) (JS.orElse header "")));
      [exact Hsame|].
    destruct (JSMap.get (activeSessions st) (JS.orElse header ""))
      as [session|] eqn:Hs; [|exact Hsame].
    cbn [snd]; split; [|exact (proj2 Hsame)].
    apply consistent_update; [exact Hc|].
    intros Ht; cbn [violationHistory].
    destruct Hc as (_ & _ & Hal); now apply Hal.
Qed.

Lemma run_app (isDev : bool) (requests more : list Request) (st : State) :
  run isDev (requests ++ more) st = run isDev more (run isDev requests st).
Proof. unfold run; apply fold_left_app. Qed.

(** A sequence of requests on a consistent state. *)
Lemma run_spec (isDev : bool) (requests : list Request) (st : State) :
  consistent st ->
  consistent (run isDev requests st)
  /\ (forall id,
        history (run isDev requests st) id
        = (history st id
           ++ flat_map (fun req => addedTo isDev req id) requests)%list)
  /\ (forall f g,
        additive f g ->
        summed f (run isDev requests st)
        = summed f st
          + fold_right Z.add 0 (map (weight g isDev) requests)).
Proof.
  revert st; induction requests as [|req requests IH]; intros st Hc.
  - split; [exact Hc | split]; intros; cbn; [now rewrite app_nil_r | lia].
  - destruct (handle_spec isDev st req Hc) as (Hc1 & Hh1 & Hs1).
    destruct (IH _ Hc1) as (Hc2 & Hh2 & Hs2).
    change (run isDev (req :: requests) st)
      with (run isDev requests (snd (handle isDev st req))).
    split; [exact Hc2 | split].
    + intros id; rewrite Hh2, Hh1; cbn [flat_map]; now rewrite app_assoc.
    + intros f g Hadd; rewrite (Hs2 f g Hadd), (Hs1 f g Hadd).
      cbn [map fold_right]; lia.
Qed.

Lemma reachable_consistent (isDev : bool) (requests : list Request) :
  consistent (run isDev requests initialState).
Proof. apply run_spec, consistent_initial. Qed.

(** X19: in every state that the server reaches, the violation history of a
    session object with a non-empty id is the very array registered for
    that id in the map of the session violations, so a session shown by an
    answer carries the history of its id, entries pushed later included. *)
Theorem session_history_shared (isDev : bool) (requests : list Request)
    (id : string) (session : Session) :
  JS.truthy id = true ->
  JSMap.get (activeSessions (run isDev requests initialState)) id
  = Some session ->
  JSMap.get (sessionViolations (run isDev requests initialState)) id
  = Some (violationHistory session)
  /\ view_violationHistory (viewOf (run isDev requests initialState) session)
     = history (run isDev requests initialState) id.
Proof.
  intros Ht Hget.
  destruct (reachable_consistent isDev requests) as (_ & _ & Hs).
  pose proof (Hs id session Ht Hget) as Hreg.
  split; [exact Hreg|].
  unfold viewOf, history; cbn [view_violationHistory]; now rewrite Hreg.
Qed.

Lemma session_history_shared_witness :
  JSMap.get
    (sessionViolations
       (run false
          [CheckProcesses (Some "session-1") "" (Returned idleDesktop)
             (Returned "");
           MonitorProcesses (Some "session-1") None None (Some 90)
             (Returned idleDesktop) (Returned "")]
          initialState))
    "session-1"
  = Some (violationHistory (mkSession 0 (Some 90) None))
  /\ view_violationHistory
       (viewOf
          (run false
             [CheckProcesses (Some "session-1") "" (Returned idleDesktop)
                (Returned "");
              MonitorProcesses (Some "session-1") None None (Some 90)
                (Returned idleDesktop) (Returned "")]
             initialState)
          (mkSession 0 (Some 90) None))
     = history
         (run false
            [CheckProcesses (Some "session-1") "" (Returned idleDesktop)
               (Returned "");
             MonitorProcesses (Some "session-1") None None (Some 90)
               (Returned idleDesktop) (Returned "")]
            initialState)
         "session-1".
Proof.
  apply (session_history_shared false
           [CheckProcesses (Some "session-1") "" (Returned idleDesktop)
              (Returned "");
            MonitorProcesses (Some "session-1") None None (Some 90)
              (Returned idleDesktop) (Returned "")]
           "session-1" (mkSession 0 (Some 90) None)).
  - reflexivity.
  - vm_compute; reflexivity.
Defined.

(** X20: the history of a session id is append-only and holds, in the order
    of the requests, one entry for each check made under that id whose
    process listing succeeded and for each monitoring request made under
    that id whose process listing succeeded and on whose payloads no
    analyzer threw, the entry of the report of that request; no other
    request, and no request under another id, changes it. *)
Theorem history_in_request_order (isDev : bool) (requests more : list Request)
    (id : string) :
  history (run isDev requests initialState) id
  = flat_map (fun req => addedTo isDev req id) requests
  /\ history (run isDev (requests ++ more) initialState) id
     = (history (run isDev requests initialState) id
        ++ flat_map (fun req => addedTo isDev req id) more)%list.
Proof.
  split.
  - now rewrite (proj1 (proj2 (run_spec isDev requests initialState
                                 consistent_initial))).
  - rewrite run_app.
    now rewrite (proj1 (proj2 (run_spec isDev more _
                                 (reachable_consistent isDev requests)))).
Qed.

(** X21: a check under a non-empty session id whose process listing
    succeeds opens the session whatever the report says: the session read
    back has no security score and no connection details, also when the
    session existed with both, its history is the earlier history of the id
    followed by the entry of this report, and connection details are then
    handed out for the id, also when the report is CRITICAL. *)
Theorem check_opens_session (isDev : bool) (requests : list Request)
    (header : option string) (uuid : string) (processes : list Process)
    (netstat : outcome string) :
  let st := run isDev requests initialState in
  let id := JS.orElse header uuid in
  let report :=
    generateViolationReport (analyze isDev processes netstat) None None in
  let result :=
    checkProcesses isDev st header uuid (Returned processes) netstat in
  JS.truthy id = true ->
  fst result = Checked (statusOf report) (severity report) report id
  /\ getSession (snd result) id
     = SessionInfo
         (mkSessionView None None (history st id ++ [recordOf report]))
  /\ fst (getConnectionDetails (snd result) (Some id))
     = Connection
         (mkConnectionDetails ("candidate-" ++ substring 0 8 id)
            ("interview-" ++ id)).
Proof.
  intros st id report result Ht; subst result.
  unfold checkProcesses, analyzeProcesses.
  rewrite (tryBlock_cases _ None None).
  change (completes None None) with true; cbn [reportOf].
  fold id; fold report.
  destruct (trackSession_spec st id report
              (reachable_consistent isDev requests) Ht)
    as (_ & (ref & Hget) & Hhist & _).
  unfold historyOrNew; rewrite Hget; cbn [fst snd].
  split; [reflexivity | split].
  - unfold getSession; cbn [activeSessions sessionViolations heap].
    rewrite get_set_same, Hget; cbn [securityScore connectionDetails].
    do 2 f_equal.
    pose proof (Hhist id) as H; unfold history at 1 in H.
    rewrite Hget, String.eqb_refl in H; exact H.
  - unfold getConnectionDetails; cbn [JS.truthyOpt JS.orElse activeSessions].
    rewrite Ht; unfold JSMap.has; rewrite get_set_same; reflexivity.
Qed.

Lemma check_opens_session_witness :
  getSession
    (snd (checkProcesses false initialState (Some "session-1") ""
            (Returned [mkProcess 4242 "electron.exe"
                         (Some "electron.exe main.js") 1])
            (Returned "")))
    "session-1"
  = SessionInfo (mkSessionView None None [mkHistoryRecord CRITICAL 1 40])
  /\ fst (getConnectionDetails
            (snd (checkProcesses false initialState (Some "session-1") ""
                    (Returned [mkProcess 4242 "electron.exe"
                                 (Some "electron.exe main.js") 1])
                    (Returned "")))
            (Some "session-1"))
     = Connection (mkConnectionDetails "candidate-session-" "interview-session-1").
Proof.
  pose proof (check_opens_session false [] (Some "session-1") ""
                [mkProcess 4242 "electron.exe" (Some "electron.exe main.js") 1]
                (Returned "") eq_refl) as (_ & Hsession & Hconnection).
  split.
  - etransitivity; [exact Hsession | vm_compute; reflexivity].
  - etransitivity; [exact Hconnection | vm_compute; reflexivity].
Defined.

(** X22: a monitoring request never opens a session, and its report is
    recorded exactly when no analyzer throws on a payload of the request.
    Under a non-empty session id and with a process listing that succeeds,
    the entry of the report is then appended to the history of the id,
    whether or not the session is open, and nothing is appended when an
    analyzer throws; if the session is open, its security score becomes the
    one of the request, its connection details stay, and the session
    statistics of the answer already show the new entry; if it is not, the
    answer carries no statistics and the session is still not found. *)
Theorem monitoring_records_report (isDev : bool) (requests : list Request)
    (header : option string) (behaviorMetrics : option BehaviorPayload)
    (biometricData : option BiometricPayload) (score : option Z)
    (processes : list Process) (netstat : outcome string) :
  let st := run isDev requests initialState in
  let id := JS.orElse header "" in
  let report :=
    generateViolationReport (analyze isDev processes netstat) behaviorMetrics
      biometricData in
  let result :=
    monitorProcesses isDev st header behaviorMetrics biometricData score
      (Returned processes) netstat in
  let entry :=
    if completes behaviorMetrics biometricData then [recordOf report]
    else [] in
  JS.truthyOpt header = true ->
  history (snd result) id = (history st id ++ entry)%list
  /\ match JSMap.get (activeSessions st) id with
     | Some session =>
         let view :=
           mkSessionView score (connectionDetails session)
             (history st id ++ entry) in
         fst result
         = Monitored (statusOf report) (severity report) report id (Some view)
         /\ getSession (snd result) id = SessionInfo view
     | None =>
         fst result
         = Monitored (statusOf report) (severity report) report id None
         /\ getSession (snd result) id = Failure 404 "Session not found"
     end.
Proof.
  intros st id report result entry Hh; subst result entry.
  pose proof (orElse_truthy header Hh) as Ht; fold id in Ht.
  pose proof (reachable_consistent isDev requests) as Hc; fold st in Hc.
  unfold monitorProcesses, analyzeProcesses; rewrite Hh; cbn [negb].
  rewrite tryBlock_cases; fold id; fold report.
  destruct (completes behaviorMetrics biometricData); cbn [reportOf].
  - destruct (trackSession_spec st id report Hc Ht)
      as (_ & (ref & Hget) & Hhist & _).
    pose proof (Hhist id) as Hid; rewrite String.eqb_refl in Hid.
    assert (Href : deref (heap (trackSession st (Some id) report)) ref
                   = (history st id ++ [recordOf report])%list).
    { rewrite <- Hid; unfold history; now rewrite Hget. }
    rewrite trackSession_active.
    destruct (JSMap.get (activeSessions st) id) as [session|] eqn:Hs.
    + unfold historyOrNew; rewrite Hget; cbn [fst snd].
      split; [|split].
      * unfold history; cbn [heap sessionViolations]; now rewrite Hget.
      * cbn [activeSessions]; rewrite get_set_same; cbn [option_map].
        unfold viewOf;
          cbn [securityScore connectionDetails violationHistory heap].
        now rewrite Href.
      * unfold getSession; cbn [activeSessions sessionViolations heap].
        rewrite get_set_same, Hget; cbn [securityScore connectionDetails].
        now rewrite Href.
    + cbn [fst snd]; rewrite trackSession_active, Hs; cbn [option_map].
      split; [exact Hid | split; [reflexivity|]].
      unfold getSession; now rewrite trackSession_active, Hs.
  - rewrite !app_nil_r.
    destruct (JSMap.get (activeSessions st) id) as [session|] eqn:Hs.
    + pose proof (proj2 (proj2 Hc) id session Ht Hs) as Hget.
      assert (Href : deref (heap st) (violationHistory session) = history st id)
        by (unfold history; now rewrite Hget).
      unfold historyOrNew; rewrite Hget; cbn [fst snd].
      split; [|split].
      * unfold history; cbn [heap sessionViolations]; reflexivity.
      * cbn [activeSessions]; rewrite get_set_same; cbn [option_map].
        unfold viewOf;
          cbn [securityScore connectionDetails violationHistory heap].
        now rewrite Href.
      * unfold getSession; cbn [activeSessions sessionViolations heap].
        rewrite get_set_same, Hget; cbn [securityScore connectionDetails].
        now rewrite Href.
    + cbn [fst snd]; rewrite Hs; cbn [option_map].
      split; [reflexivity | split; [reflexivity|]].
      unfold getSession; now rewrite Hs.
Qed.

Lemma monitoring_records_report_witness :
  history
    (snd (monitorProcesses false initialState (Some "session-1") None
            (Some (mkBiometricPayload false (Counter 40))) (Some 90)
            (Returned idleDesktop) noConnections))
    "session-1"
  = [mkHistoryRecord CLEAN 2 50]
  /\ history
       (snd (monitorProcesses false initialState (Some "session-1")
               (Some unreadableTabs)
               (Some (mkBiometricPayload false (Counter 40))) (Some 90)
               (Returned idleDesktop) noConnections))
       "session-1"
     = [].
Proof.
  pose proof (monitoring_records_report false [] (Some "session-1") None
                (Some (mkBiometricPayload false (Counter 40))) (Some 90)
                idleDesktop noConnections eq_refl) as (Hread & _).
  pose proof (monitoring_records_report false [] (Some "session-1")
                (Some unreadableTabs)
                (Some (mkBiometricPayload false (Counter 40))) (Some 90)
                idleDesktop noConnections eq_refl) as (Hthrown & _).
  split.
  - etransitivity; [exact Hread | vm_compute; reflexivity].
  - etransitivity; [exact Hthrown | vm_compute; reflexivity].
Defined.

(** The counters of the analytics. *)

Lemma countRecord_loop (l : list HistoryRecord) (a : Analytics) :
  fold_left countRecord l a
  = mkAnalytics (analytics_activeSessions a) (analytics_totalViolations a)
      (analytics_criticalViolations a + severityCount CRITICAL l)
      (analytics_highViolations a + severityCount HIGH l)
      (analytics_mediumViolations a + severityCount MEDIUM l)
      (analytics_lowViolations a + severityCount LOW l).
Proof.
  revert a; induction l as [|r l IH]; intros a.
  - cbn; rewrite !Z.add_0_r; now destruct a.
  - cbn [fold_left]; rewrite IH; unfold countRecord, severityCount.
    cbn [filter]; destruct (record_severity r);
      cbn [Severity_eqb analytics_activeSessions analytics_totalViolations
           analytics_criticalViolations analytics_highViolations
           analytics_mediumViolations analytics_lowViolations List.length];
      f_equal; lia.
Qed.

Lemma countRecord_histories (histories : list (list HistoryRecord))
    (a : Analytics) :
  fold_left (fun a violations => fold_left countRecord violations a)
    histories a
  = mkAnalytics (analytics_activeSessions a) (analytics_totalViolations a)
      (analytics_criticalViolations a
       + fold_right Z.add 0 (map (severityCount CRITICAL) histories))
      (analytics_highViolations a
       + fold_right Z.add 0 (map (severityCount HIGH) histories))
      (analytics_mediumViolations a
       + fold_right Z.add 0 (map (severityCount MEDIUM) histories))
      (analytics_lowViolations a
       + fold_right Z.add 0 (map (severityCount LOW) histories)).
Proof.
  revert a; induction histories as [|h histories IH]; intros a.
  - cbn; rewrite !Z.add_0_r; now destruct a.
  - cbn [fold_left]; rewrite IH, countRecord_loop.
    cbn [map fold_right analytics_activeSessions analytics_totalViolations
         analytics_criticalViolations analytics_highViolations
         analytics_mediumViolations analytics_lowViolations].
    f_equal; lia.
Qed.

Lemma lengths_loop (histories : list (list HistoryRecord)) (acc : Z) :
  fold_left (fun acc violations => acc + Z.of_nat (List.length violations))
    histories acc
  = acc + fold_right Z.add 0
            (map (fun h => Z.of_nat (List.length h)) histories).
Proof.
  revert acc; induction histories as [|h histories IH]; intros acc.
  - cbn; lia.
  - cbn [fold_left map fold_right]; rewrite IH; lia.
Qed.

Lemma sumOver_histories (f : list HistoryRecord -> Z) (st : State) :
  fold_right Z.add 0
    (map f (map (deref (heap st)) (JSMap.values (sessionViolations st))))
  = summed f st.
Proof. unfold summed, sumOver; now rewrite map_map. Qed.

Lemma additive_length :
  additive (fun h => Z.of_nat (List.length h)) (fun _ => 1).
Proof.
  split; [reflexivity|]; intros l y; rewrite length_app; cbn; lia.
Qed.

Lemma additive_severityCount (s : Severity) :
  additive (severityCount s)
    (fun r => if Severity_eqb (record_severity r) s then 1 else 0).
Proof.
  split; [reflexivity|]; intros l y; unfold severityCount.
  rewrite filter_app, length_app; cbn [filter].
  destruct (Severity_eqb (record_severity y) s); cbn; lia.
Qed.

Lemma additive_sum (f : list HistoryRecord -> Z) (g : HistoryRecord -> Z)
    (l : list HistoryRecord) :
  additive f g -> fold_right Z.add 0 (map g l) = f l.
Proof.
  intros [H0 Hadd]; induction l as [|x l IH] using rev_ind.
  - now rewrite H0.
  - rewrite Hadd, <- IH, map_app, fold_right_app; cbn [map fold_right].
    generalize (map g l); intros zs; induction zs as [|z zs IHz];
      cbn [fold_right]; lia.
Qed.

Lemma weights_of_records (g : HistoryRecord -> Z) (isDev : bool)
    (requests : list Request) :
  fold_right Z.add 0 (map (weight g isDev) requests)
  = fold_right Z.add 0 (map g (map snd (records isDev requests))).
Proof.
  unfold records, weight; induction requests as [|req requests IH];
    [reflexivity|].
  cbn [map fold_right flat_map]; rewrite IH.
  destruct (recorded isDev req) as [[id r]|]; cbn; lia.
Qed.

Lemma summed_reachable (f : list HistoryRecord -> Z) (g : HistoryRecord -> Z)
    (isDev : bool) (requests : list Request) :
  additive f g ->
  summed f (run isDev requests initialState)
  = f (map snd (records isDev requests)).
Proof.
  intros Hadd.
  rewrite (proj2 (proj2 (run_spec isDev requests initialState
                           consistent_initial)) f g Hadd).
  rewrite weights_of_records, (additive_sum f g) by assumption.
  reflexivity.
Qed.

Lemma report_severity_not_low (results : Results)
    (behaviorData : option BehaviorPayload)
    (biometricData : option BiometricPayload) :
  severity (generateViolationReport results behaviorData biometricData) <> LOW.
Proof.
  rewrite report_severity_loops; intros Hlow.
  destruct (maxSeverity_in (effectiveSeverities results)) as [H|H];
    [congruence|].
  rewrite Hlow in H; unfold effectiveSeverities in H.
  repeat (apply in_app_or in H as [H|H]);
    apply in_map_iff in H as (x & Hx & _).
  - destruct (unauthorized_severity x); discriminate.
  - destruct (suspicious_severity x); discriminate.
  - destruct (domain_severity x); discriminate.
  - destruct (threat_level x); discriminate.
Qed.

Lemma records_not_low (isDev : bool) (requests : list Request) :
  Forall (fun r => record_severity r <> LOW)
         (map snd (records isDev requests)).
Proof.
  unfold records; induction requests as [|req requests IH];
    [constructor|].
  cbn [flat_map]; rewrite map_app; apply Forall_app; split; [|exact IH].
  destruct req as [header uuid [processes|message] netstat
                  |header behaviorMetrics biometricData score
                     [processes|message] netstat
                  |sessionId| |header]; cbn [recorded map];
    try constructor.
  - destruct (JS.truthy (JS.orElse header uuid)); cbn [map];
      repeat constructor.
    apply report_severity_not_low.
  - destruct (JS.truthyOpt header && completes behaviorMetrics biometricData);
      cbn [map]; repeat constructor.
    apply report_severity_not_low.
Qed.

Lemma severityCount_absent (s : Severity) (l : list HistoryRecord) :
  Forall (fun r => record_severity r <> s) l -> severityCount s l = 0.
Proof.
  unfold severityCount; induction 1 as [|r l Hr _ IH]; [reflexivity|].
  cbn [filter]; destruct (Severity_eqb (record_severity r) s) eqn:E;
    [|exact IH].
  exfalso; apply Hr; destruct (record_severity r), s; (discriminate || reflexivity).
Qed.

Lemma severityCount_all (l : list HistoryRecord) :
  Z.of_nat (List.length l)
  = severityCount CRITICAL l + severityCount HIGH l + severityCount MEDIUM l
    + severityCount LOW l + severityCount CLEAN l.
Proof.
  unfold severityCount; induction l as [|r l IH]; [reflexivity|].
  cbn [filter List.length]; destruct (record_severity r);
    cbn [Severity_eqb List.length]; lia.
Qed.

(** X23: the analytics count reports, not violations.  In every state that
    the server reaches, [totalViolations] is the number of entries recorded
    by the requests so far, one for each check and for each monitoring
    request on whose payloads no analyzer threw, under a non-empty session
    id and with a process listing that succeeded, clean reports included
    and whatever the number of violations of a report; the CRITICAL, HIGH
    and MEDIUM counters are the numbers of those entries of that report
    severity, [lowViolations] is always 0, and the entries of clean reports
    make up the rest of [totalViolations]. *)
Theorem analytics_count_reports (isDev : bool) (requests : list Request) :
  let a := analyticsOf (getAnalytics (run isDev requests initialState)) in
  let entries := map snd (records isDev requests) in
  analytics_totalViolations a = Z.of_nat (List.length entries)
  /\ analytics_criticalViolations a = severityCount CRITICAL entries
  /\ analytics_highViolations a = severityCount HIGH entries
  /\ analytics_mediumViolations a = severityCount MEDIUM entries
  /\ analytics_lowViolations a = 0
  /\ analytics_totalViolations a
     = analytics_criticalViolations a + analytics_highViolations a
       + analytics_mediumViolations a + severityCount CLEAN entries.
Proof.
  intros a entries; subst a.
  unfold getAnalytics; cbn [analyticsOf].
  rewrite countRecord_histories, lengths_loop, !sumOver_histories.
  cbn [analytics_totalViolations analytics_criticalViolations
       analytics_highViolations analytics_mediumViolations
       analytics_lowViolations].
  rewrite (summed_reachable _ _ isDev requests additive_length).
  rewrite !(summed_reachable _ _ isDev requests (additive_severityCount _)).
  fold entries.
  pose proof (severityCount_absent LOW entries (records_not_low isDev requests))
    as Hlow.
  pose proof (severityCount_all entries) as Hall.
  repeat split; lia.
Qed.

(** A clean check alone makes the analytics show one violation. *)
Example clean_check_counts_as_violation :
  analyticsOf
    (getAnalytics
       (run false
          [CheckProcesses (Some "session-1") "" (Returned idleDesktop)
             (Returned "")]
          initialState))
  = mkAnalytics 1 1 0 0 0 0.
Proof. vm_compute; reflexivity. Qed.

(** A monitoring request on whose payload an analyzer throws is answered
    with its report, and neither the history nor the analytics show it. *)
Example caught_monitoring_is_not_counted :
  let requests :=
    [CheckProcesses (Some "session-1") "" (Returned idleDesktop)
       noConnections;
     MonitorProcesses (Some "session-1") (Some unreadableTabs) None (Some 90)
       (Returned electronMain) noConnections] in
  history (run false requests initialState) "session-1"
  = [mkHistoryRecord CLEAN 0 0]
  /\ analyticsOf (getAnalytics (run false requests initialState))
     = mkAnalytics 1 1 0 0 0 0.
Proof. vm_compute; split; reflexivity. Qed.

(** The open sessions. *)

Lemma historyOrNew_active (st : State) (id : string) :
  activeSessions (snd (historyOrNew st id)) = activeSessions st.
Proof.
  unfold historyOrNew; destruct (JSMap.get (sessionViolations st) id);
    reflexivity.
Qed.

Lemma has_set_present {V : Type} (m : JSMap.t V) (k k' : string) (v v' : V) :
  JSMap.get m k = Some v' ->
  JSMap.has (JSMap.set m k v) k' = JSMap.has m k'.
Proof.
  intros H; rewrite has_set.
  destruct (String.eqb_spec k k') as [<-|Hne]; [|reflexivity].
  unfold JSMap.has; now rewrite H.
Qed.

Lemma handle_active (isDev : bool) (st : State) (req : Request) (id : string) :
  JSMap.has (activeSessions (snd (handle isDev st req))) id
  = JSMap.has (activeSessions st) id || opens id req.
Proof.
  destruct req as [header uuid psList netstat
                  |header behaviorMetrics biometricData score psList netstat
                  |sessionId| |header]; cbn [handle opens snd];
    try now rewrite orb_false_r.
  - unfold checkProcesses, analyzeProcesses.
    destruct psList as [processes|message]; [|now rewrite orb_false_r].
    set (st1 := match tryBlock _ None None with
                | Completed _ => _
                | Caught _ _ => st
                end).
    assert (H1 : activeSessions st1 = activeSessions st)
      by (subst st1; destruct (tryBlock _ None None);
          [apply trackSession_active | reflexivity]).
    pose proof (historyOrNew_active st1 (JS.orElse header uuid)) as H.
    destruct (historyOrNew _ _) as [ref st']; cbn [snd] in H |- *.
    cbn [activeSessions]; rewrite has_set, H, H1.
    apply orb_comm.
  - rewrite orb_false_r; unfold monitorProcesses, analyzeProcesses.
    destruct (JS.truthyOpt header); cbn [negb]; [|reflexivity].
    destruct psList as [processes|message]; [|reflexivity].
    cbn [snd].
    set (st1 := match tryBlock _ behaviorMetrics biometricData with
                | Completed _ => _
                | Caught _ _ => st
                end).
    assert (H1 : activeSessions st1 = activeSessions st)
      by (subst st1; destruct (tryBlock _ behaviorMetrics biometricData);
          [apply trackSession_active | reflexivity]).
    destruct (JSMap.get (activeSessions st1) (JS.orElse header ""))
      as [session|] eqn:Hs.
    + pose proof (historyOrNew_active st1 (JS.orElse header "")) as H.
      destruct (historyOrNew _ _) as [ref st']; cbn [snd] in H.
      cbn [activeSessions]; rewrite H.
      rewrite (has_set_present _ _ _ _ _ Hs).
      now rewrite H1.
    + now rewrite H1.
  - rewrite orb_false_r; unfold getConnectionDetails.
    destruct (negb (JS.truthyOpt header) || _); [reflexivity|].
    destruct (JSMap.get (activeSessions st) (JS.orElse header ""))
      as [session|] eqn:Hs; [|reflexivity].
    cbn [snd activeSessions]; now rewrite (has_set_present _ _ _ _ _ Hs).
Qed.

Lemma run_active (isDev : bool) (requests : list Request) (st : State)
    (id : string) :
  JSMap.has (activeSessions (run isDev requests st)) id
  = JSMap.has (activeSessions st) id || existsb (opens id) requests.
Proof.
  revert st; induction requests as [|req requests IH]; intros st.
  - cbn; now rewrite orb_false_r.
  - change (run isDev (req :: requests) st)
      with (run isDev requests (snd (handle isDev st req))).
    rewrite IH, handle_active; cbn [existsb]; now rewrite orb_assoc.
Qed.

(** X24: sessions never expire.  A session id is open in a state that the
    server reaches exactly when some earlier check under that id had a
    process listing that succeeded; no request closes a session, and the
    severity of the reports plays no role.  Connection details are handed
    out exactly for the open sessions with a non-empty id, and refused with
    code 401 otherwise. *)
Theorem sessions_never_expire (isDev : bool) (requests : list Request) :
  (forall id,
     JSMap.has (activeSessions (run isDev requests initialState)) id
     = existsb (opens id) requests)
  /\ (forall id more,
        JSMap.has (activeSessions (run isDev requests initialState)) id = true ->
        JSMap.has (activeSessions (run isDev (requests ++ more) initialState)) id
        = true)
  /\ (forall header,
        fst (getConnectionDetails (run isDev requests initialState) header)
        = if JS.truthyOpt header
             && existsb (opens (JS.orElse header "")) requests
          then Connection
                 (mkConnectionDetails
                    ("candidate-" ++ substring 0 8 (JS.orElse header ""))
                    ("interview-" ++ JS.orElse header ""))
          else Failure 401 "Invalid or expired session").
Proof.
  split; [|split].
  - intros id; now rewrite run_active.
  - intros id more H; rewrite run_app, run_active, H; reflexivity.
  - intros header; unfold getConnectionDetails.
    pose proof (run_active isDev requests initialState (JS.orElse header ""))
      as H.
    change (JSMap.has (activeSessions initialState) (JS.orElse header ""))
      with false in H; cbn [orb] in H; rewrite <- H.
    destruct (JS.truthyOpt header); cbn [negb orb andb]; [|reflexivity].
    unfold JSMap.has.
    destruct (JSMap.get (activeSessions (run isDev requests initialState))
                (JS.orElse header "")); reflexivity.
Qed.

End Sessions.
